(** * BANG (binaryanalysis-ng): two unpack parsers and the Debian crawler

    A shallow embedding of
    - [parsers/image/bmp/UnpackParser.py] ([BmpUnpackParser]),
    - [parsers/firmware/android_boot_huawei/UnpackParser.py]
      ([AndroidBootHuaweiUnpackParser]),
    - [crawlers/debiancrawler.py] ([downloadfile] and [main]),
    followed by the properties of the specification that concern them.

    Python objects are records whose methods are computations in a state and
    exception monad over the record; attributes that a method may find unset
    are options.  Dictionaries are [gmap]s, lists are lists, unbounded
    Python integers read from unsigned fields are [N], other integers are
    [Z]. *)

From Stdlib Require Import NArith ZArith Ascii String List Lia.
From stdpp Require Import base tactics option list strings gmap.

Local Open Scope string_scope.
Local Open Scope N_scope.
Local Open Scope list_scope.
Local Open Scope stdpp_scope.
Set Warnings "-register-all".

(** ** Python values, exceptions and the monad of methods *)

Module Py.

(** The values that end up in exception arguments and metadata. *)
Inductive pyval :=
| PyStr (s : string)
| PyInt (n : N)
| PyTuple (l : list pyval)
| PyList (l : list pyval)
| PyDict (kv : list (string * pyval)).

(** The exception classes that occur in the three files and in what they
    call.  The classes of the kaitai run time are those of kaitaistruct
    0.9, for which the handlers of the two parsers are written:
    [KaitaiStructError] derives from [BaseException], not from
    [Exception], which is why the handlers name [ValidationNotEqualError]
    beside [Exception]. *)
Inductive exc_class :=
| BaseException
| Exception
| KeyboardInterrupt
| AttributeError
| IndexError
| ValueError
| UnicodeDecodeError
| EOFError
| OSError
| FileNotFoundError
| FileExistsError
| IsADirectoryError
| NotADirectoryError
| KaitaiStructError
| UndecidedEndiannessError
| ValidationFailedError
| ValidationNotEqualError
| ValidationLessThanError
| ValidationGreaterThanError
| ValidationNotAnyOfError
| ValidationExprError
| RequestException
| UnpackParserException.

Global Instance exc_class_eq_dec : EqDecision exc_class.
Proof. solve_decision. Defined.

(** The class itself followed by its ancestors up to [BaseException]. *)
Definition mro (c : exc_class) : list exc_class :=
  match c with
  | BaseException => [BaseException]
  | Exception => [Exception; BaseException]
  | KeyboardInterrupt => [KeyboardInterrupt; BaseException]
  | AttributeError => [AttributeError; Exception; BaseException]
  | IndexError => [IndexError; Exception; BaseException]
  | ValueError => [ValueError; Exception; BaseException]
  | UnicodeDecodeError =>
      [UnicodeDecodeError; ValueError; Exception; BaseException]
  | EOFError => [EOFError; Exception; BaseException]
  | OSError => [OSError; Exception; BaseException]
  | FileNotFoundError =>
      [FileNotFoundError; OSError; Exception; BaseException]
  | FileExistsError => [FileExistsError; OSError; Exception; BaseException]
  | IsADirectoryError =>
      [IsADirectoryError; OSError; Exception; BaseException]
  | NotADirectoryError =>
      [NotADirectoryError; OSError; Exception; BaseException]
  | KaitaiStructError => [KaitaiStructError; BaseException]
  | UndecidedEndiannessError =>
      [UndecidedEndiannessError; KaitaiStructError; BaseException]
  | ValidationFailedError =>
      [ValidationFailedError; KaitaiStructError; BaseException]
  | ValidationNotEqualError =>
      [ValidationNotEqualError; ValidationFailedError; KaitaiStructError;
       BaseException]
  | ValidationLessThanError =>
      [ValidationLessThanError; ValidationFailedError; KaitaiStructError;
       BaseException]
  | ValidationGreaterThanError =>
      [ValidationGreaterThanError; ValidationFailedError; KaitaiStructError;
       BaseException]
  | ValidationNotAnyOfError =>
      [ValidationNotAnyOfError; ValidationFailedError; KaitaiStructError;
       BaseException]
  | ValidationExprError =>
      [ValidationExprError; ValidationFailedError; KaitaiStructError;
       BaseException]
  | RequestException =>
      [RequestException; OSError; Exception; BaseException]
  | UnpackParserException => [UnpackParserException; Exception; BaseException]
  end.

Definition issubclass (c d : exc_class) : bool := bool_decide (d ∈ mro c).

Record exception := mk_exception { exc_type : exc_class; args : list pyval }.

(** [isinstance e (c1, ..., cn)]: what an [except (c1, ..., cn)] clause
    tests. *)
Definition isinstance (e : exception) (classes : list exc_class) : bool :=
  existsb (issubclass (exc_type e)) classes.

(** How a call ends. *)
Inductive result (A : Type) :=
| Return (a : A)
| Raise (e : exception).
Global Arguments Return {A} a.
Global Arguments Raise {A} e.

(** A method of an object of state [S]: it ends with a value or an
    exception, and the attributes it has assigned stay assigned in both
    cases. *)
Definition M (S A : Type) : Type := S → result A * S.

Global Instance M_ret {S} : MRet (M S) := λ A a s, (Return a, s).
Global Instance M_bind {S} : MBind (M S) := λ A B f m s,
  match m s with
  | (Return a, s') => f a s'
  | (Raise e, s') => (Raise e, s')
  end.

Definition raise {S A} (e : exception) : M S A := λ s, (Raise e, s).
Definition get {S} : M S S := λ s, (Return s, s).
Definition put {S} (s : S) : M S unit := λ _, (Return tt, s).
Definition modify {S} (f : S → S) : M S unit := λ s, (Return tt, f s).

(** [try: m except classes as e: handler e]. *)
Definition try_except {S A} (m : M S A) (classes : list exc_class)
    (handler : exception → M S A) : M S A := λ s,
  match m s with
  | (Return a, s') => (Return a, s')
  | (Raise e, s') =>
      if isinstance e classes then handler e s' else (Raise e, s')
  end.

(** [for x in l: body x]. *)
Fixpoint for_in {S A} (l : list A) (body : A → M S unit) : M S unit :=
  match l with
  | [] => mret tt
  | x :: l' => body x ;; for_in l' body
  end.

(** Reading an attribute that may not have been assigned yet. *)
Definition getattr {S A} (attr : S → option A) (name : string) : M S A :=
  λ s, match attr s with
       | Some a => (Return a, s)
       | None => (Raise (mk_exception AttributeError [PyStr name]), s)
       end.

End Py.

(** ** Python's [str]

    A string is a sequence of characters with codes below 256. *)

Module str.
Import Py.

Definition startswith (s prefix : string) : bool := String.prefix prefix s.

Definition endswith (s suffix : string) : bool :=
  bool_decide (list_ascii_of_string suffix `suffix_of` list_ascii_of_string s).

(** [s[n:]] *)
Fixpoint slice_from (n : nat) (s : string) : string :=
  match n, s with
  | O, _ => s
  | S n', String _ s' => slice_from n' s'
  | S _, EmptyString => EmptyString
  end.

(** [s.split(sep)] for a one-character separator: the pieces between the
    separators, empty ones kept. *)
Fixpoint split (sep : ascii) (s : string) : list string :=
  match s with
  | EmptyString => [EmptyString]
  | String c s' =>
      if Ascii.eqb c sep then EmptyString :: split sep s'
      else match split sep s' with
           | [] => [String c EmptyString]
           | piece :: pieces => String c piece :: pieces
           end
  end.

(** [s.rsplit(sep, 1)]: cut at the last separator, if there is one. *)
Definition rsplit1 (sep : ascii) (s : string) : list string :=
  match split sep s with
  | [] | [_] => [s]
  | pieces =>
      [String.concat (String sep EmptyString) (removelast pieces);
       List.last pieces EmptyString]
  end.

(** [c.isspace()] *)
Definition isspace (c : ascii) : bool :=
  let n := N_of_ascii c in
  ((9 <=? n) && (n <=? 13)) || ((28 <=? n) && (n <=? 32))
  || (n =? 133) || (n =? 160).

Fixpoint lstrip (s : string) : string :=
  match s with
  | String c s' => if isspace c then lstrip s' else s
  | EmptyString => EmptyString
  end.

(** [s.strip()] *)
Definition strip (s : string) : string :=
  String.rev (lstrip (String.rev (lstrip s))).

(** [re.sub(r'  +', ' ', s)]: every maximal run of two or more spaces
    becomes one space. *)
Fixpoint squeeze_spaces (s : string) : string :=
  match s with
  | String " " ((String " " _) as s') =>
      match squeeze_spaces s' with
      | String " " r => String " " r
      | r => String " " r
      end
  | String c s' => String c (squeeze_spaces s')
  | EmptyString => EmptyString
  end.

(** The digits of [int]'s argument, most significant first; [None] when a
    character is no digit or an underscore does not stand between two
    digits. *)
Fixpoint digits (s : string) (acc : N) (after_digit : bool) : option N :=
  match s with
  | EmptyString => if after_digit then Some acc else None
  | String "_" s' => if after_digit then digits s' acc false else None
  | String c s' =>
      match Ascii.is_nat c with
      | Some d => digits s' (10 * acc + N.of_nat d) true
      | None => None
      end
  end.

(** The characters that [int] skips at the two ends of its argument: the
    blanks of C's [isspace], and the two blanks above 127, which [int]
    turns into spaces before it reads the number.  The separators 28 to
    31, which [strip] removes, are not among them. *)
Definition int_isspace (c : ascii) : bool :=
  let n := N_of_ascii c in
  ((9 <=? n) && (n <=? 13)) || (n =? 32) || (n =? 133) || (n =? 160).

Fixpoint int_lstrip (s : string) : string :=
  match s with
  | String c s' => if int_isspace c then int_lstrip s' else s
  | EmptyString => EmptyString
  end.

Definition int_strip (s : string) : string :=
  String.rev (int_lstrip (String.rev (int_lstrip s))).

(** A character that [repr] writes as it is. *)
Definition isprintable (c : ascii) : bool :=
  let n := N_of_ascii c in
  ((32 <=? n) && (n <? 127)) || ((161 <=? n) && negb (n =? 173)).

Definition hexdigit (n : N) : ascii :=
  ascii_of_N (if n <? 10 then 48 + n else 87 + n).

(** One character of [repr(s)] between the quotes [quote]. *)
Definition repr_char (quote c : ascii) : string :=
  let n := N_of_ascii c in
  let backslash := "092"%char in
  if Ascii.eqb c quote || Ascii.eqb c backslash then
    String backslash (String c "")
  else if n =? 9 then String backslash "t"
  else if n =? 10 then String backslash "n"
  else if n =? 13 then String backslash "r"
  else if isprintable c then String c ""
  else String backslash
         (String "x"
            (String (hexdigit (n / 16)) (String (hexdigit (n mod 16)) ""))).

(** [repr(s)]: in double quotes when [s] holds a single quote and no
    double one, in single quotes otherwise. *)
Definition repr (s : string) : string :=
  let chars := list_ascii_of_string s in
  let quote :=
    if bool_decide ("'"%char ∈ chars)
       && negb (bool_decide ("034"%char ∈ chars))
    then "034"%char else "'"%char in
  String quote
    (String.concat "" (repr_char quote <$> chars) +:+ String quote "").

(** [int(s)] for a string: blanks around, a sign, decimal digits, of which
    there may be any number.  The message of the [ValueError] ends with the
    first 200 characters of [repr(s)]. *)
Definition int {S} (s : string) : M S Z :=
  let body := int_strip s in
  let parsed :=
    match body with
    | String "-" r => Z.opp <$> (Z.of_N <$> digits r 0 false)
    | String "+" r => Z.of_N <$> digits r 0 false
    | r => Z.of_N <$> digits r 0 false
    end in
  match parsed with
  | Some z => mret z
  | None =>
      raise (mk_exception ValueError
               [PyStr ("invalid literal for int() with base 10: "
                       +:+ String.substring 0 200 (repr s))])
  end.

(** [l[i]] *)
Definition getitem {S A} (l : list A) (i : nat) : M S A :=
  match l !! i with
  | Some a => mret a
  | None => raise (mk_exception IndexError [PyStr "index out of range"])
  end.

End str.

(** ** pathlib *)

Module pathlib.

(** A pure path, as its [parts]. *)
Abbreviation Path := (list string).

Definition is_absolute (s : string) : bool := str.startswith s "/".

(** The root of an absolute path: [//] when the string begins with exactly
    two slashes, which POSIX sets apart, and [/] otherwise. *)
Definition root (s : string) : string :=
  if str.startswith s "//" && negb (str.startswith s "///") then "//"
  else "/".

(** The parts of one string segment: slashes separate, empty and [.]
    components vanish, leading slashes are the root. *)
Definition parse_parts (s : string) : Path :=
  (if is_absolute s then [root s] else []) ++
  filter (λ c, c ≠ "" ∧ c ≠ ".") (str.split "/" s).

(** [p / q]: an absolute right operand replaces the left one. *)
Definition truediv (p q : Path) : Path :=
  match q with
  | "/" :: _ | "//" :: _ => q
  | _ => p ++ q
  end.

(** [Path(s)] and [Path(p, s1, ..., sn)]. *)
Definition Path_of (s : string) : Path := parse_parts s.
Definition Path_join (p : Path) (segments : list string) : Path :=
  foldl (λ acc seg, truediv acc (parse_parts seg)) p segments.

(** [str(p)] *)
Definition to_str (p : Path) : string :=
  match p with
  | [] => "."
  | "/" :: rest => "/" +:+ String.concat "/" rest
  | "//" :: rest => "//" +:+ String.concat "/" rest
  | _ => String.concat "/" p
  end.

(** [p.parent] *)
Definition parent (p : Path) : Path := removelast p.

End pathlib.

(** ** The objects the parsers are handed (FileResult.py, UnpackParser.py)

    Neither module is among the sources; the records hold what the two
    parsers read from them and write to them. *)

Module UnpackParser.
Import Py.

Inductive FileResult :=
| mkFileResult (parent : option FileResult) (filename : pathlib.Path)
    (labels : list string).

(** [self.unpack_results]: [set_labels] and [set_metadata] store their
    argument. *)
Record UnpackResults := mkUnpackResults {
  get_labels : option (list string);
  get_metadata : option (gmap string pyval)
}.

Definition set_labels (l : list string) (r : UnpackResults) : UnpackResults :=
  mkUnpackResults (Some l) (get_metadata r).
Definition set_metadata (m : gmap string pyval) (r : UnpackResults)
    : UnpackResults :=
  mkUnpackResults (get_labels r) (Some m).

(** Modelled from the spec: [check_condition] of UnpackParser.py, which is
    not among the sources.  A validation condition that does not hold fails
    the parse with the structural-mismatch signal, [UnpackParserException],
    carrying the message. *)
Definition check_condition {S} (condition : bool) (message : string)
    : M S unit :=
  if condition then mret tt
  else raise (mk_exception UnpackParserException [PyStr message]).

(** One call of [self.extract_to_file(path, start, length)]; the method is
    the base class's and is recorded, not executed. *)
Record extract_call := mk_extract_call {
  extract_path : pathlib.Path;
  extract_start : N;
  extract_length : N
}.

End UnpackParser.

(** ** The kaitai readers (bmp.py, android_img_huawei.py)

    The generated readers are not among the sources.  The parsers use three
    things of them: the fields below, which are unsigned integers and a
    string, and how [from_io] ends on the parser's input, which is therefore
    an input of the model. *)

Module bmp.

Record FileHeader := mkFileHeader { len_file : N }.
Record Bmp := mkBmp { file_hdr : FileHeader }.

End bmp.

Module android_img_huawei.

Record ImgHeader := mkImgHeader { meta_header_size : N }.
Record ImgHeaderEntry := mkImgHeaderEntry {
  name : string;
  offset : N;
  size : N
}.
Record AndroidImgHuawei := mkAndroidImgHuawei {
  img_header : ImgHeader;
  img_header_entries : list ImgHeaderEntry
}.

End android_img_huawei.

(** ** parsers/image/bmp/UnpackParser.py *)

Module BmpUnpackParser.
Import Py UnpackParser.

Record Self := mkSelf {
  (** the length of the input file; this parser never asks for it *)
  st_size : N;
  (** how [bmp.Bmp.from_io(self.infile)] ends *)
  from_io_infile : result bmp.Bmp;
  (** how many times [self.infile] has been handed to the reader *)
  infile_reads : nat;
  chunknames : option (list string);
  data : option bmp.Bmp;
  unpacked_size : option N;
  unpack_results : UnpackResults
}.

Definition set_infile_reads v (self : Self) : Self :=
  mkSelf (st_size self) (from_io_infile self) v (chunknames self)
    (data self) (unpacked_size self) (unpack_results self).
Definition set_chunknames v (self : Self) : Self :=
  mkSelf (st_size self) (from_io_infile self) (infile_reads self) (Some v)
    (data self) (unpacked_size self) (unpack_results self).
Definition set_data v (self : Self) : Self :=
  mkSelf (st_size self) (from_io_infile self) (infile_reads self)
    (chunknames self) (Some v) (unpacked_size self) (unpack_results self).
Definition set_unpacked_size v (self : Self) : Self :=
  mkSelf (st_size self) (from_io_infile self) (infile_reads self)
    (chunknames self) (data self) (Some v) (unpack_results self).
Definition set_unpack_results v (self : Self) : Self :=
  mkSelf (st_size self) (from_io_infile self) (infile_reads self)
    (chunknames self) (data self) (unpacked_size self) v.

Definition from_io : M Self bmp.Bmp := λ self,
  (from_io_infile self, set_infile_reads (S (infile_reads self)) self).

Definition parse : M Self unit :=
  modify (set_chunknames []) ;;
  d ← try_except from_io [Exception; ValidationNotEqualError]
        (λ e, raise (mk_exception UnpackParserException [PyTuple (args e)]));
  modify (set_data d).

Definition calculate_unpacked_size : M Self unit :=
  d ← getattr data "data";
  modify (set_unpacked_size (bmp.len_file (bmp.file_hdr d))).

Definition set_metadata_and_labels : M Self unit :=
  let labels := ["bmp"; "graphics"] in
  let metadata : gmap string pyval := ∅ in
  modify (λ self,
    set_unpack_results (set_metadata metadata (unpack_results self)) self) ;;
  modify (λ self,
    set_unpack_results (set_labels labels (unpack_results self)) self).

End BmpUnpackParser.

(** ** parsers/firmware/android_boot_huawei/UnpackParser.py *)

Module AndroidBootHuaweiUnpackParser.
Import Py UnpackParser.

Record Self := mkSelf {
  fileresult : FileResult;
  (** [self.fileresult.filename.stat()]: the [st_size] of what it returns,
      and the exception with which it ends when it does not return *)
  st_size : N;
  stat_raises : option exception;
  (** how [android_img_huawei.AndroidImgHuawei.from_io(self.infile)] ends *)
  from_io_infile : result android_img_huawei.AndroidImgHuawei;
  (** how many times [self.infile] has been handed to the reader *)
  infile_reads : nat;
  rel_unpack_dir : pathlib.Path;
  data : option android_img_huawei.AndroidImgHuawei;
  unpacked_size : option N;
  unpack_results : UnpackResults;
  (** the calls of [extract_to_file] so far, oldest first *)
  extracted : list extract_call
}.

Definition set_infile_reads v (self : Self) : Self :=
  mkSelf (fileresult self) (st_size self) (stat_raises self)
    (from_io_infile self) v (rel_unpack_dir self) (data self)
    (unpacked_size self) (unpack_results self) (extracted self).
Definition set_data v (self : Self) : Self :=
  mkSelf (fileresult self) (st_size self) (stat_raises self)
    (from_io_infile self) (infile_reads self) (rel_unpack_dir self) (Some v)
    (unpacked_size self) (unpack_results self) (extracted self).
Definition set_unpacked_size v (self : Self) : Self :=
  mkSelf (fileresult self) (st_size self) (stat_raises self)
    (from_io_infile self) (infile_reads self) (rel_unpack_dir self)
    (data self) (Some v) (unpack_results self) (extracted self).
Definition set_unpack_results v (self : Self) : Self :=
  mkSelf (fileresult self) (st_size self) (stat_raises self)
    (from_io_infile self) (infile_reads self) (rel_unpack_dir self)
    (data self) (unpacked_size self) v (extracted self).
Definition set_extracted v (self : Self) : Self :=
  mkSelf (fileresult self) (st_size self) (stat_raises self)
    (from_io_infile self) (infile_reads self) (rel_unpack_dir self)
    (data self) (unpacked_size self) (unpack_results self) v.

(** [self.fileresult.filename.stat().st_size] *)
Definition stat_st_size : M Self N := λ self,
  match stat_raises self with
  | Some e => (Raise e, self)
  | None => (Return (st_size self), self)
  end.

Definition from_io : M Self android_img_huawei.AndroidImgHuawei := λ self,
  (from_io_infile self, set_infile_reads (S (infile_reads self)) self).

Definition extract_to_file (filename : pathlib.Path) (start length : N)
    : M Self unit :=
  modify (λ self,
    set_extracted (extracted self ++ [mk_extract_call filename start length])
      self).

Definition parse : M Self unit :=
  file_size ← stat_st_size;
  d ← try_except from_io [Exception; ValidationNotEqualError]
        (λ e, raise (mk_exception UnpackParserException [PyTuple (args e)]));
  modify (set_data d) ;;
  d ← getattr data "data";
  check_condition
    (android_img_huawei.meta_header_size (android_img_huawei.img_header d)
       =? 76)
    "invalid header size" ;;
  modify (set_unpacked_size 0) ;;
  d ← getattr data "data";
  for_in (android_img_huawei.img_header_entries d) (λ entry,
    u ← getattr unpacked_size "unpacked_size";
    modify (set_unpacked_size
      (N.max u (android_img_huawei.offset entry
                + android_img_huawei.size entry)))) ;;
  u ← getattr unpacked_size "unpacked_size";
  check_condition (u <=? file_size) "not enough data".

Definition carve : M Self unit := mret tt.

(** The loop of [unpack], with [unpacked_files] as its accumulator. *)
Fixpoint unpack_loop (entries : list android_img_huawei.ImgHeaderEntry)
    (unpacked_files : list FileResult) : M Self (list FileResult) :=
  match entries with
  | [] => mret unpacked_files
  | entry :: entries' =>
      if android_img_huawei.size entry =? 0 then
        unpack_loop entries' unpacked_files
      else if String.eqb (android_img_huawei.name entry) "" then
        unpack_loop entries' unpacked_files
      else
        let out_labels : list string := [] in
        let file_path := pathlib.Path_of (android_img_huawei.name entry) in
        self ← get;
        extract_to_file (pathlib.truediv (rel_unpack_dir self) file_path)
          (android_img_huawei.offset entry) (android_img_huawei.size entry) ;;
        self ← get;
        let fr := mkFileResult (Some (fileresult self))
                    (pathlib.truediv (rel_unpack_dir self) file_path)
                    out_labels in
        unpack_loop entries' (unpacked_files ++ [fr])
  end.

Definition unpack : M Self (list FileResult) :=
  d ← getattr data "data";
  unpack_loop (android_img_huawei.img_header_entries d) [].

Definition calculate_unpacked_size : M Self unit := mret tt.

(** The loop of [set_metadata_and_labels] over [metadata['partitions']]. *)
Fixpoint partitions_loop (entries : list android_img_huawei.ImgHeaderEntry)
    (partitions : list pyval) : list pyval :=
  match entries with
  | [] => partitions
  | entry :: entries' =>
      if android_img_huawei.size entry =? 0 then
        partitions_loop entries' partitions
      else
        partitions_loop entries'
          (partitions ++
           [PyDict [("name", PyStr (android_img_huawei.name entry));
                    ("offset", PyInt (android_img_huawei.offset entry));
                    ("size", PyInt (android_img_huawei.size entry))]])
  end.

Definition set_metadata_and_labels : M Self unit :=
  let labels := ["android"; "bootloader"; "huawei"] in
  let metadata : gmap string pyval := ∅ in
  let metadata := <["partitions" := PyList []]> metadata in
  d ← getattr data "data";
  let metadata :=
    <["partitions" :=
        PyList (partitions_loop (android_img_huawei.img_header_entries d) [])]>
      metadata in
  modify (λ self,
    set_unpack_results (set_labels labels (unpack_results self)) self) ;;
  modify (λ self,
    set_unpack_results (set_metadata metadata (unpack_results self)) self).

End AndroidBootHuaweiUnpackParser.

(** ** crawlers/debiancrawler.py *)

Module debiancrawler.
Import Py.

(** *** The world of the crawler: a file system, a mirror, two queues *)

(** What a path of the file system names.  A directory reports the size
    the file system gives it. *)
Inductive node :=
| Dir (st_size : Z)
| File (content : string).

Definition st_size (n : node) : Z :=
  match n with
  | Dir z => z
  | File content => Z.of_nat (String.length content)
  end.

Record Response := mkResponse { status_code : Z; content : string }.

(** A download task: [(debiandir, debianfile, debiansize,
    basestoredirectory)]. *)
Definition task : Type := pathlib.Path * string * Z * pathlib.Path.

(** A [JoinableQueue]: what waits in it, and the number of items put and
    not yet reported done, on which [join] waits. *)
Record JoinableQueue (A : Type) := mkQueue {
  items : list A;
  unfinished_tasks : nat
}.
Global Arguments mkQueue {A} items unfinished_tasks.
Global Arguments items {A} _.
Global Arguments unfinished_tasks {A} _.

(** The calls that leave the process, in the order they are made. *)
Inductive event :=
| ev_requests_get (url : string)
| ev_unlink (p : pathlib.Path)
| ev_write (p : pathlib.Path) (content : string)
| ev_mkdir (p : pathlib.Path)
| ev_downloadqueue_put (t : task)
| ev_downloadqueue_task_done
| ev_failqueue_put (debianfile : string).

Record world := mkWorld {
  fs : gmap pathlib.Path node;
  (** how [requests.get(url)] ends *)
  mirror : string → result Response;
  downloadqueue : JoinableQueue task;
  failqueue : JoinableQueue string;
  trace : list event
}.

Definition set_fs v (w : world) : world :=
  mkWorld v (mirror w) (downloadqueue w) (failqueue w) (trace w).
Definition set_downloadqueue v (w : world) : world :=
  mkWorld (fs w) (mirror w) v (failqueue w) (trace w).
Definition set_failqueue v (w : world) : world :=
  mkWorld (fs w) (mirror w) (downloadqueue w) v (trace w).
Definition log (ev : event) (w : world) : world :=
  mkWorld (fs w) (mirror w) (downloadqueue w) (failqueue w) (trace w ++ [ev]).

(** An [OSError] of the class [c] for the path [p].  The path stands in
    [args] for the number and the message of the error, which Python puts
    there with the path beside them in [filename]. *)
Definition os_error {A} (c : exc_class) (p : pathlib.Path) : M world A :=
  raise (mk_exception c [PyStr (pathlib.to_str p)]).

(** [p.exists()] / [os.path.exists(p)] *)
Definition path_exists (p : pathlib.Path) : M world bool :=
  w ← get; mret (bool_decide (is_Some (fs w !! p))).

(** [p.is_dir()] *)
Definition is_dir (p : pathlib.Path) : M world bool :=
  w ← get;
  mret (match fs w !! p with Some (Dir _) => true | _ => false end).

(** [p.stat().st_size] *)
Definition stat_st_size (p : pathlib.Path) : M world Z :=
  w ← get;
  match fs w !! p with
  | Some n => mret (st_size n)
  | None => os_error FileNotFoundError p
  end.

(** [os.unlink(p)] *)
Definition unlink (p : pathlib.Path) : M world unit :=
  w ← get;
  match fs w !! p with
  | Some (File _) => modify (λ w, log (ev_unlink p) (set_fs (delete p (fs w)) w))
  | Some (Dir _) => os_error IsADirectoryError p
  | None => os_error FileNotFoundError p
  end.

(** [p.mkdir()]; 4096 stands for the size that the file system gives a new
    directory. *)
Definition mkdir (p : pathlib.Path) : M world unit :=
  w ← get;
  match fs w !! p with
  | Some _ => os_error FileExistsError p
  | None =>
      match fs w !! pathlib.parent p with
      | Some (Dir _) =>
          modify (λ w, log (ev_mkdir p) (set_fs (<[p := Dir 4096]> (fs w)) w))
      | Some (File _) => os_error NotADirectoryError p
      | None => os_error FileNotFoundError p
      end
  end.

(** [f = open(p, 'wb'); f.write(content); f.close()], and the same in text
    mode. *)
Definition write_file (p : pathlib.Path) (content : string) : M world unit :=
  w ← get;
  match fs w !! p with
  | Some (Dir _) => os_error IsADirectoryError p
  | _ =>
      match fs w !! pathlib.parent p with
      | Some (Dir _) =>
          modify (λ w,
            log (ev_write p content) (set_fs (<[p := File content]> (fs w)) w))
      | Some (File _) => os_error NotADirectoryError p
      | None => os_error FileNotFoundError p
      end
  end.

(** [f = open(p, 'r'); data = f.read(); f.close()].  The characters of the
    file are its content: the decoding of its bytes and the translation of
    its line ends are left out. *)
Definition read_file (p : pathlib.Path) : M world string :=
  w ← get;
  match fs w !! p with
  | Some (File content) => mret content
  | Some (Dir _) => os_error IsADirectoryError p
  | None => os_error FileNotFoundError p
  end.

(** [requests.get(url)] *)
Definition requests_get (url : string) : M world Response :=
  λ w, (mirror w url, log (ev_requests_get url) w).

(** [downloadqueue.put(t)] *)
Definition downloadqueue_put (t : task) : M world unit :=
  modify (λ w,
    let q := downloadqueue w in
    log (ev_downloadqueue_put t)
      (set_downloadqueue (mkQueue (items q ++ [t]) (S (unfinished_tasks q))) w)).

(** [downloadqueue.task_done()] *)
Definition downloadqueue_task_done : M world unit :=
  w ← get;
  match unfinished_tasks (downloadqueue w) with
  | O => raise (mk_exception ValueError
                  [PyStr "task_done() called too many times"])
  | S n =>
      modify (λ w,
        log ev_downloadqueue_task_done
          (set_downloadqueue (mkQueue (items (downloadqueue w)) n) w))
  end.

(** [failqueue.put(debianfile)] *)
Definition failqueue_put (debianfile : string) : M world unit :=
  modify (λ w,
    let q := failqueue w in
    log (ev_failqueue_put debianfile)
      (set_failqueue
         (mkQueue (items q ++ [debianfile]) (S (unfinished_tasks q))) w)).

(** *** [downloadfile]

    The calls of [logging.info] in lines 45, 61 and 69 are left out: what
    they add to the log that [main] has set up is in neither [fs] nor
    [trace]. *)

(** One turn of the [while True] loop, from the unpacking of the task that
    [downloadqueue.get()] returned to the end of the loop's body or a
    [continue]. *)
Definition downloadfile_task (debianmirror : string) (t : task)
    : M world unit :=
  let '(debiandir, debianfile, debiansize, basestoredirectory) := t in
  let storeparts := debiandir in
  part ← str.getitem storeparts 1;
  let resultfilename :=
    pathlib.Path_join basestoredirectory [part; debianfile] in
  let downloadurl :=
    debianmirror +:+ "/" +:+ pathlib.to_str debiandir +:+ "/" +:+ debianfile in
  e ← path_exists resultfilename;
  already_downloaded ←
    (if e : bool then
       sz ← stat_st_size resultfilename;
       if (sz =? debiansize)%Z then
         downloadqueue_task_done ;; mret true
       else
         unlink resultfilename ;; mret false
     else mret false);
  if already_downloaded : bool then mret tt else
  req ← try_except (req ← requests_get downloadurl; mret (Some req))
          [RequestException]
          (λ _, failqueue_put debianfile ;;
                downloadqueue_task_done ;; mret None);
  match req with
  | None => mret tt
  | Some req =>
      if negb (status_code req =? 200)%Z then
        failqueue_put debianfile ;;
        downloadqueue_task_done
      else
        write_file resultfilename (content req) ;;
        downloadqueue_task_done
  end.

(** Where a worker stands when it is looked at. *)
Inductive worker_state :=
| waiting_in_get     (** [downloadqueue.get()] blocks: the queue is empty *)
| running.           (** between two turns of the loop *)

(** The worker: [turns] bounds the turns of the loop that are followed.  An
    exception that leaves [downloadfile_task] ends the worker's process. *)
Fixpoint downloadfile (turns : nat) (debianmirror : string)
    : M world worker_state :=
  match turns with
  | O => mret running
  | S turns' =>
      w ← get;
      match items (downloadqueue w) with
      | [] => mret waiting_in_get
      | t :: rest =>
          modify (set_downloadqueue
                    (mkQueue rest (unfinished_tasks (downloadqueue w)))) ;;
          downloadfile_task debianmirror t ;;
          downloadfile turns' debianmirror
      end
  end.

(** *** [main], from the checks of the store directory (line 146) to the
    end of the walk over the listing (line 316)

    What comes before reads the configuration: it yields [storedirectory]
    and [debianmirror].  What comes after starts the workers, each of which
    runs [downloadfile] on the queues that [main] has filled.  The probe
    whether the store directory can be written to creates and removes a
    temporary file and is left out, and so is the set-up of [logging].
    Files opened in text mode hold text: no decoding, no translation of
    line ends. *)

(** [sys.exit(status)], or the value with which the part went on. *)
Inductive flow (A : Type) :=
| go_on (a : A)
| sys_exit (status : Z).
Global Arguments go_on {A} a.
Global Arguments sys_exit {A} status.

Record directories := mkDirectories {
  binarydirectory : pathlib.Path;
  sourcedirectory : pathlib.Path;
  meta_data_dir : pathlib.Path;
  dscdirectory : pathlib.Path;
  patchesdirectory : pathlib.Path;
  logdirectory : pathlib.Path
}.

(** The variables of the loop over the listing.  [curdir] starts as the
    empty string and is read only after a [./pool] line has assigned it. *)
Record walk_state := mkWalk {
  inpool : bool;
  curdir : pathlib.Path;
  debcounter : nat;
  srccounter : nat;
  diffcounter : nat;
  dsccounter : nat
}.

Definition debianarchitectures : list string :=
  ["all"; "i386"; "amd64"; "arm64"; "armhf"].

(** [if not p.exists(): p.mkdir()] *)
Definition mkdir_if_missing (p : pathlib.Path) : M world unit :=
  e ← path_exists p;
  if e : bool then mret tt else mkdir p.

(** Lines 146-155. *)
Definition check_storedirectory (storedirectory : pathlib.Path)
    : M world (flow unit) :=
  e ← path_exists storedirectory;
  if negb e then mret (sys_exit 1%Z) else
  d ← is_dir storedirectory;
  if negb d then mret (sys_exit 1%Z) else
  mret (go_on tt).

(** Lines 175-208. *)
Definition create_directories (storedirectory : pathlib.Path)
    : M world directories :=
  let binarydirectory := pathlib.Path_join storedirectory ["binary"] in
  mkdir_if_missing binarydirectory ;;
  let sourcedirectory := pathlib.Path_join storedirectory ["source"] in
  mkdir_if_missing sourcedirectory ;;
  let meta_data_dir := pathlib.Path_join storedirectory ["meta"] in
  mkdir_if_missing meta_data_dir ;;
  let dscdirectory := pathlib.Path_join storedirectory ["dsc"] in
  mkdir_if_missing dscdirectory ;;
  let patchesdirectory := pathlib.Path_join storedirectory ["patches"] in
  mkdir_if_missing patchesdirectory ;;
  let logdirectory := pathlib.Path_join storedirectory ["logs"] in
  mkdir_if_missing logdirectory ;;
  for_in ["contrib"; "main"; "non-free"] (λ i,
    mkdir_if_missing (pathlib.Path_join binarydirectory [i]) ;;
    mkdir_if_missing (pathlib.Path_join sourcedirectory [i]) ;;
    mkdir_if_missing (pathlib.Path_join dscdirectory [i]) ;;
    mkdir_if_missing (pathlib.Path_join patchesdirectory [i])) ;;
  mret (mkDirectories binarydirectory sourcedirectory meta_data_dir
          dscdirectory patchesdirectory logdirectory).

(** Lines 210-238.  [stamp] is
    [downloaddate.strftime("%Y%m%d-%H%M%S")]. *)
Definition download_listing (dirs : directories)
    (debianmirror stamp : string)
    : M world (flow (pathlib.Path * string)) :=
  let meta_outname :=
    pathlib.Path_join (meta_data_dir dirs) ["ls-lR.gz-" +:+ stamp] in
  e ← path_exists meta_outname;
  if e : bool then mret (sys_exit 1%Z) else
  req ← try_except
          (req ← requests_get (debianmirror +:+ "/ls-lR.gz"); mret (Some req))
          [RequestException] (λ _, mret None);
  match req with
  | None => mret (sys_exit 1%Z)
  | Some req =>
      if negb (status_code req =? 200)%Z then mret (sys_exit 1%Z) else
      write_file meta_outname (content req) ;;
      mret (go_on (meta_outname, content req))
  end.

Definition empty_queue {A} : JoinableQueue A := mkQueue [] 0.

Section hashlib_gzip.

(** [hashlib.new('sha256')], [update], [hexdigest]. *)
Variable sha256_hexdigest : string → string.
(** The lines that iterating over [gzip.open(...)] yields from a file of
    this content, and the exception that ends the iteration, if one does. *)
Variable gzip_lines : string → list string * option exception.
(** [i.decode()] *)
Variable decode : string → result string.

(** Lines 240-259. *)
Definition check_hash (storedirectory meta_outname : pathlib.Path)
    (req_content : string) : M world (flow unit) :=
  let filehash := sha256_hexdigest req_content in
  let hashfilename := pathlib.Path_join storedirectory ["HASH"] in
  e ← path_exists hashfilename;
  unchanged ←
    (if e : bool then
       oldhashdata ← read_file hashfilename;
       if String.eqb oldhashdata filehash then
         unlink meta_outname ;; mret true
       else mret false
     else mret false);
  if unchanged : bool then mret (sys_exit 0%Z) else
  write_file hashfilename filehash ;;
  mret (go_on tt).

(** The loop over [debianarchitectures], lines 299-303. *)
Fixpoint deb_loop (archs : list string) (downloadpath : string)
    (filesize : Z) (dirs : directories) (st : walk_state)
    : M world walk_state :=
  match archs with
  | [] => mret st
  | arch :: archs' =>
      if str.endswith downloadpath ("_" +:+ arch +:+ ".deb") then
        downloadqueue_put
          (curdir st, downloadpath, filesize, binarydirectory dirs) ;;
        mret (mkWalk (inpool st) (curdir st) (S (debcounter st))
                (srccounter st) (diffcounter st) (dsccounter st))
      else deb_loop archs' downloadpath filesize dirs st
  end.

(** Lines 292-315: a line that starts with [-]. *)
Definition walk_file (dirs : directories) (line : string) (st : walk_state)
    : M world walk_state :=
  downloadpath ← str.getitem (str.rsplit1 " " (str.strip line)) 1;
  field ← str.getitem
            (str.split " " (str.squeeze_spaces (str.strip line))) 4;
  filesize ← str.int field;
  st ← (if str.endswith downloadpath ".dsc" then
          downloadqueue_put
            (curdir st, downloadpath, filesize, dscdirectory dirs) ;;
          mret (mkWalk (inpool st) (curdir st) (debcounter st)
                  (srccounter st) (diffcounter st) (S (dsccounter st)))
        else mret st);
  st ← (if str.endswith downloadpath ".deb" then
          deb_loop debianarchitectures downloadpath filesize dirs st
        else mret st);
  st ← (if str.endswith downloadpath ".diff.gz" then
          downloadqueue_put
            (curdir st, downloadpath, filesize, patchesdirectory dirs) ;;
          mret (mkWalk (inpool st) (curdir st) (debcounter st)
                  (srccounter st) (S (diffcounter st)) (dsccounter st))
        else mret st);
  st ← (if str.endswith downloadpath ".orig.tar.bz2" then
          downloadqueue_put
            (curdir st, downloadpath, filesize, sourcedirectory dirs) ;;
          mret (mkWalk (inpool st) (curdir st) (debcounter st)
                  (S (srccounter st)) (diffcounter st) (dsccounter st))
        else mret st);
  st ← (if str.endswith downloadpath ".orig.tar.gz" then
          downloadqueue_put
            (curdir st, downloadpath, filesize, sourcedirectory dirs) ;;
          mret (mkWalk (inpool st) (curdir st) (debcounter st)
                  (S (srccounter st)) (diffcounter st) (dsccounter st))
        else mret st);
  (if str.endswith downloadpath ".orig.tar.xz" then
     downloadqueue_put
       (curdir st, downloadpath, filesize, sourcedirectory dirs) ;;
     mret (mkWalk (inpool st) (curdir st) (debcounter st)
             (S (srccounter st)) (diffcounter st) (dsccounter st))
   else mret st).

(** Lines 284-315: the body of the loop for the line [i].  The boolean
    tells whether the loop is left ([break]). *)
Definition walk_line (dirs : directories) (i : string) (st : walk_state)
    : M world (walk_state * bool) :=
  line ← (λ w, (decode i, w));
  st ← (if str.startswith line "./pool" then
          head ← str.getitem (str.rsplit1 ":" line) 0;
          mret (mkWalk true (pathlib.Path_of (str.slice_from 2 head))
                  (debcounter st) (srccounter st) (diffcounter st)
                  (dsccounter st))
        else mret st);
  if negb (inpool st) then mret (st, false) else
  if str.startswith line "./project" then mret (st, true) else
  if str.startswith line "-" then
    st ← walk_file dirs line st; mret (st, false)
  else mret (st, false).

(** Lines 283-315: the loop.  The boolean tells whether it was left by
    [break]. *)
Fixpoint walk_lines (dirs : directories) (lines : list string)
    (st : walk_state) : M world (walk_state * bool) :=
  match lines with
  | [] => mret (st, false)
  | i :: lines' =>
      r ← walk_line dirs i st;
      if r.2 : bool then mret r else walk_lines dirs lines' r.1
  end.

(** Lines 272-316. *)
Definition walk_listing (dirs : directories) (meta_outname : pathlib.Path)
    : M world walk_state :=
  lslr ← read_file meta_outname;
  r ← walk_lines dirs (gzip_lines lslr).1 (mkWalk false [] 0 0 0 0);
  if r.2 : bool then mret r.1 else
  match (gzip_lines lslr).2 with
  | Some e => raise e
  | None => mret r.1
  end.

(** [main] from line 146 to line 316: [go_on] with the counters when the
    workers are to be started, [sys_exit] when the process has ended.

    Three steps of these lines are left out, and [fs] and [trace] say
    nothing of what they do: the probe of lines 157-164, which makes a
    temporary file in the store directory and removes it;
    [logging.basicConfig] in lines 261-262, which opens [download.log] in
    the directory of the logs; and [multiprocessing.Manager()] in line 265,
    which starts the process of the queues and makes a directory of its own
    among the temporary files. *)
Definition main (storedirectory : pathlib.Path)
    (debianmirror stamp : string) : M world (flow walk_state) :=
  r ← check_storedirectory storedirectory;
  match r with
  | sys_exit status => mret (sys_exit status)
  | go_on _ =>
      dirs ← create_directories storedirectory;
      r ← download_listing dirs debianmirror stamp;
      match r with
      | sys_exit status => mret (sys_exit status)
      | go_on (meta_outname, req_content) =>
          r ← check_hash storedirectory meta_outname req_content;
          match r with
          | sys_exit status => mret (sys_exit status)
          | go_on _ =>
              modify (set_downloadqueue empty_queue) ;;
              modify (set_failqueue empty_queue) ;;
              st ← walk_listing dirs meta_outname;
              mret (go_on st)
          end
      end
  end.

End hashlib_gzip.

End debiancrawler.

(** *** [main], lines 102-144: the settings

    What comes before opens the configuration file and has it read by a
    [ConfigParser]. *)

Module settings.
Import Py debiancrawler.

(** A [ConfigParser] that has read the file: [config.sections()], in the
    order of the file, and [config.get(section, option)], where [None]
    stands for a [configparser.Error]. *)
Record ConfigParser := mkConfigParser {
  sections : list string;
  config_get : string → string → option string
}.

(** The variables that the loop over the sections assigns.
    [storedirectory] is the string [''] until the loop assigns it a
    [Path], and a [Path] never equals a string: [None] stands for [''].
    [threads] is not assigned before the loop: [None] stands for the
    variable that has no value. *)
Record Settings := mkSettings {
  storedirectory : option pathlib.Path;
  debianmirror : string;
  threads : option Z
}.

(** Lines 109-131: the body of the loop.  The boolean tells whether the
    loop is left ([break]).  [cpu_count] is
    [multiprocessing.cpu_count()]. *)
Definition read_section {S} (config : ConfigParser) (cpu_count : Z)
    (section : string) (s : Settings) : M S (Settings * bool) :=
  if String.eqb section "debian" then
    match config_get config section "storedirectory" with
    | None => mret (s, true)
    | Some v =>
        let s := mkSettings (Some (pathlib.Path_of v)) (debianmirror s)
                   (threads s) in
        match config_get config section "debianmirror" with
        | None => mret (s, true)
        | Some v => mret (mkSettings (storedirectory s) v (threads s), false)
        end
    end
  else if String.eqb section "general" then
    match config_get config section "threads" with
    | None =>
        mret (mkSettings (storedirectory s) (debianmirror s) (Some cpu_count),
              false)
    | Some v =>
        n ← str.int v;
        let threads := Z.min n cpu_count in
        let threads := if (threads <? 1)%Z then cpu_count else threads in
        mret (mkSettings (storedirectory s) (debianmirror s) (Some threads),
              false)
    end
  else mret (s, false).

(** Lines 108-131. *)
Fixpoint read_sections {S} (config : ConfigParser) (cpu_count : Z)
    (sections : list string) (s : Settings) : M S Settings :=
  match sections with
  | [] => mret s
  | section :: sections' =>
      r ← read_section config cpu_count section s;
      if r.2 : bool then mret r.1
      else read_sections config cpu_count sections' r.1
  end.

(** Lines 102-144. *)
Definition read_settings {S} (config : ConfigParser) (cpu_count : Z)
    : M S (flow Settings) :=
  s ← read_sections config cpu_count (sections config)
        (mkSettings None "" None);
  if String.eqb (debianmirror s) "" then mret (sys_exit 1%Z) else
  match storedirectory s with
  | None => mret (sys_exit 1%Z)
  | Some _ => mret (go_on s)
  end.

End settings.

(** *** [main], lines 330-338: the files that could not be downloaded

    [get_nowait] and [task_done] on the fail queue are not put on the
    trace. *)

Module failed.
Import Py debiancrawler.

(** [failqueue.get_nowait()]: [None] stands for [queue.Empty]. *)
Definition failqueue_get_nowait : M world (option string) :=
  w ← get;
  match items (failqueue w) with
  | [] => mret None
  | debianfile :: rest =>
      modify (set_failqueue
                (mkQueue rest (unfinished_tasks (failqueue w)))) ;;
      mret (Some debianfile)
  end.

(** [failqueue.task_done()] *)
Definition failqueue_task_done : M world unit :=
  w ← get;
  match unfinished_tasks (failqueue w) with
  | O => raise (mk_exception ValueError
                  [PyStr "task_done() called too many times"])
  | S n => modify (set_failqueue (mkQueue (items (failqueue w)) n))
  end.

(** Lines 330-338: [turns] bounds the turns of the loop that are followed;
    [None] is returned when they are used up before the loop is left. *)
Fixpoint collect_failedfiles (turns : nat) (failedfiles : list string)
    : M world (option (list string)) :=
  match turns with
  | O => mret None
  | S turns' =>
      got ← failqueue_get_nowait;
      match got with
      | None => mret (Some failedfiles)
      | Some debianfile =>
          let failedfiles := failedfiles ++ [debianfile] in
          failqueue_task_done ;;
          collect_failedfiles turns' failedfiles
      end
  end.

End failed.

(** * What the specification says, and the vocabulary of the proofs *)

Import Py UnpackParser android_img_huawei debiancrawler.

Module Huawei := AndroidBootHuaweiUnpackParser.
Module Bitmap := BmpUnpackParser.

(** ** Methods and relations between states *)

(** Every run of [m] takes a state to one that is [R]-related to it,
    however it ends. *)
Definition respects {S A} (R : relation S) (m : M S A) : Prop :=
  ∀ s r s', m s = (r, s') → R s s'.

(** Whatever [m] returns satisfies [P]. *)
Definition returns {S A} (P : A → Prop) (m : M S A) : Prop :=
  ∀ s a s', m s = (Return a, s') → P a.

(** ** The Huawei boot image parser *)

(** "The maximum over all header entries of entry.offset + entry.size (and
    0 when there are no entries)". *)
Definition max_entry_end (entries : list ImgHeaderEntry) : N :=
  foldr (λ entry m, N.max (offset entry + size entry) m) 0 entries.

(** "One of its validation conditions fails": the structural parse raises,
    or the header size is not 76, or the file is smaller than the maximum
    entry end. *)
Definition validation_fails (self : Huawei.Self) : Prop :=
  (∃ e, Huawei.from_io_infile self = Raise e)
  ∨ (∃ d, Huawei.from_io_infile self = Return d
        ∧ (meta_header_size (img_header d) ≠ 76
           ∨ Huawei.st_size self < max_entry_end (img_header_entries d))).

(** What the handler [except (Exception, ValidationNotEqualError)] of the
    two parsers catches, and the exception that leaves [parse] when the
    reader has raised [e]: [UnpackParserException(e.args)] for an exception
    that is caught, [e] itself for another one. *)
Definition caught (e : exception) : bool :=
  isinstance e [Exception; ValidationNotEqualError].

Definition reraised (e : exception) : exception :=
  if caught e then mk_exception UnpackParserException [PyTuple (args e)]
  else e.

(** The validation conditions whose failure [parse] reports: the reader
    raises an exception that the handler catches, or the header size is not
    76, or the file is smaller than the maximum entry end. *)
Definition validation_rejects (self : Huawei.Self) : Prop :=
  (∃ e, Huawei.from_io_infile self = Raise e ∧ caught e = true)
  ∨ (∃ d, Huawei.from_io_infile self = Return d
        ∧ (meta_header_size (img_header d) ≠ 76
           ∨ Huawei.st_size self < max_entry_end (img_header_entries d))).

(** "Header entry whose size is greater than 0 and whose name is
    non-empty". *)
Definition is_unpacked (entry : ImgHeaderEntry) : Prop :=
  0 < size entry ∧ name entry ≠ "".

Global Instance is_unpacked_dec entry : Decision (is_unpacked entry).
Proof. unfold is_unpacked. apply _. Defined.

(** The [FileResult] of an entry, and the call that extracts it: "from the
    byte range (entry.offset, entry.size) to the path given by
    entry.name". *)
Definition unpacked_file (self : Huawei.Self) (entry : ImgHeaderEntry)
    : FileResult :=
  mkFileResult (Some (Huawei.fileresult self))
    (pathlib.truediv (Huawei.rel_unpack_dir self) (pathlib.Path_of (name entry)))
    [].

Definition extraction (self : Huawei.Self) (entry : ImgHeaderEntry)
    : extract_call :=
  mk_extract_call
    (pathlib.truediv (Huawei.rel_unpack_dir self) (pathlib.Path_of (name entry)))
    (offset entry) (size entry).

(** "One record {name, offset, size}". *)
Definition partition_record (entry : ImgHeaderEntry) : pyval :=
  PyDict [("name", PyStr (name entry));
          ("offset", PyInt (offset entry));
          ("size", PyInt (size entry))].

(** ** The crawler: categories of files *)

(** [name] ends in [suffix]. *)
Definition ends_in (name suffix : string) : Prop :=
  ∃ stem, name = stem +:+ suffix.

Inductive category := binary | source | dsc | patches.

Global Instance category_eq_dec : EqDecision category.
Proof. solve_decision. Defined.

Definition category_name (c : category) : string :=
  match c with
  | binary => "binary"
  | source => "source"
  | dsc => "dsc"
  | patches => "patches"
  end.

(** "[.dsc] files to dsc, [.deb] files ending in
    _all/_i386/_amd64/_arm64/_armhf to binary, [.diff.gz] files to patches,
    and [.orig.tar.gz]/[.orig.tar.bz2]/[.orig.tar.xz] files to source". *)
Definition suffix_table : list (string * category) :=
  [(".dsc", dsc);
   ("_all.deb", binary); ("_i386.deb", binary); ("_amd64.deb", binary);
   ("_arm64.deb", binary); ("_armhf.deb", binary);
   (".diff.gz", patches);
   (".orig.tar.gz", source); (".orig.tar.bz2", source);
   (".orig.tar.xz", source)].

Definition category_of (name : string) (c : category) : Prop :=
  ∃ suffix, (suffix, c) ∈ suffix_table ∧ ends_in name suffix.

(** Two rows of the table never tell two categories for one name: they
    agree on the category, or neither suffix ends in the other. *)
Definition compatible (r1 r2 : string * category) : bool :=
  bool_decide (r1.2 = r2.2)
  || negb (str.endswith r1.1 r2.1 || str.endswith r2.1 r1.1).

(** The directories of the store as [main] names them. *)
Definition layout (store : pathlib.Path) : directories :=
  mkDirectories (store ++ ["binary"]) (store ++ ["source"])
    (store ++ ["meta"]) (store ++ ["dsc"]) (store ++ ["patches"])
    (store ++ ["logs"]).

(** "Targets the category directory determined by the filename suffix". *)
Definition well_targeted (store : pathlib.Path) (t : task) : Prop :=
  let '(debiandir, debianfile, debiansize, basestoredirectory) := t in
  ∃ c, category_of debianfile c
     ∧ basestoredirectory = store ++ [category_name c].

Definition event_ok (store : pathlib.Path) (ev : event) : Prop :=
  match ev with
  | ev_downloadqueue_put t => well_targeted store t
  | _ => True
  end.

(** From [w] to [w'] the trace has grown, and every task put on the download
    queue meanwhile is well targeted. *)
Definition puts_ok (store : pathlib.Path) (w w' : world) : Prop :=
  ∃ evs, trace w' = trace w ++ evs ∧ Forall (event_ok store) evs.

(** From [w] to [w'] the trace has grown. *)
Definition trace_extends (w w' : world) : Prop :=
  ∃ evs, trace w' = trace w ++ evs.

(** ** The crawler: the directories of the store *)

Definition is_directory (w : world) (p : pathlib.Path) : Prop :=
  ∃ z, fs w !! p = Some (Dir z).

Definition free_or_directory (w : world) (p : pathlib.Path) : Prop :=
  fs w !! p = None ∨ is_directory w p.

(** Every directory of [w] is still one in [w']. *)
Definition dirs_kept (w w' : world) : Prop :=
  ∀ p, is_directory w p → is_directory w' p.

(** "The subdirectories contrib, main and non-free". *)
Definition partitions : list string := ["contrib"; "main"; "non-free"].

Definition category_directory (store : pathlib.Path) (c : category)
    : pathlib.Path := store ++ [category_name c].

Definition partition_directory (store : pathlib.Path) (c : category)
    (partition : string) : pathlib.Path :=
  category_directory store c ++ [partition].

(** "The category directories binary, source, dsc and patches, each
    containing the subdirectories contrib, main and non-free". *)
Definition skeleton (store : pathlib.Path) : list pathlib.Path :=
  c ← [binary; source; dsc; patches];
  category_directory store c :: (partition_directory store c <$> partitions).

(** The state of the store while [create_directories] runs: what it has
    made so far is there, the rest is still free or a directory. *)
Definition building (store : pathlib.Path) (made : list pathlib.Path)
    (w : world) : Prop :=
  is_directory w store
  ∧ (∀ q, q ∈ skeleton store → free_or_directory w q)
  ∧ (∀ q, q ∈ made → is_directory w q).

(** [create_directories] has returned the layout and the whole skeleton is
    there. *)
Definition created (store : pathlib.Path) (o : result directories * world)
    : Prop :=
  ∃ w', o = (Return (layout store), w')
      ∧ ∀ q, q ∈ skeleton store → is_directory w' q.

(** ** The crawler: one task of a worker *)

(** The destination of a task, when [debiandir] has a second part. *)
Definition resultfilename (t : task) : option pathlib.Path :=
  let '(debiandir, debianfile, debiansize, basestoredirectory) := t in
  part ← debiandir !! 1%nat;
  Some (pathlib.Path_join basestoredirectory [part; debianfile]).

Definition downloadurl (debianmirror : string) (t : task) : string :=
  let '(debiandir, debianfile, debiansize, basestoredirectory) := t in
  debianmirror +:+ "/" +:+ pathlib.to_str debiandir +:+ "/" +:+ debianfile.

Definition debiansize_of (t : task) : Z := t.1.2.

Definition debianfile_of (t : task) : string := t.1.1.2.

(** What [downloadfile_task] does once the destination is known not to hold
    the file already: lines 51-71. *)
Definition download (debianmirror : string) (t : task) (p : pathlib.Path)
    : M world unit :=
  req ← try_except
          (req ← requests_get (downloadurl debianmirror t); mret (Some req))
          [RequestException]
          (λ _, failqueue_put (debianfile_of t) ;;
                downloadqueue_task_done ;; mret None);
  match req with
  | None => mret tt
  | Some req =>
      if negb (status_code req =? 200)%Z then
        failqueue_put (debianfile_of t) ;;
        downloadqueue_task_done
      else
        write_file p (content req) ;;
        downloadqueue_task_done
  end.

(** "The destination file already exists with a size equal to the size
    listed in the metadata". *)
Definition already_downloaded (t : task) (p : pathlib.Path) (w : world)
    : Prop :=
  ∃ c, fs w !! p = Some (File c)
     ∧ Z.of_nat (String.length c) = debiansize_of t.

(** "The HTTP GET raised a RequestException or returned a status code other
    than 200". *)
Definition get_fails (debianmirror : string) (t : task) (w : world) : Prop :=
  match mirror w (downloadurl debianmirror t) with
  | Raise e => isinstance e [RequestException] = true
  | Return req => status_code req ≠ 200%Z
  end.

Definition get_succeeds (debianmirror : string) (t : task) (w : world)
    : Prop :=
  ∃ c, mirror w (downloadurl debianmirror t) = Return (mkResponse 200 c).

(** ** Sample inputs *)

Definition huawei_self (file_size : N)
    (outcome : result AndroidImgHuawei) : Huawei.Self :=
  Huawei.mkSelf (mkFileResult None ["bootloader.img"] []) file_size None
    outcome 0%nat ["bootloader.img-0x00000000-androidboothuawei-1"] None None
    (mkUnpackResults None None) [].

Definition bmp_self (file_size : N) (outcome : result bmp.Bmp) : Bitmap.Self :=
  Bitmap.mkSelf file_size outcome 0%nat None None None (mkUnpackResults None None).

(** Four entries: one that is unpacked, one without a name, one without
    content, one more that is unpacked. *)
Definition huawei_image : AndroidImgHuawei :=
  mkAndroidImgHuawei (mkImgHeader 76)
    [mkImgHeaderEntry "fastboot" 1024 4096;
     mkImgHeaderEntry "" 5120 512;
     mkImgHeaderEntry "empty" 0 0;
     mkImgHeaderEntry "xloader" 8192 2048].

Definition huawei_no_entries : AndroidImgHuawei :=
  mkAndroidImgHuawei (mkImgHeader 76) [].

Definition short_read : exception :=
  mk_exception EOFError
    [PyStr "requested 4 bytes, but only 2 bytes available"].

(** An error of the kaitai run time that is no [ValidationNotEqualError]:
    a value that does not match the expression of its [valid] key. *)
Definition not_matching : exception :=
  mk_exception ValidationExprError
    [PyStr "/seq/0: at pos 4: validation failed: not matching the expression, got 0"].

(** The key stroke that interrupts the reader. *)
Definition interrupt : exception := mk_exception KeyboardInterrupt [].

(** What [stat] raises for a file that is not there any more. *)
Definition no_such_file : exception :=
  mk_exception FileNotFoundError [PyInt 2; PyStr "No such file or directory"].

(** A parser object whose input file cannot be looked up any more. *)
Definition huawei_self_gone (outcome : result AndroidImgHuawei)
    : Huawei.Self :=
  Huawei.mkSelf (mkFileResult None ["bootloader.img"] []) 0
    (Some no_such_file) outcome 0%nat
    ["bootloader.img-0x00000000-androidboothuawei-1"] None None
    (mkUnpackResults None None) [].

(** The parser object after [parse] on [huawei_image] in a file of 20000
    bytes. *)
Definition huawei_parsed : Huawei.Self :=
  (Huawei.parse (huawei_self 20000 (Return huawei_image))).2.

Definition newline : string := String (ascii_of_nat 10) "".

Definition sample_store : pathlib.Path := ["/"; "srv"; "debian"].

(** A listing with a section of the [non-free-firmware] partition, which
    Debian mirrors carry since 2023. *)
Definition sample_listing : list string :=
  [ "./pool/main/h/hello:" +:+ newline;
    "total 1048" +:+ newline;
    "-rw-r--r--  1 debian debian    1234 Jan  1  2023 hello_2.10-3.dsc"
      +:+ newline;
    "-rw-r--r--  1 debian debian   56789 Jan  1  2023 hello_2.10-3_amd64.deb"
      +:+ newline;
    "-rw-r--r--  1 debian debian    4321 Jan  1  2023 hello_2.10-3.diff.gz"
      +:+ newline;
    "-rw-r--r--  1 debian debian  725946 Jan  1  2023 hello_2.10.orig.tar.gz"
      +:+ newline;
    "-rw-r--r--  1 debian debian     833 Jan  1  2023 hello_2.10.orig.tar.gz.asc"
      +:+ newline;
    newline;
    "./pool/non-free-firmware/a/amd64-microcode:" +:+ newline;
    "total 12" +:+ newline;
    "-rw-r--r--  1 debian debian    1729 Aug  8  2023 amd64-microcode_3.20230808.1.1.dsc"
      +:+ newline;
    newline;
    "./project:" +:+ newline;
    "-rw-r--r--  1 debian debian      99 Jan  1  2023 README.dsc" +:+ newline ].

Definition sample_mirror : string → result Response :=
  λ url, Return (mkResponse 200 "data").

(** An empty store on a mirror that answers every request. *)
Definition sample_world : world :=
  mkWorld
    (<[sample_store := Dir 4096]>
       (<[["/"; "srv"] := Dir 4096]> (<[["/"] := Dir 4096]> ∅)))
    sample_mirror empty_queue empty_queue [].

(** Stand-ins for [hashlib], [gzip] and [bytes.decode] on the sample. *)
Definition sample_hexdigest : string → string := λ s, "sha256 of " +:+ s.
Definition sample_gzip_lines : string → list string * option exception :=
  λ _, (sample_listing, None).
Definition sample_decode : string → result string := Return.

Definition sample_main : M world (flow walk_state) :=
  main sample_hexdigest sample_gzip_lines sample_decode sample_store
    "http://deb.example.org/debian" "20230808-120000".

(** The same store after an earlier run on the same listing. *)
Definition sample_world_seen : world :=
  set_fs (<[sample_store ++ ["HASH"] := File (sample_hexdigest "data")]>
            (fs sample_world)) sample_world.

(** A task whose destination holds four bytes already, in a world where the
    task has been taken from the queue. *)
Definition sample_task : task :=
  (["pool"; "main"; "h"; "hello"], "hello_2.10-3.dsc", 4%Z,
   sample_store ++ ["dsc"]).

Definition sample_world_downloaded : world :=
  mkWorld
    (<[sample_store ++ ["dsc"; "main"; "hello_2.10-3.dsc"] := File "data"]>
       (<[sample_store ++ ["dsc"; "main"] := Dir 4096]>
          (<[sample_store ++ ["dsc"] := Dir 4096]> (fs sample_world))))
    sample_mirror (mkQueue [] 1) empty_queue [].

(** A task for a file that the listing shows directly under [./pool]. *)
Definition stray_task : task :=
  (["pool"], "README.dsc", 99%Z, sample_store ++ ["dsc"]).

Definition stray_world : world :=
  mkWorld (<[sample_store ++ ["dsc"] := Dir 4096]> (fs sample_world))
    sample_mirror (mkQueue [stray_task] 1) empty_queue [].

(** * Further vocabulary and sample inputs *)

(** ** The parsers *)

(** An entry whose name begins with a slash and one whose name begins with
    two, among two ordinary ones. *)
Definition huawei_image_rooted : AndroidImgHuawei :=
  mkAndroidImgHuawei (mkImgHeader 76)
    [mkImgHeaderEntry "fastboot" 1024 4096;
     mkImgHeaderEntry "/recovery/ramdisk" 5120 512;
     mkImgHeaderEntry "../xloader" 8192 2048;
     mkImgHeaderEntry "//boot" 10240 1024].

(** [parse], then [calculate_unpacked_size], then
    [set_metadata_and_labels]: the second reads the [self.data] that the
    first assigns. *)
Definition bmp_lifecycle : M Bitmap.Self unit :=
  Bitmap.parse ;; Bitmap.calculate_unpacked_size ;;
  Bitmap.set_metadata_and_labels.

(** ** The crawler: a file line of the listing *)

(** Lines 293-294: the name and the size that a line of the listing gives
    for a file. *)
Definition listed_file (line : string) : M world (string * Z) :=
  downloadpath ← str.getitem (str.rsplit1 " " (str.strip line)) 1;
  field ← str.getitem
            (str.split " " (str.squeeze_spaces (str.strip line))) 4;
  filesize ← str.int field;
  mret (downloadpath, filesize).

(** The category of the first suffix of the table that the name ends in. *)
Definition classify (filename : string) : option category :=
  snd <$> List.find (λ row, str.endswith filename row.1) suffix_table.

(** [debcounter += 1], [srccounter += 1], [dsccounter += 1],
    [diffcounter += 1]: the counter of the category goes up by one. *)
Definition count_file (c : category) (st : walk_state) : walk_state :=
  match c with
  | binary => mkWalk (inpool st) (curdir st) (S (debcounter st))
                (srccounter st) (diffcounter st) (dsccounter st)
  | source => mkWalk (inpool st) (curdir st) (debcounter st)
                (S (srccounter st)) (diffcounter st) (dsccounter st)
  | dsc => mkWalk (inpool st) (curdir st) (debcounter st)
             (srccounter st) (diffcounter st) (S (dsccounter st))
  | patches => mkWalk (inpool st) (curdir st) (debcounter st)
                 (srccounter st) (S (diffcounter st)) (dsccounter st)
  end.

(** The counter of a category. *)
Definition counter (c : category) (st : walk_state) : nat :=
  match c with
  | binary => debcounter st
  | source => srccounter st
  | dsc => dsccounter st
  | patches => diffcounter st
  end.

(** The tasks of the download queue that are for the directory of [c]. *)
Definition queued_for (store : pathlib.Path) (c : category) (w : world)
    : list task :=
  filter (λ t : task, t.2 = category_directory store c)
    (items (downloadqueue w)).

(** What [main] prints at the end agrees with what it has queued. *)
Definition counters_match (store : pathlib.Path) (st : walk_state)
    (w : world) : Prop :=
  unfinished_tasks (downloadqueue w) = length (items (downloadqueue w))
  ∧ length (items (downloadqueue w))
    = (debcounter st + srccounter st + diffcounter st + dsccounter st)%nat
  ∧ ∀ c, counter c st = length (queued_for store c w).

(** The world after [downloadqueue.put(t)]. *)
Definition enqueue (t : task) (w : world) : world :=
  log (ev_downloadqueue_put t)
    (set_downloadqueue
       (mkQueue (items (downloadqueue w) ++ [t])
          (S (unfinished_tasks (downloadqueue w)))) w).

(** From [w] to [w'] nothing was put on the fail queue or taken from it. *)
Definition failqueue_kept (w w' : world) : Prop := failqueue w' = failqueue w.

(** ** The crawler: the worlds that a turn of the worker leaves *)

(** A task that a worker can carry out: its destination is free or a
    regular file, in a directory that exists, and the mirror answers the
    request for it or fails with a [RequestException]. *)
Definition downloadable (debianmirror : string) (w : world) (t : task)
    : Prop :=
  ∃ p, resultfilename t = Some p
     ∧ (fs w !! p = None ∨ ∃ c, fs w !! p = Some (File c))
     ∧ is_directory w (pathlib.parent p)
     ∧ (get_fails debianmirror t w ∨ get_succeeds debianmirror t w).

(** The worlds that the calls of a turn leave: after
    [downloadqueue.task_done()] with a task unfinished, after
    [failqueue.put(debianfile)], after the file is written, after
    [os.unlink], after [requests.get]. *)
Definition task_done (w : world) : world :=
  log ev_downloadqueue_task_done
    (set_downloadqueue
       (mkQueue (items (downloadqueue w))
          (Nat.pred (unfinished_tasks (downloadqueue w)))) w).

Definition reported_failed (debianfile : string) (w : world) : world :=
  log (ev_failqueue_put debianfile)
    (set_failqueue
       (mkQueue (items (failqueue w) ++ [debianfile])
          (S (unfinished_tasks (failqueue w)))) w).

Definition written (p : pathlib.Path) (c : string) (w : world) : world :=
  log (ev_write p c) (set_fs (<[p := File c]> (fs w)) w).

Definition unlinked (p : pathlib.Path) (w : world) : world :=
  log (ev_unlink p) (set_fs (delete p (fs w)) w).

Definition requested (url : string) (w : world) : world :=
  log (ev_requests_get url) w.

(** ** The crawler: the listing that cannot be got, sample settings *)

(** How the request for the listing fails: "Could not connect" or a status
    other than 200. *)
Definition listing_fails (debianmirror : string) (w : world) : Prop :=
  match mirror w (debianmirror +:+ "/ls-lR.gz") with
  | Raise e => isinstance e [RequestException] = true
  | Return req => status_code req ≠ 200%Z
  end.

(** The sample store on a mirror that has no listing. *)
Definition sample_world_offline : world :=
  mkWorld (fs sample_world) (λ url, Return (mkResponse 404 "Not Found"))
    empty_queue empty_queue [].

Definition sample_config : settings.ConfigParser :=
  settings.mkConfigParser ["general"; "debian"; "other"]
    (λ section option,
       if String.eqb section "debian" then
         if String.eqb option "storedirectory" then Some "/srv/debian"
         else if String.eqb option "debianmirror"
              then Some "http://deb.example.org/debian"
              else None
       else if String.eqb section "general" then
         if String.eqb option "threads" then Some "64" else None
       else None).

(** ** The crawler: names that are one part of a path *)

(** [c] does not occur in [s]. *)
Definition without (c : ascii) (s : string) : Prop :=
  c ∉ list_ascii_of_string s.

(** A string that [pathlib] reads as one part of a path. *)
Definition single_part (s : string) : Prop :=
  s ≠ "" ∧ s ≠ "." ∧ without "/" s.

(** A directory as [ls -lR] writes it: parts with slashes between them, no
    part empty or [.]. *)
Definition plain_directory (s : string) : Prop :=
  Forall (λ c, c ≠ "" ∧ c ≠ ".") (str.split "/" s).

(** ** The crawler: what [main] leaves alone *)

(** A call that makes a directory, writes a file or removes one names a
    path whose parts begin with those of [store]. *)
Definition in_store (store : pathlib.Path) (ev : event) : Prop :=
  match ev with
  | ev_unlink p | ev_write p _ | ev_mkdir p => store `prefix_of` p
  | _ => True
  end.

(** From [w] to [w'] the trace has grown, and every directory made, file
    written and file removed meanwhile is named under [store]. *)
Definition calls_in_store (store : pathlib.Path) (w w' : world) : Prop :=
  ∃ evs, trace w' = trace w ++ evs ∧ Forall (in_store store) evs.

(** From [w] to [w'] directories were made where nothing was, and nothing
    else has changed. *)
Definition only_new_directories (w w' : world) : Prop :=
  ∀ p, fs w' !! p = fs w !! p
       ∨ (fs w !! p = None ∧ ∃ z, fs w' !! p = Some (Dir z)).

(** From [w] to [w'] the file system has not changed. *)
Definition fs_kept (w w' : world) : Prop := fs w' = fs w.

(** A listing whose second file line has no size. *)
Definition sample_gzip_lines_damaged
    : string → list string * option exception :=
  λ _, (take 3 sample_listing
          ++ ["-rw-r--r-- 1 debian debian hello_2.10-3.dsc"], None).

(** ** More sample inputs *)

(** The first section of the sample listing alone: every file of it is in
    the partition [main]. *)
Definition sample_gzip_lines_main : string → list string * option exception :=
  λ _, (take 8 sample_listing, None).

Definition sample_main_main : M world (flow walk_state) :=
  main sample_hexdigest sample_gzip_lines_main sample_decode sample_store
    "http://deb.example.org/debian" "20230808-120000".

(** A file line of the sample listing, and one whose name begins with a
    slash. *)
Definition sample_line : string :=
  "-rw-r--r--  1 debian debian    1234 Jan  1  2023 hello_2.10-3.dsc"
    +:+ newline.

Definition rooted_line : string :=
  "-rw-r--r--  1 debian debian    1234 Jan  1  2023 /srv/hello_2.10-3.dsc"
    +:+ newline.

(** The sample store with a copy of the listing that [main] has written. *)
Definition sample_world_listed : world :=
  set_fs (<[sample_store ++ ["meta"; "ls-lR.gz-20230808-120000"]
              := File "data"]> (fs sample_world)) sample_world.

(** * Properties *)

(** ** The monad of methods *)

Lemma bind_inv {S A B} (m : M S A) (f : A → M S B) s r s'' :
  (m ≫= f) s = (r, s'') →
  (∃ a s', m s = (Return a, s') ∧ f a s' = (r, s''))
  ∨ (∃ e, m s = (Raise e, s'') ∧ r = Raise e).
Proof.
  unfold mbind, M_bind. destruct (m s) as [[a|e] s'].
  - intros Hf. left. eauto.
  - intros [= <- <-]. right. eauto.
Qed.

Lemma bind_Return {S A B} (m : M S A) (f : A → M S B) s a s' :
  m s = (Return a, s') → (m ≫= f) s = f a s'.
Proof. unfold mbind, M_bind. by intros ->. Qed.

Lemma bind_assoc_at {S A B C} (m : M S A) (f : A → M S B) (g : B → M S C) s :
  ((m ≫= f) ≫= g) s = (m ≫= (λ a, f a ≫= g)) s.
Proof. unfold mbind, M_bind. by destruct (m s) as [[a|e] s']. Qed.

Section respects.
Context {S : Type} (R : relation S) `{!PreOrder R}.

Lemma respects_ret {A} (a : A) : respects R (mret a).
Proof. intros s r s' [= <- <-]. reflexivity. Qed.

Lemma respects_raise {A} e : respects R (raise (A:=A) e).
Proof. intros s r s' [= <- <-]. reflexivity. Qed.

Lemma respects_get : respects R get.
Proof. intros s r s' [= <- <-]. reflexivity. Qed.

Lemma respects_pure {A} (r : result A) : respects R (λ s, (r, s)).
Proof. intros s r' s' [= <- <-]. reflexivity. Qed.

Lemma respects_bind {A B} (m : M S A) (f : A → M S B) :
  respects R m → (∀ a, respects R (f a)) → respects R (m ≫= f).
Proof.
  intros Hm Hf s r s'' [(a & s' & Hms & Hfs)|(e & Hms & _)]%bind_inv.
  - etrans; [by eapply Hm|by eapply Hf].
  - by eapply Hm.
Qed.

Lemma respects_bind_returns {A B} (P : A → Prop) (m : M S A)
    (f : A → M S B) :
  respects R m → returns P m → (∀ a, P a → respects R (f a)) →
  respects R (m ≫= f).
Proof.
  intros Hm HP Hf s r s'' [(a & s' & Hms & Hfs)|(e & Hms & _)]%bind_inv.
  - etrans; [by eapply Hm|]. eapply Hf; [by eapply HP|done].
  - by eapply Hm.
Qed.

Lemma respects_try_except {A} (m : M S A) classes handler :
  respects R m → (∀ e, respects R (handler e)) →
  respects R (try_except m classes handler).
Proof.
  intros Hm Hh s r s''. unfold try_except.
  destruct (m s) as [[a|e] s'] eqn:Hms.
  - intros [= <- <-]. by eapply Hm.
  - destruct (isinstance e classes).
    + intros Hhs. etrans; [by eapply Hm|by eapply Hh].
    + intros [= <- <-]. by eapply Hm.
Qed.

Lemma respects_for_in {A} (l : list A) (body : A → M S unit) :
  (∀ x, respects R (body x)) → respects R (for_in l body).
Proof.
  intros Hbody. induction l as [|x l IH]; simpl.
  - apply respects_ret.
  - apply respects_bind; [apply Hbody|intros _; apply IH].
Qed.

Lemma respects_getitem {A} (l : list A) i : respects R (str.getitem l i).
Proof.
  unfold str.getitem. destruct (l !! i);
    [apply respects_ret|apply respects_raise].
Qed.

Lemma respects_int s : respects R (str.int s).
Proof.
  unfold str.int. cbv zeta.
  match goal with |- respects R (match ?x with _ => _ end) => destruct x end;
    [apply respects_ret|apply respects_raise].
Qed.

End respects.

Lemma respects_modify {S} (R : relation S) (f : S → S) :
  (∀ s, R s (f s)) → respects R (modify f).
Proof. intros Hf s r s' [= <- <-]. apply Hf. Qed.

Lemma returns_ret {S A} (P : A → Prop) (a : A) :
  P a → returns (S:=S) P (mret a).
Proof. by intros HP s a' s' [= <- <-]. Qed.

Lemma returns_bind {S A B} (P : B → Prop) (m : M S A) (f : A → M S B) :
  (∀ a, returns P (f a)) → returns P (m ≫= f).
Proof.
  intros Hf s b s'' [(a & s' & _ & Hfs)|(e & _ & [=])]%bind_inv.
  by eapply Hf.
Qed.

(** One step through a method: the rule for its outermost construct. *)
Ltac respects_step :=
  lazymatch goal with
  | |- respects _ (mbind _ _) => apply (respects_bind _); [|intros ?]
  | |- respects _ (mret _) => apply (respects_ret _)
  | |- respects _ (raise _) => apply (respects_raise _)
  | |- respects _ get => apply (respects_get _)
  | |- respects _ (str.getitem _ _) => apply (respects_getitem _)
  | |- respects _ (str.int _) => apply (respects_int _)
  | |- respects _ (try_except _ _ _) =>
      apply (respects_try_except _); [|intros ?]
  | |- respects _ (for_in _ _) => apply (respects_for_in _); intros ?
  | |- respects _ (if ?b then _ else _) => destruct b eqn:?
  | |- respects _ (match ?x with _ => _ end) => destruct x eqn:?
  end.

Ltac elem_of_concrete :=
  repeat first [apply list_elem_of_here | apply list_elem_of_further].

(** ** The parsers *)

Lemma caught_iff (e : exception) :
  caught e = true ↔
  issubclass (exc_type e) Exception = true
  ∨ exc_type e = ValidationNotEqualError.
Proof.
  destruct e as [[] a]; cbn; split; try done; try (by left); try (by right);
    by intros [?|?].
Qed.

Lemma for_in_max entries : ∀ self u,
  Huawei.unpacked_size self = Some u →
  for_in entries (λ entry,
    u ← getattr Huawei.unpacked_size "unpacked_size";
    modify (Huawei.set_unpacked_size (N.max u (offset entry + size entry)))) self
  = (Return tt, Huawei.set_unpacked_size (N.max u (max_entry_end entries)) self).
Proof.
  induction entries as [|entry entries IH]; intros self u Hu.
  - simpl. unfold mret, M_ret. rewrite N.max_l by lia.
    destruct self; simpl in *; subst; reflexivity.
  - cbn [for_in]. unfold mbind at 1, M_bind at 1.
    unfold mbind at 1, M_bind at 1, getattr. rewrite Hu.
    unfold modify. erewrite IH by reflexivity.
    f_equal. destruct self; unfold Huawei.set_unpacked_size; simpl. f_equal.
    f_equal. lia.
Qed.

(** [parse], case by case. *)
Lemma parse_unfold self :
  Huawei.parse self =
  match Huawei.stat_raises self with
  | Some e => (Raise e, self)
  | None =>
      let self1 :=
        Huawei.set_infile_reads (S (Huawei.infile_reads self)) self in
      match Huawei.from_io_infile self with
      | Raise e => (Raise (reraised e), self1)
      | Return d =>
          let self2 := Huawei.set_data d self1 in
          if meta_header_size (img_header d) =? 76 then
            let self3 :=
              Huawei.set_unpacked_size (max_entry_end (img_header_entries d))
                self2 in
            if max_entry_end (img_header_entries d) <=? Huawei.st_size self
            then (Return tt, self3)
            else
              (Raise (mk_exception UnpackParserException
                        [PyStr "not enough data"]), self3)
          else
            (Raise (mk_exception UnpackParserException
                      [PyStr "invalid header size"]), self2)
      end
  end.
Proof.
  unfold Huawei.parse.
  unfold mbind at 1, M_bind at 1, Huawei.stat_st_size.
  destruct (Huawei.stat_raises self) as [e|]; [reflexivity|].
  unfold mbind at 1, M_bind at 1, try_except, Huawei.from_io.
  destruct (Huawei.from_io_infile self) as [d|e] eqn:Hio.
  - unfold mbind at 1, M_bind at 1, modify at 1.
    unfold mbind at 1, M_bind at 1, getattr at 1.
    cbn [Huawei.data Huawei.set_data].
    unfold mbind at 1, M_bind at 1, check_condition at 1.
    destruct (meta_header_size (img_header d) =? 76) eqn:Hhdr; [|reflexivity].
    unfold mret at 1, M_ret at 1.
    unfold mbind at 1, M_bind at 1, modify at 1.
    unfold mbind at 1, M_bind at 1, getattr at 1.
    cbn [Huawei.data Huawei.set_data Huawei.set_unpacked_size].
    unfold mbind at 1, M_bind at 1.
    erewrite for_in_max by reflexivity.
    rewrite N.max_r by lia.
    unfold mbind at 1, M_bind at 1, getattr at 1.
    cbn [Huawei.unpacked_size Huawei.set_unpacked_size Huawei.st_size
         Huawei.set_infile_reads].
    unfold check_condition.
    destruct (_ <=? _); reflexivity.
  - unfold reraised, caught.
    destruct (isinstance e [Exception; ValidationNotEqualError]);
      reflexivity.
Qed.

Lemma parse_success self self' :
  Huawei.parse self = (Return tt, self') →
  ∃ d, Huawei.from_io_infile self = Return d
     ∧ meta_header_size (img_header d) = 76
     ∧ max_entry_end (img_header_entries d) ≤ Huawei.st_size self
     ∧ self' = Huawei.set_unpacked_size (max_entry_end (img_header_entries d))
                 (Huawei.set_data d
                    (Huawei.set_infile_reads (S (Huawei.infile_reads self)) self)).
Proof.
  rewrite parse_unfold.
  destruct (Huawei.stat_raises self) as [e|]; [discriminate|]. cbv zeta.
  destruct (Huawei.from_io_infile self) as [d|e]; [|discriminate].
  cbv zeta.
  destruct (meta_header_size (img_header d) =? 76) eqn:Hhdr; [|discriminate].
  destruct (max_entry_end (img_header_entries d) <=? Huawei.st_size self) eqn:Hsz;
    [|discriminate].
  intros [= <-]. exists d. apply N.eqb_eq in Hhdr. apply N.leb_le in Hsz.
  done.
Qed.

Lemma bmp_parse_unfold self :
  Bitmap.parse self =
  let self1 := Bitmap.set_infile_reads (S (Bitmap.infile_reads self))
                 (Bitmap.set_chunknames [] self) in
  match Bitmap.from_io_infile self with
  | Return d => (Return tt, Bitmap.set_data d self1)
  | Raise e => (Raise (reraised e), self1)
  end.
Proof.
  unfold Bitmap.parse. unfold mbind at 1, M_bind at 1, modify at 1.
  unfold mbind at 1, M_bind at 1, try_except, Bitmap.from_io.
  cbn [Bitmap.from_io_infile Bitmap.set_chunknames].
  destruct (Bitmap.from_io_infile self) as [d|e]; [reflexivity|].
  unfold reraised, caught.
  destruct (isinstance e [Exception; ValidationNotEqualError]); reflexivity.
Qed.

Lemma max_entry_end_upper entries entry :
  entry ∈ entries → offset entry + size entry ≤ max_entry_end entries.
Proof.
  induction 1 as [entry entries|entry' entry entries _ IH]; simpl; lia.
Qed.

Lemma max_entry_end_attained entries :
  entries ≠ [] →
  ∃ entry, entry ∈ entries ∧ max_entry_end entries = offset entry + size entry.
Proof.
  induction entries as [|entry entries IH]; [done|]. intros _.
  destruct entries as [|entry' entries].
  - exists entry. split; [left|]. simpl. lia.
  - destruct IH as (e & He & Hmax); [done|].
    change (max_entry_end (entry :: entry' :: entries))
      with (N.max (offset entry + size entry)
              (max_entry_end (entry' :: entries))).
    destruct (N.max_spec (offset entry + size entry)
                (max_entry_end (entry' :: entries))) as [[_ ->]|[_ ->]].
    + exists e. split; [by right|done].
    + exists entry. split; [left|done].
Qed.

Lemma max_entry_end_pos entries :
  0 < max_entry_end entries ↔
  ∃ entry, entry ∈ entries ∧ 0 < offset entry + size entry.
Proof.
  split.
  - intros Hpos. destruct entries as [|e0 entries]; [simpl in Hpos; lia|].
    destruct (max_entry_end_attained (e0 :: entries)) as (e & He & Hmax);
      [done|].
    exists e. split; [done|lia].
  - intros (e & He & Hpos). pose proof (max_entry_end_upper _ _ He). lia.
Qed.

Lemma unpack_loop_spec entries : ∀ self unpacked_files,
  Huawei.unpack_loop entries unpacked_files self =
  (Return (unpacked_files ++
             (unpacked_file self <$> filter is_unpacked entries)),
   Huawei.set_extracted
     (Huawei.extracted self ++ (extraction self <$> filter is_unpacked entries))
     self).
Proof.
  induction entries as [|entry entries IH]; intros self files.
  - simpl. rewrite !app_nil_r. destruct self; reflexivity.
  - cbn [Huawei.unpack_loop].
    destruct (size entry =? 0) eqn:Hsize.
    { apply N.eqb_eq in Hsize. rewrite IH, filter_cons_False; [done|].
      unfold is_unpacked. lia. }
    apply N.eqb_neq in Hsize.
    destruct (String.eqb (name entry) "") eqn:Hname.
    { apply String.eqb_eq in Hname. rewrite IH, filter_cons_False; [done|].
      unfold is_unpacked. tauto. }
    apply String.eqb_neq in Hname.
    rewrite filter_cons_True by (unfold is_unpacked; split; [lia|done]).
    cbv zeta.
    unfold mbind at 1, M_bind at 1, get at 1.
    unfold mbind at 1, M_bind at 1, Huawei.extract_to_file, modify at 1.
    unfold mbind at 1, M_bind at 1, get at 1.
    rewrite IH. rewrite !fmap_cons.
    cbn [Huawei.extracted Huawei.set_extracted Huawei.fileresult Huawei.rel_unpack_dir].
    rewrite <- !app_assoc. reflexivity.
Qed.

Lemma partitions_loop_spec entries : ∀ partitions,
  Huawei.partitions_loop entries partitions =
  partitions ++ (partition_record <$> filter (λ entry, size entry ≠ 0) entries).
Proof.
  induction entries as [|entry entries IH]; intros partitions.
  - simpl. by rewrite app_nil_r.
  - cbn [Huawei.partitions_loop]. destruct (size entry =? 0) eqn:Hsize.
    + apply N.eqb_eq in Hsize. rewrite IH, filter_cons_False; [done|].
      intros Hn. done.
    + apply N.eqb_neq in Hsize. rewrite IH, filter_cons_True by done.
      rewrite fmap_cons, <- app_assoc. reflexivity.
Qed.

Lemma huawei_sample_parses :
  Huawei.parse (huawei_self 20000 (Return huawei_image))
  = (Return tt, huawei_parsed).
Proof. vm_compute. reflexivity. Qed.

(** C1, as stated, fails: a Huawei image without entries parses with
    [unpacked_size = 0], and a bitmap of 100 bytes whose header declares
    1000 parses with [unpacked_size = 1000]. *)
Lemma unpacked_size_bounds_counterexample :
  (∃ self',
     Huawei.parse (huawei_self 100 (Return huawei_no_entries)) = (Return tt, self')
     ∧ Huawei.unpacked_size self' = Some 0 ∧ ¬ 0 < 0)
  ∧ (∃ self' self'',
       Bitmap.parse (bmp_self 100 (Return (bmp.mkBmp (bmp.mkFileHeader 1000))))
         = (Return tt, self')
       ∧ Bitmap.calculate_unpacked_size self' = (Return tt, self'')
       ∧ Bitmap.unpacked_size self'' = Some 1000
       ∧ Bitmap.st_size self'' = 100 ∧ ¬ 1000 ≤ 100).
Proof.
  split.
  - eexists. split; [vm_compute; reflexivity|]. split; [reflexivity|lia].
  - eexists _, _. split; [vm_compute; reflexivity|].
    split; [vm_compute; reflexivity|]. repeat split; lia.
Qed.

(** C1, amended: when [AndroidBootHuaweiUnpackParser.parse] succeeds,
    [unpacked_size] is at most the file length, and it is positive
    exactly when some entry has a positive end offset; when
    [BmpUnpackParser.parse] succeeds, [calculate_unpacked_size] returns
    and sets [unpacked_size] to the header's [len_file], with no regard
    to the file length. *)
Theorem unpacked_size_bounds :
  (∀ self self',
     Huawei.parse self = (Return tt, self') →
     ∃ d u, Huawei.data self' = Some d ∧ Huawei.unpacked_size self' = Some u
          ∧ u ≤ Huawei.st_size self
          ∧ (0 < u ↔ ∃ entry, entry ∈ img_header_entries d
                              ∧ 0 < offset entry + size entry))
  ∧ (∀ self self' r self'',
       Bitmap.parse self = (Return tt, self') →
       Bitmap.calculate_unpacked_size self' = (r, self'') →
       ∃ d, Bitmap.from_io_infile self = Return d ∧ r = Return tt
          ∧ Bitmap.unpacked_size self'' = Some (bmp.len_file (bmp.file_hdr d))
          ∧ Bitmap.st_size self'' = Bitmap.st_size self).
Proof.
  split.
  - intros self self' (d & Hio & Hhdr & Hsz & ->)%parse_success.
    exists d, (max_entry_end (img_header_entries d)).
    split; [done|]. split; [done|]. split; [done|].
    apply max_entry_end_pos.
  - intros self self' r self''. rewrite bmp_parse_unfold. cbv zeta.
    destruct (Bitmap.from_io_infile self) as [d|e]; [|discriminate].
    intros [= <-]. intros [= <- <-]. exists d. done.
Qed.

Lemma unpacked_size_bounds_witness :
  ∃ d u, Huawei.data huawei_parsed = Some d
       ∧ Huawei.unpacked_size huawei_parsed = Some u
       ∧ u ≤ 20000
       ∧ (0 < u ↔ ∃ entry, entry ∈ img_header_entries d
                              ∧ 0 < offset entry + size entry).
Proof.
  apply (proj1 unpacked_size_bounds (huawei_self 20000 (Return huawei_image))).
  vm_compute. reflexivity.
Defined.

(** C2, as stated, fails: an error of the kaitai run time other than
    [ValidationNotEqualError], and the interrupt of the reader, leave
    [parse] of either parser as they are; and when the input file of the
    Huawei parser cannot be looked up, the [FileNotFoundError] of [stat]
    leaves [parse]. *)
Lemma caught_exceptions_become_UnpackParserException_counterexample :
  (Bitmap.parse (bmp_self 100 (Raise not_matching))).1 = Raise not_matching
  ∧ (Huawei.parse (huawei_self 100 (Raise not_matching))).1
    = Raise not_matching
  ∧ (Bitmap.parse (bmp_self 100 (Raise interrupt))).1 = Raise interrupt
  ∧ (Huawei.parse (huawei_self_gone (Return huawei_image))).1
    = Raise no_such_file
  ∧ exc_type not_matching ≠ UnpackParserException
  ∧ exc_type interrupt ≠ UnpackParserException
  ∧ exc_type no_such_file ≠ UnpackParserException.
Proof. repeat split; done. Qed.

(** C2, amended: an exception that the kaitai reader raises inside
    [parse], of either parser, and that is an [Exception] or a
    [ValidationNotEqualError], a read past the end of the input among
    them, leaves [parse] as an [UnpackParserException] that carries its
    arguments; an exception of the reader of another class leaves [parse]
    as it is; and an exception that leaves [parse] is an
    [UnpackParserException], or such an exception of the reader, or, in the
    Huawei parser, the exception of [stat] on the input file. *)
Theorem caught_exceptions_become_UnpackParserException :
  (∀ e, caught e = true
        ↔ issubclass (exc_type e) Exception = true
          ∨ exc_type e = ValidationNotEqualError)
  ∧ (∀ e, exc_type e = EOFError → caught e = true)
  ∧ (∀ self e,
       Bitmap.from_io_infile self = Raise e →
       ∃ self',
         Bitmap.parse self =
         (Raise (if caught e
                 then mk_exception UnpackParserException [PyTuple (args e)]
                 else e), self'))
  ∧ (∀ self e,
       Huawei.stat_raises self = None →
       Huawei.from_io_infile self = Raise e →
       ∃ self',
         Huawei.parse self =
         (Raise (if caught e
                 then mk_exception UnpackParserException [PyTuple (args e)]
                 else e), self'))
  ∧ (∀ self e self',
       Bitmap.parse self = (Raise e, self') →
       exc_type e = UnpackParserException
       ∨ (Bitmap.from_io_infile self = Raise e ∧ caught e = false))
  ∧ (∀ self e self',
       Huawei.parse self = (Raise e, self') →
       exc_type e = UnpackParserException
       ∨ (Huawei.from_io_infile self = Raise e ∧ caught e = false)
       ∨ Huawei.stat_raises self = Some e).
Proof.
  split; [apply caught_iff|]. split.
  { intros [c a] Hc. cbn in Hc. by subst c. }
  split; [|split; [|split]].
  - intros self e Hio. rewrite bmp_parse_unfold, Hio. cbv zeta. eauto.
  - intros self e Hstat Hio. rewrite parse_unfold, Hstat. cbv zeta.
    rewrite Hio. eauto.
  - intros self e self'. rewrite bmp_parse_unfold. cbv zeta.
    destruct (Bitmap.from_io_infile self) as [d|e0]; intros [= <- <-].
    unfold reraised. destruct (caught e0) eqn:Hc; [by left|by right].
  - intros self e self'. rewrite parse_unfold.
    destruct (Huawei.stat_raises self) as [e1|];
      [intros [= <- <-]; auto|]. cbv zeta.
    destruct (Huawei.from_io_infile self) as [d|e0]; cbv zeta.
    + destruct (_ =? 76); [destruct (_ <=? _)|]; intros [= <- <-]; by left.
    + intros [= <- <-]. unfold reraised.
      destruct (caught e0) eqn:Hc; [by left|right; by left].
Qed.

Lemma caught_exceptions_become_UnpackParserException_witness :
  ∃ self', Huawei.parse (huawei_self 2 (Raise short_read)) =
    (Raise (if caught short_read
            then mk_exception UnpackParserException
                   [PyTuple (args short_read)]
            else short_read), self').
Proof.
  apply (proj1 (proj2 (proj2 (proj2
           caught_exceptions_become_UnpackParserException)))
           (huawei_self 2 (Raise short_read)) short_read);
    reflexivity.
Defined.

(** C3, as stated, fails: when the structural parse raises an exception
    that the handler does not catch, an error of the kaitai run time other
    than [ValidationNotEqualError] or the interrupt of the reader, a
    validation condition has failed and [parse] raises no
    [UnpackParserException]. *)
Lemma parse_raises_iff_validation_rejects_counterexample :
  (let self := huawei_self 100 (Raise not_matching) in
   validation_fails self
   ∧ ¬ ∃ e self', Huawei.parse self = (Raise e, self')
                  ∧ exc_type e = UnpackParserException)
  ∧ (let self := huawei_self 100 (Raise interrupt) in
     validation_fails self
     ∧ ¬ ∃ e self', Huawei.parse self = (Raise e, self')
                    ∧ exc_type e = UnpackParserException).
Proof.
  split; (split; [left; by eexists|]);
    intros (e & self' & Hparse & He); vm_compute in Hparse;
    injection Hparse as <- _; discriminate.
Qed.

(** C3, amended: when [stat] on the input file returns,
    [AndroidBootHuaweiUnpackParser.parse] raises [UnpackParserException]
    if and only if the structural parse raises an exception that the
    handler catches, or the header size is not 76, or the file is smaller
    than the maximum entry end; it succeeds if and only if the structural
    parse returns and the two checks hold; and an exception of the
    structural parse that the handler does not catch leaves [parse] as it
    is.  When [stat] raises, its exception leaves [parse] and the input is
    not read. *)
Theorem parse_raises_iff_validation_rejects (self : Huawei.Self) :
  (Huawei.stat_raises self = None →
   ((∃ e self', Huawei.parse self = (Raise e, self')
                ∧ exc_type e = UnpackParserException)
    ↔ validation_rejects self)
   ∧ ((∃ self', Huawei.parse self = (Return tt, self'))
      ↔ ¬ validation_fails self)
   ∧ (∀ e, Huawei.from_io_infile self = Raise e → caught e = false →
           ∃ self', Huawei.parse self = (Raise e, self')))
  ∧ (∀ e, Huawei.stat_raises self = Some e →
          Huawei.parse self = (Raise e, self)).
Proof.
  rewrite parse_unfold. split; [|by intros e ->].
  intros ->. unfold validation_rejects, validation_fails. cbv zeta.
  destruct (Huawei.from_io_infile self) as [d|e0]; cbv zeta.
  - destruct (meta_header_size (img_header d) =? 76) eqn:Hhdr.
    + apply N.eqb_eq in Hhdr.
      destruct (max_entry_end (img_header_entries d) <=? Huawei.st_size self)
        eqn:Hsz.
      * apply N.leb_le in Hsz. split; [split|split; [split|]].
        -- intros (e & self' & [=] & _).
        -- intros [(e & [=] & _)|(d' & [= <-] & [?|?])]; [done|lia].
        -- intros _ [[e [=]]|(d' & [= <-] & [?|?])]; [done|lia].
        -- eauto.
        -- intros e [=].
      * apply N.leb_gt in Hsz. split; [split|split; [split|]].
        -- intros _. right. exists d. auto.
        -- intros _. eexists _, _. split; reflexivity.
        -- intros (self' & [=]).
        -- intros Hn. exfalso. apply Hn. right. exists d. auto.
        -- intros e [=].
    + apply N.eqb_neq in Hhdr. split; [split|split; [split|]].
      * intros _. right. exists d. auto.
      * intros _. eexists _, _. split; reflexivity.
      * intros (self' & [=]).
      * intros Hn. exfalso. apply Hn. right. exists d. auto.
      * intros e [=].
  - unfold reraised. split; [split|split; [split|]].
    + intros (e & self' & Hrun & He). left. exists e0. split; [done|].
      destruct (caught e0) eqn:Hc; [done|].
      injection Hrun as <- _.
      assert (caught e0 = true) as Hc'
        by (apply caught_iff; left; by rewrite He).
      congruence.
    + intros [(e & [= <-] & ->)|(d & [=] & _)].
      eexists _, _. split; reflexivity.
    + intros (self' & Hrun). by destruct (caught e0).
    + intros Hn. exfalso. apply Hn. left. eauto.
    + intros e [= <-] ->. eauto.
Qed.

Lemma parse_raises_iff_validation_rejects_witness :
  let self := huawei_self 2 (Raise short_read) in
  ((∃ e self', Huawei.parse self = (Raise e, self')
               ∧ exc_type e = UnpackParserException)
   ↔ validation_rejects self)
  ∧ ((∃ self', Huawei.parse self = (Return tt, self'))
     ↔ ¬ validation_fails self)
  ∧ (∀ e, Huawei.from_io_infile self = Raise e → caught e = false →
          ∃ self', Huawei.parse self = (Raise e, self')).
Proof.
  intros self.
  apply (proj1 (parse_raises_iff_validation_rejects self)).
  reflexivity.
Defined.

(** C4: after a successful parse of a Huawei image, [unpacked_size] is the
    maximum of [offset + size] over the entries (0 without entries), a
    function of the parsed data; the input was handed to the reader once,
    during [parse]; and [calculate_unpacked_size] changes nothing. *)
Theorem unpacked_size_is_max_entry_end self self' :
  Huawei.parse self = (Return tt, self') →
  ∃ d, Huawei.from_io_infile self = Return d
     ∧ Huawei.data self' = Some d
     ∧ Huawei.unpacked_size self' = Some (max_entry_end (img_header_entries d))
     ∧ (∀ entry, entry ∈ img_header_entries d →
          offset entry + size entry ≤ max_entry_end (img_header_entries d))
     ∧ (img_header_entries d = [] ∧ max_entry_end (img_header_entries d) = 0
        ∨ ∃ entry, entry ∈ img_header_entries d
            ∧ max_entry_end (img_header_entries d) = offset entry + size entry)
     ∧ Huawei.infile_reads self' = S (Huawei.infile_reads self)
     ∧ Huawei.calculate_unpacked_size self' = (Return tt, self').
Proof.
  intros (d & Hio & Hhdr & Hsz & ->)%parse_success.
  exists d. split; [done|]. split; [done|]. split; [done|].
  split; [apply max_entry_end_upper|]. split; [|done].
  destruct (img_header_entries d) as [|e0 entries] eqn:He; [by left|].
  right. apply max_entry_end_attained. done.
Qed.

Lemma unpacked_size_is_max_entry_end_witness :
  ∃ d, Huawei.from_io_infile (huawei_self 20000 (Return huawei_image))
       = Return d
     ∧ Huawei.data huawei_parsed = Some d
     ∧ Huawei.unpacked_size huawei_parsed
       = Some (max_entry_end (img_header_entries d))
     ∧ (∀ entry, entry ∈ img_header_entries d →
          offset entry + size entry ≤ max_entry_end (img_header_entries d))
     ∧ (img_header_entries d = [] ∧ max_entry_end (img_header_entries d) = 0
        ∨ ∃ entry, entry ∈ img_header_entries d
            ∧ max_entry_end (img_header_entries d) = offset entry + size entry)
     ∧ Huawei.infile_reads huawei_parsed
       = S (Huawei.infile_reads (huawei_self 20000 (Return huawei_image)))
     ∧ Huawei.calculate_unpacked_size huawei_parsed
       = (Return tt, huawei_parsed).
Proof.
  apply (unpacked_size_is_max_entry_end
           (huawei_self 20000 (Return huawei_image))).
  vm_compute. reflexivity.
Defined.

(** C5: after a successful parse, [unpack] returns one [FileResult] for
    each entry with a positive size and a non-empty name, in the order of
    the entries and for no other entry, and it has extracted each from
    [(offset, size)] to the path that the entry's name gives under the
    unpack directory. *)
Theorem unpack_returns_one_file_per_named_nonempty_entry self self' :
  Huawei.parse self = (Return tt, self') →
  ∃ d, Huawei.data self' = Some d
     ∧ Huawei.unpack self' =
       (Return (unpacked_file self' <$>
                  filter is_unpacked (img_header_entries d)),
        Huawei.set_extracted
          (Huawei.extracted self' ++
           (extraction self' <$> filter is_unpacked (img_header_entries d)))
          self').
Proof.
  intros (d & Hio & Hhdr & Hsz & ->)%parse_success.
  exists d. split; [done|].
  unfold Huawei.unpack. unfold mbind, M_bind, getattr.
  cbn [Huawei.data Huawei.set_unpacked_size Huawei.set_data].
  rewrite unpack_loop_spec. reflexivity.
Qed.

Lemma unpack_returns_one_file_per_named_nonempty_entry_witness :
  ∃ d, Huawei.data huawei_parsed = Some d
     ∧ Huawei.unpack huawei_parsed =
       (Return (unpacked_file huawei_parsed <$>
                  filter is_unpacked (img_header_entries d)),
        Huawei.set_extracted
          (Huawei.extracted huawei_parsed ++
           (extraction huawei_parsed <$>
              filter is_unpacked (img_header_entries d)))
          huawei_parsed).
Proof.
  apply (unpack_returns_one_file_per_named_nonempty_entry
           (huawei_self 20000 (Return huawei_image))).
  vm_compute. reflexivity.
Defined.

(** C6: after a successful parse, [set_metadata_and_labels] returns, the
    labels are [android], [bootloader], [huawei], and the metadata are the
    partitions alone: one record for each entry of nonzero size, named or
    not, in the order of the entries. *)
Theorem set_metadata_and_labels_describes_partitions self self' :
  Huawei.parse self = (Return tt, self') →
  ∃ d self'',
    Huawei.data self' = Some d
    ∧ Huawei.set_metadata_and_labels self' = (Return tt, self'')
    ∧ get_labels (Huawei.unpack_results self'')
      = Some ["android"; "bootloader"; "huawei"]
    ∧ get_metadata (Huawei.unpack_results self'')
      = Some {[ "partitions" :=
                  PyList (partition_record <$>
                            filter (λ entry, size entry ≠ 0)
                              (img_header_entries d)) ]}.
Proof.
  intros (d & Hio & Hhdr & Hsz & ->)%parse_success.
  exists d. eexists. split; [done|].
  unfold Huawei.set_metadata_and_labels. cbv zeta.
  unfold mbind, M_bind, getattr, modify.
  cbn [Huawei.data Huawei.set_unpacked_size Huawei.set_data].
  split; [reflexivity|]. split; [reflexivity|].
  cbn [Huawei.unpack_results Huawei.set_unpack_results get_metadata set_metadata].
  rewrite partitions_loop_spec, insert_insert_eq, insert_empty.
  reflexivity.
Qed.

Lemma set_metadata_and_labels_describes_partitions_witness :
  ∃ d self'',
    Huawei.data huawei_parsed = Some d
    ∧ Huawei.set_metadata_and_labels huawei_parsed = (Return tt, self'')
    ∧ get_labels (Huawei.unpack_results self'')
      = Some ["android"; "bootloader"; "huawei"]
    ∧ get_metadata (Huawei.unpack_results self'')
      = Some {[ "partitions" :=
                  PyList (partition_record <$>
                            filter (λ entry, size entry ≠ 0)
                              (img_header_entries d)) ]}.
Proof.
  apply (set_metadata_and_labels_describes_partitions
           (huawei_self 20000 (Return huawei_image))).
  vm_compute. reflexivity.
Defined.

(** ** The crawler: file names and categories *)

Lemma list_ascii_of_string_app s1 s2 :
  list_ascii_of_string (s1 +:+ s2)
  = list_ascii_of_string s1 ++ list_ascii_of_string s2.
Proof. induction s1 as [|c s1 IH]; cbn; [done|]. by rewrite <- IH. Qed.

Lemma endswith_ends_in s suffix :
  str.endswith s suffix = true ↔ ends_in s suffix.
Proof.
  unfold str.endswith, ends_in. rewrite bool_decide_eq_true. split.
  - intros [k Hk]. exists (string_of_list_ascii k).
    rewrite <- (string_of_list_ascii_of_string s).
    rewrite <- (string_of_list_ascii_of_string (_ +:+ _)).
    f_equal.
    by rewrite list_ascii_of_string_app, list_ascii_of_string_of_list_ascii.
  - intros [stem ->]. exists (list_ascii_of_string stem).
    apply list_ascii_of_string_app.
Qed.

Lemma suffix_table_compatible :
  forallb (λ r1, forallb (compatible r1) suffix_table) suffix_table = true.
Proof. vm_compute. reflexivity. Qed.

Lemma category_of_functional name c1 c2 :
  category_of name c1 → category_of name c2 → c1 = c2.
Proof.
  intros (s1 & Hin1 & He1) (s2 & Hin2 & He2).
  pose proof suffix_table_compatible as Hc.
  rewrite forallb_forall in Hc.
  apply list_elem_of_In, Hc in Hin1. rewrite forallb_forall in Hin1.
  apply list_elem_of_In, Hin1 in Hin2. unfold compatible in Hin2. simpl in Hin2.
  apply orb_true_iff in Hin2 as [Heq|Hno]; [by apply bool_decide_eq_true in Heq|].
  apply negb_true_iff, orb_false_iff in Hno as [Hno1 Hno2].
  apply endswith_ends_in in He1, He2.
  unfold str.endswith in *. apply bool_decide_eq_true in He1, He2.
  apply bool_decide_eq_false in Hno1, Hno2.
  destruct (suffix_weak_total _ _ _ He1 He2); tauto.
Qed.

Lemma elem_of_suffix_table_category name suffix c :
  (suffix, c) ∈ suffix_table → str.endswith name suffix = true →
  category_of name c.
Proof. intros Hin He. exists suffix. split; [done|]. by apply endswith_ends_in. Qed.

Lemma well_targeted_intro store suffix c debiandir debianfile debiansize :
  (suffix, c) ∈ suffix_table → str.endswith debianfile suffix = true →
  well_targeted store
    (debiandir, debianfile, debiansize, store ++ [category_name c]).
Proof.
  intros Hin He. exists c. split; [|done].
  by eapply elem_of_suffix_table_category.
Qed.

(** ** The crawler: paths *)

Lemma parent_snoc (p : pathlib.Path) c : pathlib.parent (p ++ [c]) = p.
Proof. unfold pathlib.parent. apply removelast_last. Qed.

Lemma split_no_leading_separator sep s :
  Forall (λ piece, ∀ rest, piece ≠ String sep rest) (str.split sep s).
Proof.
  induction s as [|c s IH]; simpl.
  - by repeat constructor.
  - destruct (Ascii.eqb_spec c sep) as [->|Hne].
    + by constructor.
    + destruct (str.split sep s) as [|piece pieces].
      * constructor; [|done]. by intros rest [= -> _].
      * inversion_clear IH. constructor; [|done]. by intros rest [= -> _].
Qed.

Lemma truediv_relative p s :
  pathlib.is_absolute s = false →
  pathlib.truediv p (pathlib.parse_parts s) = p ++ pathlib.parse_parts s.
Proof.
  intros Hrel. unfold pathlib.parse_parts. rewrite Hrel. cbn [app].
  pose proof (split_no_leading_separator "/" s) as Hsplit.
  rewrite Forall_forall in Hsplit.
  destruct (filter _ (str.split "/" s)) as [|piece pieces] eqn:Hf; [done|].
  assert (∀ rest, piece ≠ String "/" rest) as Hpiece.
  { apply Hsplit. eapply (list_elem_of_filter (λ c, c ≠ "" ∧ c ≠ ".")).
    rewrite Hf. left. }
  unfold pathlib.truediv.
  destruct piece as [|c piece]; [done|].
  destruct (Ascii.eqb_spec c "/") as [->|Hc]; [by destruct (Hpiece piece)|].
  destruct c as [[] [] [] [] [] [] [] []]; try done;
    destruct piece as [|c' piece]; try done;
    destruct c' as [[] [] [] [] [] [] [] []]; try done;
    destruct piece; done.
Qed.

Lemma meta_outname_not_HASH store stamp :
  pathlib.Path_join (store ++ ["meta"]) ["ls-lR.gz-" +:+ stamp]
  ≠ store ++ ["HASH"].
Proof.
  unfold pathlib.Path_join. cbn [foldl].
  rewrite truediv_relative by reflexivity.
  rewrite <- app_assoc. intros Heq%app_inv_head. discriminate.
Qed.

(** ** The crawler: what [main] puts on the download queue *)

Global Instance puts_ok_preorder store : PreOrder (puts_ok store).
Proof.
  split.
  - intros w. exists []. by rewrite app_nil_r.
  - intros w1 w2 w3 (evs1 & H1 & Hok1) (evs2 & H2 & Hok2).
    exists (evs1 ++ evs2). rewrite H2, H1, app_assoc. split; [done|].
    by apply Forall_app.
Qed.

Lemma puts_ok_log store ev w w' :
  event_ok store ev → trace w' = trace w → puts_ok store w (log ev w').
Proof.
  intros Hev Htr. exists [ev]. simpl. rewrite Htr. split; [done|].
  by constructor.
Qed.

Section puts_ok_primitives.
Variable store : pathlib.Path.

Lemma puts_ok_path_exists p : respects (puts_ok store) (path_exists p).
Proof. unfold path_exists. repeat respects_step. Qed.

Lemma puts_ok_is_dir p : respects (puts_ok store) (is_dir p).
Proof. unfold is_dir. repeat respects_step. Qed.

Lemma puts_ok_read_file p : respects (puts_ok store) (read_file p).
Proof. unfold read_file, os_error. repeat respects_step. Qed.

Lemma puts_ok_unlink p : respects (puts_ok store) (unlink p).
Proof.
  unfold unlink, os_error. repeat respects_step.
  apply respects_modify. intros w. by apply puts_ok_log.
Qed.

Lemma puts_ok_mkdir p : respects (puts_ok store) (mkdir p).
Proof.
  unfold mkdir, os_error. repeat respects_step.
  apply respects_modify. intros w. by apply puts_ok_log.
Qed.

Lemma puts_ok_write_file p c : respects (puts_ok store) (write_file p c).
Proof.
  unfold write_file, os_error. repeat respects_step;
  apply respects_modify; intros w; by apply puts_ok_log.
Qed.

Lemma puts_ok_requests_get url : respects (puts_ok store) (requests_get url).
Proof. intros w r w' [= <- <-]. by apply puts_ok_log. Qed.

Lemma puts_ok_put t : well_targeted store t → respects (puts_ok store) (downloadqueue_put t).
Proof. intros Ht. apply respects_modify. intros w. by apply puts_ok_log. Qed.

Lemma puts_ok_set_downloadqueue q : respects (puts_ok store) (modify (set_downloadqueue q)).
Proof. apply respects_modify. intros w. exists []. by rewrite app_nil_r. Qed.

Lemma puts_ok_set_failqueue q : respects (puts_ok store) (modify (set_failqueue q)).
Proof. apply respects_modify. intros w. exists []. by rewrite app_nil_r. Qed.

Lemma puts_ok_mkdir_if_missing p : respects (puts_ok store) (mkdir_if_missing p).
Proof.
  unfold mkdir_if_missing. respects_step; [apply puts_ok_path_exists|].
  respects_step; [respects_step|apply puts_ok_mkdir].
Qed.

Lemma puts_ok_deb_loop archs downloadpath filesize st :
  archs ⊆ debianarchitectures →
  respects (puts_ok store)
    (deb_loop archs downloadpath filesize (layout store) st).
Proof.
  induction archs as [|arch archs IH]; intros Hsub; simpl.
  - respects_step.
  - respects_step.
    + respects_step; [|respects_step].
      apply puts_ok_put. exists binary. split; [|done].
      assert (arch ∈ debianarchitectures) as Harch by set_solver.
      eapply elem_of_suffix_table_category; [|done].
      unfold debianarchitectures in Harch.
      repeat (apply elem_of_cons in Harch as [->|Harch];
              [apply (bool_decide_unpack _); by vm_compute|]).
      by apply elem_of_nil in Harch.
    + apply IH. set_solver.
Qed.

End puts_ok_primitives.

Ltac put_in c :=
  apply puts_ok_put; eapply (well_targeted_intro _ _ c); [|eassumption];
  apply (bool_decide_unpack _); by vm_compute.

Lemma puts_ok_walk_file store line st :
  respects (puts_ok store) (walk_file (layout store) line st).
Proof.
  unfold walk_file.
  repeat first
    [ apply puts_ok_deb_loop; done
    | put_in dsc | put_in patches | put_in source
    | respects_step ].
Qed.

Lemma puts_ok_walk_line decode store i st :
  respects (puts_ok store) (walk_line decode (layout store) i st).
Proof.
  unfold walk_line.
  respects_step; [apply (respects_pure _)|].
  repeat first [apply puts_ok_walk_file | respects_step].
Qed.

Lemma puts_ok_walk_lines decode store lines : ∀ st,
  respects (puts_ok store) (walk_lines decode (layout store) lines st).
Proof.
  induction lines as [|i lines IH]; intros st; simpl.
  - respects_step.
  - respects_step; [apply puts_ok_walk_line|].
    respects_step; [respects_step|apply IH].
Qed.

Lemma puts_ok_walk_listing gzip_lines decode store meta_outname :
  respects (puts_ok store)
    (walk_listing gzip_lines decode (layout store) meta_outname).
Proof.
  unfold walk_listing.
  respects_step; [apply puts_ok_read_file|].
  respects_step; [apply puts_ok_walk_lines|].
  repeat respects_step.
Qed.

Lemma create_directories_returns store :
  returns (λ dirs, dirs = layout store) (create_directories store).
Proof.
  unfold create_directories. cbv zeta.
  repeat (apply returns_bind; intros ?). by apply returns_ret.
Qed.

Lemma puts_ok_create_directories store store' :
  respects (puts_ok store) (create_directories store').
Proof.
  unfold create_directories. cbv zeta.
  repeat first [apply puts_ok_mkdir_if_missing | respects_step].
Qed.

Lemma puts_ok_check_storedirectory store store' :
  respects (puts_ok store) (check_storedirectory store').
Proof.
  unfold check_storedirectory.
  repeat first [apply puts_ok_path_exists | apply puts_ok_is_dir | respects_step].
Qed.

Lemma puts_ok_download_listing store dirs mirror stamp :
  respects (puts_ok store) (download_listing dirs mirror stamp).
Proof.
  unfold download_listing. cbv zeta.
  repeat first [apply puts_ok_path_exists | apply puts_ok_requests_get
               | apply puts_ok_write_file | respects_step].
Qed.

Lemma puts_ok_check_hash hexdigest store store' meta content :
  respects (puts_ok store) (check_hash hexdigest store' meta content).
Proof.
  unfold check_hash. cbv zeta.
  repeat first [apply puts_ok_path_exists | apply puts_ok_read_file
               | apply puts_ok_unlink
               | apply puts_ok_write_file | respects_step].
Qed.

Lemma puts_ok_main hexdigest gzip_lines decode store mirror stamp :
  respects (puts_ok store) (main hexdigest gzip_lines decode store mirror stamp).
Proof.
  unfold main.
  respects_step; [apply puts_ok_check_storedirectory|].
  respects_step; [|respects_step].
  eapply (respects_bind_returns _);
    [apply puts_ok_create_directories|apply create_directories_returns|].
  intros dirs ->.
  repeat first [apply puts_ok_download_listing | apply puts_ok_check_hash
               | apply puts_ok_walk_listing | apply puts_ok_set_downloadqueue
               | apply puts_ok_set_failqueue | respects_step].
Qed.

(** ** The crawler: the directories of the store *)

Global Instance dirs_kept_preorder : PreOrder dirs_kept.
Proof.
  split.
  - intros w p. auto.
  - intros w1 w2 w3 H1 H2 p. auto.
Qed.

Lemma dirs_kept_same_fs w w' : fs w' = fs w → dirs_kept w w'.
Proof. intros Hfs p. unfold is_directory. by rewrite Hfs. Qed.

Lemma dirs_kept_delete w p ev :
  ¬ is_directory w p → dirs_kept w (log ev (set_fs (delete p (fs w)) w)).
Proof.
  intros Hp q [z Hq]. exists z. cbn. rewrite lookup_delete_ne; [done|].
  intros ->. apply Hp. by exists z.
Qed.

Lemma dirs_kept_insert w p n ev :
  ¬ is_directory w p → dirs_kept w (log ev (set_fs (<[p := n]> (fs w)) w)).
Proof.
  intros Hp q [z Hq]. exists z. cbn. rewrite lookup_insert_ne; [done|].
  intros ->. apply Hp. by exists z.
Qed.

Lemma dirs_kept_unlink p : respects dirs_kept (unlink p).
Proof.
  intros w r w'. unfold unlink, mbind, M_bind, get, modify, os_error, raise.
  destruct (fs w !! p) as [[z|c]|] eqn:Hp; intros [= <- <-]; try reflexivity.
  apply dirs_kept_delete. intros [z Hz]. congruence.
Qed.

Lemma dirs_kept_mkdir p : respects dirs_kept (mkdir p).
Proof.
  intros w r w'. unfold mkdir, mbind, M_bind, get, modify, os_error, raise.
  destruct (fs w !! p) as [n|] eqn:Hp; [intros [= <- <-]; reflexivity|].
  destruct (fs w !! pathlib.parent p) as [[z|c]|]; intros [= <- <-];
    try reflexivity.
  apply dirs_kept_insert. intros [z' Hz]. congruence.
Qed.

Lemma dirs_kept_write_file p c : respects dirs_kept (write_file p c).
Proof.
  intros w r w'. unfold write_file, mbind, M_bind, get, modify, os_error, raise.
  destruct (fs w !! p) as [[z|c']|] eqn:Hp;
    [intros [= <- <-]; reflexivity|..];
    (destruct (fs w !! pathlib.parent p) as [[z|c'']|]; intros [= <- <-];
     try reflexivity; apply dirs_kept_insert; intros [z' Hz]; congruence).
Qed.

Lemma dirs_kept_path_exists p : respects dirs_kept (path_exists p).
Proof. unfold path_exists. repeat respects_step. Qed.

Lemma dirs_kept_is_dir p : respects dirs_kept (is_dir p).
Proof. unfold is_dir. repeat respects_step. Qed.

Lemma dirs_kept_read_file p : respects dirs_kept (read_file p).
Proof. unfold read_file, os_error. repeat respects_step. Qed.

Lemma dirs_kept_requests_get url : respects dirs_kept (requests_get url).
Proof. intros w r w' [= <- <-]. by apply dirs_kept_same_fs. Qed.

Lemma dirs_kept_put t : respects dirs_kept (downloadqueue_put t).
Proof. apply respects_modify. intros w. by apply dirs_kept_same_fs. Qed.

Lemma dirs_kept_set_downloadqueue q :
  respects dirs_kept (modify (set_downloadqueue q)).
Proof. apply respects_modify. intros w. by apply dirs_kept_same_fs. Qed.

Lemma dirs_kept_set_failqueue q :
  respects dirs_kept (modify (set_failqueue q)).
Proof. apply respects_modify. intros w. by apply dirs_kept_same_fs. Qed.

Lemma dirs_kept_deb_loop archs downloadpath filesize dirs st :
  respects dirs_kept (deb_loop archs downloadpath filesize dirs st).
Proof.
  induction archs as [|arch archs IH]; simpl;
    repeat first [apply dirs_kept_put | apply IH | respects_step].
Qed.

Lemma dirs_kept_walk_lines decode dirs lines : ∀ st,
  respects dirs_kept (walk_lines decode dirs lines st).
Proof.
  induction lines as [|i lines IH]; intros st; simpl; [respects_step|].
  respects_step; [|respects_step; [respects_step|apply IH]].
  unfold walk_line, walk_file.
  respects_step; [apply (respects_pure _)|].
  repeat first [apply dirs_kept_put | apply dirs_kept_deb_loop | respects_step].
Qed.

Lemma dirs_kept_mkdir_if_missing p : respects dirs_kept (mkdir_if_missing p).
Proof.
  unfold mkdir_if_missing.
  repeat first [apply dirs_kept_path_exists | apply dirs_kept_mkdir
               | respects_step].
Qed.

Lemma dirs_kept_create_directories store :
  respects dirs_kept (create_directories store).
Proof.
  unfold create_directories. cbv zeta.
  repeat first [apply dirs_kept_mkdir_if_missing | respects_step].
Qed.

Lemma dirs_kept_after_create hexdigest gzip_lines decode store dirs mirror stamp :
  respects dirs_kept
    (r ← download_listing dirs mirror stamp;
     match r with
     | sys_exit status => mret (sys_exit status)
     | go_on (meta_outname, req_content) =>
         r ← check_hash hexdigest store meta_outname req_content;
         match r with
         | sys_exit status => mret (sys_exit status)
         | go_on _ =>
             modify (set_downloadqueue empty_queue) ;;
             modify (set_failqueue empty_queue) ;;
             st ← walk_listing gzip_lines decode dirs meta_outname;
             mret (go_on st)
         end
     end).
Proof.
  unfold download_listing, check_hash, walk_listing. cbv zeta.
  repeat first
    [ apply dirs_kept_path_exists | apply dirs_kept_requests_get
    | apply dirs_kept_write_file | apply dirs_kept_read_file
    | apply dirs_kept_unlink | apply dirs_kept_set_downloadqueue
    | apply dirs_kept_set_failqueue | apply dirs_kept_walk_lines
    | respects_step ].
Qed.

Lemma mkdir_if_missing_run p w :
  is_directory w (pathlib.parent p) →
  ∃ w', mkdir_if_missing p w = (Return tt, w')
      ∧ dirs_kept w w'
      ∧ (∀ q, free_or_directory w q → free_or_directory w' q)
      ∧ (free_or_directory w p → is_directory w' p).
Proof.
  intros [z Hparent].
  unfold mkdir_if_missing, path_exists, mkdir, mbind, M_bind, get, mret, M_ret,
    modify.
  destruct (fs w !! p) as [n|] eqn:Hp.
  - rewrite bool_decide_eq_true_2 by eauto. exists w.
    split; [done|]. split; [done|]. split; [done|].
    intros [Hfree|Hdir]; [congruence|done].
  - rewrite bool_decide_eq_false_2 by (intros [? ?]; congruence).
    rewrite Hp, Hparent. eexists. split; [done|].
    split; [apply dirs_kept_insert; intros [? ?]; congruence|].
    split.
    + intros q Hq. destruct (decide (p = q)) as [->|Hne].
      * right. eexists. cbn. apply lookup_insert_eq.
      * destruct Hq as [Hq|[z' Hq]]; [left|right; exists z']; cbn;
          by rewrite lookup_insert_ne.
    + intros _. eexists. cbn. apply lookup_insert_eq.
Qed.

Lemma building_step store made w p c {A} (k : unit → M world A) :
  building store made w →
  p = store ∨ p ∈ made →
  ∃ w', (mkdir_if_missing (p ++ [c]) ≫= k) w = k tt w'
      ∧ (p ++ [c] ∈ skeleton store → building store ((p ++ [c]) :: made) w')
      ∧ building store made w'.
Proof.
  intros (Hstore & Hfree & Hmade) Hp.
  destruct (mkdir_if_missing_run (p ++ [c]) w) as (w' & Hrun & Hk & Hf & Hd).
  { rewrite parent_snoc. destruct Hp as [->|Hp]; auto. }
  exists w'. split; [by rewrite (bind_Return _ _ _ _ _ Hrun)|].
  assert (building store made w') as Hb.
  { split; [by apply Hk|]. split; [auto|]. intros q Hq. apply Hk; auto. }
  split; [|done].
  intros Hin. destruct Hb as (? & ? & ?). split; [done|]. split; [done|].
  intros q [->|Hq]%elem_of_cons; auto.
Qed.

Lemma building_cps store made w p c {A} (k : unit → M world A)
    (Q : result A * world → Prop) :
  building store made w →
  p = store ∨ p ∈ made →
  (∀ w', building store made w' →
         (p ++ [c] ∈ skeleton store →
          building store ((p ++ [c]) :: made) w') →
         Q (k tt w')) →
  Q ((mkdir_if_missing (p ++ [c]) ≫= k) w).
Proof.
  intros Hb Hp HQ.
  destruct (building_step store made w p c k Hb Hp) as (w' & -> & Hin & Hb').
  by apply HQ.
Qed.

(** One [mkdir_if_missing] of [create_directories]: of a directory of the
    skeleton, and of another one. *)
Ltac make_category p c :=
  lazymatch goal with
  | Hb : building ?store ?made ?w |- created _ (_ ?w) =>
      rewrite ?bind_assoc_at;
      apply (building_cps store made w p c _ (created store));
        [exact Hb|first [by left|right; elem_of_concrete]| ];
      clear Hb; intros ? _ Hb;
      specialize (Hb ltac:(elem_of_concrete)); cbv beta
  end.

Ltac make_other p c :=
  lazymatch goal with
  | Hb : building ?store ?made ?w |- created _ (_ ?w) =>
      apply (building_cps store made w p c _ (created store));
        [exact Hb|by left| ];
      clear Hb; intros ? Hb _; cbv beta
  end.

Lemma create_directories_run store w :
  is_directory w store →
  (∀ q, q ∈ skeleton store → free_or_directory w q) →
  created store (create_directories store w).
Proof.
  intros Hstore Hfree.
  assert (building store [] w) as Hb.
  { split; [done|]. split; [done|]. by intros q ?%elem_of_nil. }
  clear Hstore Hfree.
  unfold create_directories. cbv zeta.
  make_category store "binary".
  make_category store "source".
  make_other store "meta".
  make_category store "dsc".
  make_category store "patches".
  make_other store "logs".
  cbn [for_in].
  make_category (store ++ ["binary"]) "contrib".
  make_category (store ++ ["source"]) "contrib".
  make_category (store ++ ["dsc"]) "contrib".
  make_category (store ++ ["patches"]) "contrib".
  make_category (store ++ ["binary"]) "main".
  make_category (store ++ ["source"]) "main".
  make_category (store ++ ["dsc"]) "main".
  make_category (store ++ ["patches"]) "main".
  make_category (store ++ ["binary"]) "non-free".
  make_category (store ++ ["source"]) "non-free".
  make_category (store ++ ["dsc"]) "non-free".
  make_category (store ++ ["patches"]) "non-free".
  eexists. split; [reflexivity|].
  intros q Hq. destruct Hb as (_ & _ & Hmade). apply Hmade.
  unfold skeleton in Hq. cbn in Hq.
  repeat (apply elem_of_cons in Hq as [->|Hq]; [elem_of_concrete|]).
  by apply elem_of_nil in Hq.
Qed.

Lemma check_storedirectory_run store w :
  is_directory w store →
  check_storedirectory store w = (Return (go_on tt), w).
Proof.
  intros [z Hs].
  unfold check_storedirectory, path_exists, is_dir, mbind, M_bind, get, mret,
    M_ret.
  rewrite Hs. rewrite bool_decide_eq_true_2 by eauto. cbn.
  by rewrite Hs.
Qed.

(** C9: whatever [main] does, (1) when the store is a directory and none of
    the names [binary], [source], [dsc], [patches] and, in them, [contrib],
    [main], [non-free] is taken by something that is no directory, all these
    directories exist afterwards; (2) every task it puts on the download
    queue is for a file name that ends in one of the listed suffixes, and
    its target is the directory of that suffix's category, so a name with
    none of the suffixes is never enqueued; (3) the suffixes give a name at
    most one category. *)
Theorem crawler_store_layout
    hexdigest gzip_lines decode store debianmirror stamp w r w' :
  main hexdigest gzip_lines decode store debianmirror stamp w = (r, w') →
  (is_directory w store →
   (∀ q, q ∈ skeleton store → free_or_directory w q) →
   ∀ c, is_directory w' (category_directory store c)
        ∧ ∀ partition, partition ∈ partitions →
            is_directory w' (partition_directory store c partition))
  ∧ (∃ evs, trace w' = trace w ++ evs
          ∧ ∀ t, ev_downloadqueue_put t ∈ evs → well_targeted store t)
  ∧ (∀ name c1 c2, category_of name c1 → category_of name c2 → c1 = c2).
Proof.
  intros Hmain. split; [|split].
  - intros Hstore Hfree.
    assert (∀ q, q ∈ skeleton store → is_directory w' q) as Hall.
    { revert Hmain. unfold main.
      rewrite (bind_Return _ _ _ _ _ (check_storedirectory_run _ _ Hstore)).
      intros Hrest.
      destruct (create_directories_run store w Hstore Hfree)
        as (w2 & Hcreate & Hdirs).
      rewrite (bind_Return _ _ _ _ _ Hcreate) in Hrest.
      intros q Hq. eapply dirs_kept_after_create; [exact Hrest|]. auto. }
    intros c. split.
    + apply Hall. destruct c; unfold skeleton; cbn; elem_of_concrete.
    + intros partition Hp. apply Hall. unfold partitions in Hp.
      repeat (apply elem_of_cons in Hp as [->|Hp];
              [destruct c; unfold skeleton; cbn; elem_of_concrete|]).
      by apply elem_of_nil in Hp.
  - destruct (puts_ok_main _ _ _ _ _ _ _ _ _ Hmain) as (evs & Htr & Hok).
    exists evs. split; [done|]. intros t Ht.
    rewrite Forall_forall in Hok. apply (Hok _ Ht).
  - apply category_of_functional.
Qed.

Lemma crawler_store_layout_witness :
  (is_directory sample_world sample_store →
   (∀ q, q ∈ skeleton sample_store → free_or_directory sample_world q) →
   ∀ c, is_directory (sample_main sample_world).2
          (category_directory sample_store c)
        ∧ ∀ partition, partition ∈ partitions →
            is_directory (sample_main sample_world).2
              (partition_directory sample_store c partition))
  ∧ (∃ evs, trace (sample_main sample_world).2 = trace sample_world ++ evs
          ∧ ∀ t, ev_downloadqueue_put t ∈ evs → well_targeted sample_store t)
  ∧ (∀ name c1 c2, category_of name c1 → category_of name c2 → c1 = c2).
Proof.
  apply (crawler_store_layout sample_hexdigest sample_gzip_lines sample_decode
           sample_store "http://deb.example.org/debian" "20230808-120000"
           sample_world (sample_main sample_world).1).
  apply surjective_pairing.
Defined.

(** ** The crawler: the state file *)

Lemma download_listing_go_on dirs debianmirror stamp w meta req_content w' :
  download_listing dirs debianmirror stamp w
    = (Return (go_on (meta, req_content)), w') →
  meta = pathlib.Path_join (meta_data_dir dirs) ["ls-lR.gz-" +:+ stamp]
  ∧ fs w !! meta = None
  ∧ mirror w (debianmirror +:+ "/ls-lR.gz")
    = Return (mkResponse 200 req_content)
  ∧ w' = log (ev_write meta req_content)
           (set_fs (<[meta := File req_content]> (fs w))
              (log (ev_requests_get (debianmirror +:+ "/ls-lR.gz")) w)).
Proof.
  unfold download_listing. cbv zeta.
  set (m := pathlib.Path_join (meta_data_dir dirs) ["ls-lR.gz-" +:+ stamp]).
  unfold path_exists, try_except, requests_get, write_file, os_error, raise,
    mbind, M_bind, get, mret, M_ret, modify.
  destruct (fs w !! m) as [n|] eqn:Hm.
  { rewrite bool_decide_eq_true_2 by eauto. intros [=]. }
  rewrite bool_decide_eq_false_2 by (intros [? [=]]).
  destruct (mirror w (debianmirror +:+ "/ls-lR.gz")) as [[status c]|e] eqn:Hget.
  - cbn [status_code content].
    destruct (status =? 200)%Z eqn:Hst; [|intros [=]].
    apply Z.eqb_eq in Hst as ->. cbn [negb fs log set_fs].
    rewrite Hm.
    destruct (fs w !! pathlib.parent m) as [[z|c']|]; intros [=]; subst.
    done.
  - destruct (isinstance e [RequestException]); intros [=].
Qed.

Lemma main_after_download
    hexdigest gzip_lines decode store debianmirror stamp
    w dirs w2 meta_outname req_content w3 :
  is_directory w store →
  create_directories store w = (Return dirs, w2) →
  download_listing dirs debianmirror stamp w2
    = (Return (go_on (meta_outname, req_content)), w3) →
  main hexdigest gzip_lines decode store debianmirror stamp w
  = (r ← check_hash hexdigest store meta_outname req_content;
     match r with
     | sys_exit status => mret (sys_exit status)
     | go_on _ =>
         modify (set_downloadqueue empty_queue) ;;
         modify (set_failqueue empty_queue) ;;
         st ← walk_listing gzip_lines decode dirs meta_outname;
         mret (go_on st)
     end) w3.
Proof.
  intros Hstore Hcreate Hdownload. unfold main.
  rewrite (bind_Return _ _ _ _ _ (check_storedirectory_run _ _ Hstore)).
  rewrite (bind_Return _ _ _ _ _ Hcreate).
  rewrite (bind_Return _ _ _ _ _ Hdownload).
  reflexivity.
Qed.

(** C7: when [main] has got past the store checks, made its directories and
    downloaded the listing, then (1) if HASH is a file that holds the
    SHA-256 hex digest of what was downloaded, [main] ends with
    [sys.exit(0)], the copy of the listing it has just written is gone,
    nothing else in the store has changed, HASH in particular, and nothing
    was put on the download queue: the only call after the download is the
    [unlink]; (2) if there is no HASH, or HASH is a file that holds
    something else, HASH is written with the new digest and [main] goes on
    with the walk over the listing. *)
Theorem unchanged_listing_is_skipped
    hexdigest gzip_lines decode store debianmirror stamp
    w dirs w2 meta_outname req_content w3 :
  is_directory w store →
  create_directories store w = (Return dirs, w2) →
  download_listing dirs debianmirror stamp w2
    = (Return (go_on (meta_outname, req_content)), w3) →
  let hashfilename := store ++ ["HASH"] in
  let filehash := hexdigest req_content in
  fs w3 !! meta_outname = Some (File req_content)
  ∧ (fs w3 !! hashfilename = Some (File filehash) →
     ∃ w4,
       main hexdigest gzip_lines decode store debianmirror stamp w
         = (Return (sys_exit 0%Z), w4)
       ∧ fs w4 = delete meta_outname (fs w3)
       ∧ fs w4 !! meta_outname = None
       ∧ fs w4 !! hashfilename = Some (File filehash)
       ∧ downloadqueue w4 = downloadqueue w3
       ∧ trace w4 = trace w3 ++ [ev_unlink meta_outname])
  ∧ (fs w3 !! hashfilename = None
     ∨ (∃ old, fs w3 !! hashfilename = Some (File old) ∧ old ≠ filehash) →
     ∃ w4,
       check_hash hexdigest store meta_outname req_content w3
         = (Return (go_on tt), w4)
       ∧ fs w4 = <[hashfilename := File filehash]> (fs w3)
       ∧ trace w4 = trace w3 ++ [ev_write hashfilename filehash]
       ∧ main hexdigest gzip_lines decode store debianmirror stamp w
         = (modify (set_downloadqueue empty_queue) ;;
            modify (set_failqueue empty_queue) ;;
            st ← walk_listing gzip_lines decode dirs meta_outname;
            mret (go_on st)) w4).
Proof.
  intros Hstore Hcreate Hdownload hashfilename filehash.
  rewrite (main_after_download _ _ _ _ _ _ _ _ _ _ _ _
             Hstore Hcreate Hdownload).
  pose proof (create_directories_returns _ _ _ _ Hcreate) as ->.
  apply download_listing_go_on in Hdownload as (Hmeta & Hfree & Hget & ->).
  cbn [meta_data_dir layout] in Hmeta.
  assert (meta_outname ≠ hashfilename) as Hne.
  { rewrite Hmeta. apply meta_outname_not_HASH. }
  assert (∃ z, fs w2 !! store = Some (Dir z)) as [z Hstore2].
  { by eapply dirs_kept_create_directories. }
  assert (store ≠ meta_outname) as Hne'.
  { intros <-. congruence. }
  set (w3 := log (ev_write meta_outname req_content) _).
  assert (fs w3 !! meta_outname = Some (File req_content)) as Hmeta3.
  { apply lookup_insert_eq. }
  assert (fs w3 !! store = Some (Dir z)) as Hstore3.
  { unfold w3. cbn. by rewrite lookup_insert_ne. }
  clearbody w3. split; [done|].
  subst hashfilename filehash.
  unfold check_hash. cbv zeta.
  change (pathlib.Path_join store ["HASH"]) with (store ++ ["HASH"]).
  unfold path_exists, read_file, unlink, write_file, os_error, raise,
    mbind, M_bind, get, mret, M_ret, modify.
  split.
  - intros Hhash. rewrite Hhash, bool_decide_eq_true_2 by eauto.
    cbv beta iota. rewrite Hhash. cbv beta iota.
    rewrite String.eqb_refl, Hmeta3. eexists. split; [reflexivity|].
    cbn [fs log set_fs downloadqueue trace].
    split; [done|]. split; [apply lookup_delete_eq|].
    split; [by rewrite lookup_delete_ne|done].
  - assert (pathlib.parent (store ++ ["HASH"]) = store) as Hparent
      by apply parent_snoc.
    intros [Hhash|(old & Hhash & Hold)].
    + rewrite Hhash, bool_decide_eq_false_2 by (intros [? [=]]).
      cbv beta iota. rewrite Hhash, Hparent, Hstore3. eexists. split; [reflexivity|].
      cbn [fs log set_fs downloadqueue trace]. done.
    + rewrite Hhash, bool_decide_eq_true_2 by eauto.
      cbv beta iota. rewrite Hhash. cbv beta iota.
      apply String.eqb_neq in Hold. rewrite Hold.
      rewrite Hhash, Hparent, Hstore3. eexists. split; [reflexivity|].
      cbn [fs log set_fs downloadqueue trace]. done.
Qed.

(** The hypotheses of C7 in terms of the store before the run. *)
Lemma create_directories_result store w :
  is_directory w store →
  (∀ q, q ∈ skeleton store → free_or_directory w q) →
  create_directories store w
  = (Return (layout store), (create_directories store w).2).
Proof.
  intros Hstore Hfree.
  destruct (create_directories_run store w Hstore Hfree) as (w' & -> & _).
  reflexivity.
Qed.

Lemma download_listing_run dirs debianmirror stamp w req_content z :
  fs w !! pathlib.Path_join (meta_data_dir dirs) ["ls-lR.gz-" +:+ stamp]
    = None →
  fs w !! pathlib.parent
            (pathlib.Path_join (meta_data_dir dirs) ["ls-lR.gz-" +:+ stamp])
    = Some (Dir z) →
  mirror w (debianmirror +:+ "/ls-lR.gz")
    = Return (mkResponse 200 req_content) →
  download_listing dirs debianmirror stamp w
  = (Return (go_on (pathlib.Path_join (meta_data_dir dirs)
                      ["ls-lR.gz-" +:+ stamp], req_content)),
     (download_listing dirs debianmirror stamp w).2).
Proof.
  intros Hfree Hparent Hget.
  unfold download_listing. cbv zeta.
  unfold path_exists, try_except, requests_get, write_file, os_error, raise,
    mbind, M_bind, get, mret, M_ret, modify.
  rewrite Hfree, bool_decide_eq_false_2 by (intros [? [=]]).
  rewrite Hget. cbn [status_code content Z.eqb Pos.eqb negb fs log set_fs].
  rewrite Hfree, Hparent. reflexivity.
Qed.

Lemma unchanged_listing_is_skipped_witness :
  let w := sample_world_seen in
  let w2 := (create_directories sample_store w).2 in
  let meta_outname :=
    pathlib.Path_join (meta_data_dir (layout sample_store))
      ["ls-lR.gz-" +:+ "20230808-120000"] in
  let w3 :=
    (download_listing (layout sample_store) "http://deb.example.org/debian"
       "20230808-120000" w2).2 in
  let hashfilename := sample_store ++ ["HASH"] in
  let filehash := sample_hexdigest "data" in
  fs w3 !! meta_outname = Some (File "data")
  ∧ (fs w3 !! hashfilename = Some (File filehash) →
     ∃ w4,
       sample_main w = (Return (sys_exit 0%Z), w4)
       ∧ fs w4 = delete meta_outname (fs w3)
       ∧ fs w4 !! meta_outname = None
       ∧ fs w4 !! hashfilename = Some (File filehash)
       ∧ downloadqueue w4 = downloadqueue w3
       ∧ trace w4 = trace w3 ++ [ev_unlink meta_outname])
  ∧ (fs w3 !! hashfilename = None
     ∨ (∃ old, fs w3 !! hashfilename = Some (File old) ∧ old ≠ filehash) →
     ∃ w4,
       check_hash sample_hexdigest sample_store meta_outname "data" w3
         = (Return (go_on tt), w4)
       ∧ fs w4 = <[hashfilename := File filehash]> (fs w3)
       ∧ trace w4 = trace w3 ++ [ev_write hashfilename filehash]
       ∧ sample_main w
         = (modify (set_downloadqueue empty_queue) ;;
            modify (set_failqueue empty_queue) ;;
            st ← walk_listing sample_gzip_lines sample_decode
                   (layout sample_store) meta_outname;
            mret (go_on st)) w4).
Proof.
  intros w w2 meta_outname w3 hashfilename filehash.
  assert (is_directory w sample_store) as Hstore.
  { exists 4096%Z. vm_compute. reflexivity. }
  apply (unchanged_listing_is_skipped sample_hexdigest sample_gzip_lines
           sample_decode sample_store "http://deb.example.org/debian"
           "20230808-120000" w (layout sample_store) w2 meta_outname
           "data" w3 Hstore).
  - apply create_directories_result; [exact Hstore|].
    intros q Hq. unfold skeleton in Hq. cbn in Hq.
    repeat (apply elem_of_cons in Hq as [->|Hq];
            [left; vm_compute; reflexivity|]).
    by apply elem_of_nil in Hq.
  - apply (download_listing_run _ _ _ _ _ 4096%Z); vm_compute; reflexivity.
Defined.

(** The run of the witness does end with [sys.exit(0)]. *)
Lemma sample_run_seen_exits :
  (sample_main sample_world_seen).1 = Return (sys_exit 0%Z).
Proof. vm_compute. reflexivity. Qed.

(** ** The crawler: one task of a worker *)

Global Instance trace_extends_preorder : PreOrder trace_extends.
Proof.
  split.
  - intros w. exists []. by rewrite app_nil_r.
  - intros w1 w2 w3 [evs1 H1] [evs2 H2]. exists (evs1 ++ evs2).
    by rewrite H2, H1, app_assoc.
Qed.

Lemma trace_extends_log ev w w' :
  trace w' = trace w → trace_extends w (log ev w').
Proof. intros Htr. exists [ev]. cbn. by rewrite Htr. Qed.

Lemma trace_extends_failqueue_put f : respects trace_extends (failqueue_put f).
Proof. apply respects_modify. intros w. by apply trace_extends_log. Qed.

Lemma trace_extends_task_done : respects trace_extends downloadqueue_task_done.
Proof.
  unfold downloadqueue_task_done. repeat respects_step.
  apply respects_modify. intros w. by apply trace_extends_log.
Qed.

Lemma trace_extends_write_file p c : respects trace_extends (write_file p c).
Proof.
  unfold write_file, os_error. repeat respects_step;
    apply respects_modify; intros w; by apply trace_extends_log.
Qed.

Lemma downloadfile_task_unfold debianmirror t p w :
  resultfilename t = Some p →
  downloadfile_task debianmirror t w =
  match fs w !! p with
  | None => download debianmirror t p w
  | Some n =>
      if (st_size n =? debiansize_of t)%Z then downloadqueue_task_done w
      else
        match n with
        | File _ =>
            download debianmirror t p
              (log (ev_unlink p) (set_fs (delete p (fs w)) w))
        | Dir _ =>
            (Raise (mk_exception IsADirectoryError
                      [PyStr (pathlib.to_str p)]), w)
        end
  end.
Proof.
  destruct t as [[[debiandir debianfile] debiansize] base].
  unfold resultfilename, downloadfile_task, str.getitem.
  destruct (debiandir !! 1%nat) as [part|]; [|done].
  intros [= <-]. cbn [mbind option_bind].
  unfold mbind at 1, M_bind at 1, mret at 1, M_ret at 1.
  unfold mbind at 1, M_bind at 1, path_exists at 1.
  unfold mbind at 1, M_bind at 1, get at 1, mret at 1, M_ret at 1.
  unfold mbind at 1, M_bind at 1.
  destruct (fs w !! _) as [n|] eqn:Hp.
  - rewrite bool_decide_eq_true_2 by eauto.
    unfold mbind at 1, M_bind at 1, stat_st_size at 1.
    unfold mbind at 1, M_bind at 1, get at 1. rewrite Hp.
    unfold mret at 1, M_ret at 1. unfold debiansize_of. cbn [fst snd].
    destruct (st_size n =? debiansize)%Z.
    + unfold mbind at 1, M_bind at 1.
      destruct (downloadqueue_task_done w) as [[[]|e] w']; reflexivity.
    + unfold mbind at 1, M_bind at 1, unlink at 1.
      unfold mbind at 1, M_bind at 1, get at 1. rewrite Hp.
      destruct n as [z|c]; [reflexivity|].
      reflexivity.
  - rewrite bool_decide_eq_false_2 by (intros [? [=]]). reflexivity.
Qed.

Lemma download_unfold debianmirror t p w :
  download debianmirror t p w =
  let w1 := log (ev_requests_get (downloadurl debianmirror t)) w in
  match mirror w (downloadurl debianmirror t) with
  | Return req =>
      if negb (status_code req =? 200)%Z then
        (failqueue_put (debianfile_of t) ;; downloadqueue_task_done) w1
      else
        (write_file p (content req) ;; downloadqueue_task_done) w1
  | Raise e =>
      if isinstance e [RequestException] then
        (failqueue_put (debianfile_of t) ;; downloadqueue_task_done) w1
      else (Raise e, w1)
  end.
Proof.
  unfold download. unfold mbind at 1, M_bind at 1, try_except.
  unfold mbind at 1, M_bind at 1, requests_get at 1.
  destruct (mirror w _) as [req|e]; cbv zeta.
  - unfold mret at 1, M_ret at 1. by destruct (negb _).
  - destruct (isinstance e [RequestException]); [|reflexivity].
    unfold mbind, M_bind, failqueue_put, modify.
    destruct (downloadqueue_task_done _) as [[[]|e'] w']; reflexivity.
Qed.

Lemma download_trace debianmirror t p w r w' :
  download debianmirror t p w = (r, w') →
  ∃ evs, trace w' = trace w ++ ev_requests_get (downloadurl debianmirror t) :: evs.
Proof.
  rewrite download_unfold. cbv zeta. intros Hrun.
  assert (trace_extends (log (ev_requests_get (downloadurl debianmirror t)) w)
            w') as [evs Hevs].
  { assert (respects trace_extends
              (failqueue_put (debianfile_of t) ;; downloadqueue_task_done))
      as Hfail.
    { repeat first [apply trace_extends_failqueue_put
                   | apply trace_extends_task_done | respects_step]. }
    assert (∀ c, respects trace_extends
                   (write_file p c ;; downloadqueue_task_done)) as Hwrite.
    { intros c. repeat first [apply trace_extends_write_file
                   | apply trace_extends_task_done | respects_step]. }
    destruct (mirror w _) as [req|e];
      [destruct (negb _)|destruct (isinstance _ _)];
      [by eapply Hfail|by eapply Hwrite|by eapply Hfail|].
    injection Hrun as <- <-. reflexivity. }
  exists evs. rewrite Hevs. cbn. by rewrite <- app_assoc.
Qed.

Lemma write_then_task_done p c w z n :
  fs w !! p = None →
  fs w !! pathlib.parent p = Some (Dir z) →
  unfinished_tasks (downloadqueue w) = S n →
  (write_file p c ;; downloadqueue_task_done) w =
  (Return tt,
   log ev_downloadqueue_task_done
     (set_downloadqueue (mkQueue (items (downloadqueue w)) n)
        (log (ev_write p c) (set_fs (<[p := File c]> (fs w)) w)))).
Proof.
  destruct w as [fs0 mirror0 [ditems dn] fq tr]. cbn.
  intros Hp Hparent ->.
  unfold write_file, downloadqueue_task_done, os_error, modify, get, mbind,
    M_bind.
  cbn. rewrite Hp, Hparent. reflexivity.
Qed.

Lemma download_run debianmirror t p w n :
  fs w !! p = None →
  is_directory w (pathlib.parent p) →
  unfinished_tasks (downloadqueue w) = S n →
  get_fails debianmirror t w ∨ get_succeeds debianmirror t w →
  ∃ w', download debianmirror t p w = (Return tt, w')
      ∧ unfinished_tasks (downloadqueue w') = n
      ∧ items (downloadqueue w') = items (downloadqueue w)
      ∧ (get_fails debianmirror t w →
         items (failqueue w') = items (failqueue w) ++ [debianfile_of t])
      ∧ (get_succeeds debianmirror t w → failqueue w' = failqueue w).
Proof.
  intros Hp [z Hparent] Hcount Hget. rewrite download_unfold. cbv zeta.
  unfold get_fails, get_succeeds in *.
  assert (∀ w0, unfinished_tasks (downloadqueue w0) = S n →
    (failqueue_put (debianfile_of t) ;; downloadqueue_task_done) w0 =
    (Return tt,
     log ev_downloadqueue_task_done
       (set_downloadqueue (mkQueue (items (downloadqueue w0)) n)
          (log (ev_failqueue_put (debianfile_of t))
             (set_failqueue
                (mkQueue (items (failqueue w0) ++ [debianfile_of t])
                   (S (unfinished_tasks (failqueue w0)))) w0))))) as Hfail.
  { intros [fs0 mirror0 [ditems dn] fq tr] Hw0. cbn in Hw0. subst dn.
    reflexivity. }
  destruct (mirror w (downloadurl debianmirror t)) as [[status c]|e] eqn:Hm.
  - cbn [status_code content].
    destruct (status =? 200)%Z eqn:Hst; cbn [negb].
    + apply Z.eqb_eq in Hst as ->.
      rewrite (write_then_task_done p c _ z n) by done.
      eexists. split; [reflexivity|]. cbn. split; [done|]. split; [done|].
      split; [intros Hne; by destruct Hne|done].
    + apply Z.eqb_neq in Hst. rewrite Hfail by done.
      eexists. split; [reflexivity|]. cbn. split; [done|]. split; [done|].
      split; [done|]. intros [c' [= -> _]]. done.
  - destruct Hget as [Hget|[c [=]]]. rewrite Hget, Hfail by done.
    eexists. split; [reflexivity|]. cbn. split; [done|]. split; [done|].
    split; [done|]. intros [c' [=]].
Qed.

(** What holds of C8: a task with a destination that is free or a regular
    file, in a directory that exists, on a mirror that answers or fails
    with a [RequestException], is reported done once and the turn ends
    without an exception; the file's name is put on the fail queue exactly
    when the file was not there already and the request failed. *)
Lemma downloadfile_task_reports_once debianmirror t p w n :
  resultfilename t = Some p →
  fs w !! p = None ∨ (∃ c, fs w !! p = Some (File c)) →
  is_directory w (pathlib.parent p) →
  unfinished_tasks (downloadqueue w) = S n →
  get_fails debianmirror t w ∨ get_succeeds debianmirror t w →
  ∃ w', downloadfile_task debianmirror t w = (Return tt, w')
      ∧ unfinished_tasks (downloadqueue w') = n
      ∧ items (downloadqueue w') = items (downloadqueue w)
      ∧ (items (failqueue w') = items (failqueue w) ++ [debianfile_of t]
         ↔ ¬ already_downloaded t p w ∧ get_fails debianmirror t w)
      ∧ (failqueue w' = failqueue w
         ↔ already_downloaded t p w ∨ get_succeeds debianmirror t w).
Proof.
  intros Hres Hp Hparent Hcount Hget.
  assert (get_fails debianmirror t w → get_succeeds debianmirror t w → False)
    as Hexcl.
  { unfold get_fails, get_succeeds. intros Hf [c Hs]. rewrite Hs in Hf. done. }
  assert (∀ l (x : string), l ++ [x] ≠ l) as Hsnoc.
  { intros l x Heq. apply (f_equal length) in Heq.
    rewrite length_app in Heq. simpl in Heq. lia. }
  rewrite (downloadfile_task_unfold _ _ _ _ Hres).
  destruct Hp as [Hp|[c Hp]]; rewrite Hp.
  - destruct (download_run debianmirror t p w n)
      as (w' & Hrun & Hn & Hitems & Hf & Hs); [done..|].
    exists w'. split; [done|]. split; [done|]. split; [done|].
    assert (¬ already_downloaded t p w) as Hnot.
    { intros (c & Hc & _). congruence. }
    split; split.
    + intros Heq. split; [done|]. destruct Hget as [?|Hok]; [done|].
      rewrite (Hs Hok) in Heq. symmetry in Heq. by apply Hsnoc in Heq.
    + intros [_ ?]. auto.
    + intros Heq. right. destruct Hget as [Hbad|?]; [|done].
      apply Hf in Hbad. rewrite Heq in Hbad. symmetry in Hbad.
      by apply Hsnoc in Hbad.
    + intros [?|?]; [done|auto].
  - cbn [st_size].
    destruct (Z.of_nat (String.length c) =? debiansize_of t)%Z eqn:Hsize.
    + apply Z.eqb_eq in Hsize.
      unfold downloadqueue_task_done, mbind, M_bind, get, modify.
      rewrite Hcount. eexists. split; [reflexivity|]. cbn.
      split; [done|]. split; [done|].
      assert (already_downloaded t p w) as Hyes by (by exists c).
      split; split.
      * intros Heq. symmetry in Heq. by apply Hsnoc in Heq.
      * intros [? _]. done.
      * auto.
      * done.
    + apply Z.eqb_neq in Hsize.
      set (w1 := log (ev_unlink p) (set_fs (delete p (fs w)) w)).
      destruct (download_run debianmirror t p w1 n)
        as (w' & Hrun & Hn & Hitems & Hf & Hs); [| | |done|].
      { apply lookup_delete_eq. }
      { destruct Hparent as [z Hz]. exists z. unfold w1, log, set_fs.
        cbn [fs]. rewrite lookup_delete_ne; [done|]. intros Heq.
        rewrite Heq in Hp. congruence. }
      { done. }
      exists w'. split; [done|]. split; [done|]. split; [done|].
      assert (¬ already_downloaded t p w) as Hnot.
      { intros (c' & Hc' & ?). congruence. }
      change (get_fails debianmirror t w1) with (get_fails debianmirror t w)
        in Hf.
      change (get_succeeds debianmirror t w1)
        with (get_succeeds debianmirror t w) in Hs.
      change (failqueue w1) with (failqueue w) in *.
      split; split.
      * intros Heq. split; [done|]. destruct Hget as [?|Hok]; [done|].
        rewrite (Hs Hok) in Heq. symmetry in Heq. by apply Hsnoc in Heq.
      * intros [_ ?]. auto.
      * intros Heq. right. destruct Hget as [Hbad|?]; [|done].
        apply Hf in Hbad. rewrite Heq in Hbad. symmetry in Hbad.
        by apply Hsnoc in Hbad.
      * intros [?|?]; [done|auto].
Qed.

(** The loop goes on after a turn that ends without an exception. *)
Lemma downloadfile_next_turn turns debianmirror w t rest w' :
  items (downloadqueue w) = t :: rest →
  downloadfile_task debianmirror t
    (set_downloadqueue (mkQueue rest (unfinished_tasks (downloadqueue w))) w)
    = (Return tt, w') →
  downloadfile (S turns) debianmirror w = downloadfile turns debianmirror w'.
Proof.
  intros Hitems Htask. cbn [downloadfile].
  unfold mbind at 1, M_bind at 1, get at 1. rewrite Hitems.
  unfold mbind at 1, M_bind at 1, modify at 1.
  rewrite (bind_Return _ _ _ _ _ Htask). reflexivity.
Qed.

(** C8, as stated, fails on the code.  (1) On the sample listing, [main]
    enqueues a file of the [non-free-firmware] partition; the worker that
    takes this task gets the file from the mirror and cannot write it,
    because [main] has made no directory for the partition: the
    [FileNotFoundError] ends the worker, which has called [task_done] for
    the four tasks before this one and not for this one, and has put
    nothing on the fail queue: one task stays unfinished for ever.
    (2) A task for a file listed directly under [./pool] ends the worker
    with an [IndexError] before any request. *)
Theorem worker_dies_without_task_done :
  let queued := (sample_main sample_world).2 in
  let died := downloadfile 5 "http://deb.example.org/debian" queued in
  let stray := downloadfile 1 "http://deb.example.org/debian" stray_world in
  (died.1 =
     Raise (mk_exception FileNotFoundError
              [PyStr "/srv/debian/dsc/non-free-firmware/amd64-microcode_3.20230808.1.1.dsc"])
   ∧ unfinished_tasks (downloadqueue queued) = 5%nat
   ∧ unfinished_tasks (downloadqueue died.2) = 1%nat
   ∧ items (downloadqueue died.2) = []
   ∧ items (failqueue died.2) = [])
  ∧ (stray.1 = Raise (mk_exception IndexError [PyStr "index out of range"])
     ∧ unfinished_tasks (downloadqueue stray.2) = 1%nat
     ∧ items (failqueue stray.2) = []
     ∧ trace stray.2 = []).
Proof. repeat split; vm_compute; reflexivity. Qed.

(** C10: for a task whose destination is a regular file, (1) if the file
    has the listed size, the turn ends with the single call of
    [task_done]: no request, and the store is as it was; (2) if it has
    another size, the file is removed and the turn goes on with the
    download: the [unlink] comes first and the request right after it. *)
Theorem existing_file_is_kept_or_deleted debianmirror t p content w :
  resultfilename t = Some p →
  fs w !! p = Some (File content) →
  unfinished_tasks (downloadqueue w) ≠ 0%nat →
  (Z.of_nat (String.length content) = debiansize_of t →
   ∃ w', downloadfile_task debianmirror t w = (Return tt, w')
       ∧ fs w' = fs w
       ∧ trace w' = trace w ++ [ev_downloadqueue_task_done])
  ∧ (Z.of_nat (String.length content) ≠ debiansize_of t →
     downloadfile_task debianmirror t w
       = download debianmirror t p
           (log (ev_unlink p) (set_fs (delete p (fs w)) w))
     ∧ ∃ r w' evs,
         downloadfile_task debianmirror t w = (r, w')
         ∧ trace w' = trace w ++ ev_unlink p
                        :: ev_requests_get (downloadurl debianmirror t) :: evs).
Proof.
  intros Hp Hfile Hcount.
  rewrite (downloadfile_task_unfold _ _ _ _ Hp), Hfile. cbn [st_size].
  split.
  - intros ->%Z.eqb_eq.
    unfold downloadqueue_task_done, mbind, M_bind, get, modify.
    destruct (unfinished_tasks (downloadqueue w)) as [|n]; [done|].
    eexists. split; [reflexivity|]. done.
  - intros ->%Z.eqb_neq. split; [done|].
    destruct (download debianmirror t p
                (log (ev_unlink p) (set_fs (delete p (fs w)) w)))
      as [r w'] eqn:Hd.
    destruct (download_trace _ _ _ _ _ _ Hd) as [evs Hevs].
    exists r, w', evs. split; [done|]. rewrite Hevs. cbn [trace log set_fs].
    by rewrite <- app_assoc.
Qed.

Lemma existing_file_is_kept_or_deleted_witness :
  let p := sample_store ++ ["dsc"; "main"; "hello_2.10-3.dsc"] in
  let w := sample_world_downloaded in
  (Z.of_nat (String.length "data") = debiansize_of sample_task →
   ∃ w', downloadfile_task "http://deb.example.org/debian" sample_task w
         = (Return tt, w')
       ∧ fs w' = fs w
       ∧ trace w' = trace w ++ [ev_downloadqueue_task_done])
  ∧ (Z.of_nat (String.length "data") ≠ debiansize_of sample_task →
     downloadfile_task "http://deb.example.org/debian" sample_task w
       = download "http://deb.example.org/debian" sample_task p
           (log (ev_unlink p) (set_fs (delete p (fs w)) w))
     ∧ ∃ r w' evs,
         downloadfile_task "http://deb.example.org/debian" sample_task w
           = (r, w')
         ∧ trace w' = trace w ++ ev_unlink p
                        :: ev_requests_get
                             (downloadurl "http://deb.example.org/debian"
                                sample_task) :: evs).
Proof.
  intros p w.
  apply (existing_file_is_kept_or_deleted "http://deb.example.org/debian"
           sample_task p "data" w).
  - reflexivity.
  - vm_compute. reflexivity.
  - vm_compute. discriminate.
Defined.

(** * Further properties

    What the parsers and the crawler do besides. *)

(** ** The parsers: what is extracted and what is described *)

Lemma truediv_absolute p s :
  pathlib.is_absolute s = true →
  pathlib.truediv p (pathlib.parse_parts s) = pathlib.parse_parts s.
Proof.
  intros Habs. unfold pathlib.parse_parts, pathlib.root. rewrite Habs.
  by destruct (_ && _).
Qed.

Lemma unpack_after_parse self self' :
  Huawei.parse self = (Return tt, self') →
  ∃ d, Huawei.from_io_infile self = Return d
     ∧ max_entry_end (img_header_entries d) ≤ Huawei.st_size self
     ∧ Huawei.rel_unpack_dir self' = Huawei.rel_unpack_dir self
     ∧ Huawei.unpack self' =
       (Return (unpacked_file self' <$>
                  filter is_unpacked (img_header_entries d)),
        Huawei.set_extracted
          (Huawei.extracted self' ++
           (extraction self' <$> filter is_unpacked (img_header_entries d)))
          self').
Proof.
  intros (d & Hio & Hhdr & Hsz & ->)%parse_success.
  exists d. split; [done|]. split; [done|]. split; [done|].
  unfold Huawei.unpack. unfold mbind, M_bind, getattr.
  cbn [Huawei.data Huawei.set_unpacked_size Huawei.set_data].
  rewrite unpack_loop_spec. reflexivity.
Qed.

Lemma filter_is_unpacked (entries : list ImgHeaderEntry) :
  filter is_unpacked entries
  = filter (λ entry, name entry ≠ "")
      (filter (λ entry, size entry ≠ 0) entries).
Proof.
  induction entries as [|entry entries IH]; [done|].
  destruct (decide (size entry = 0)) as [Hz|Hnz].
  - rewrite (filter_cons_False (λ entry, size entry ≠ 0)) by tauto.
    rewrite filter_cons_False; [done|]. unfold is_unpacked. lia.
  - rewrite (filter_cons_True (λ entry, size entry ≠ 0)) by done.
    destruct (decide (name entry = "")) as [He|Hne].
    + rewrite (filter_cons_False (λ entry, name entry ≠ "")) by tauto.
      rewrite filter_cons_False; [done|]. unfold is_unpacked. tauto.
    + rewrite (filter_cons_True (λ entry, name entry ≠ "")) by done.
      rewrite filter_cons_True; [by rewrite IH|].
      unfold is_unpacked. split; [lia|done].
Qed.

(** X1: every byte range that [unpack] hands to [extract_to_file] after a
    successful [parse] is not empty and lies within the input file. *)
Theorem extractions_lie_within_the_file self self' r self'' :
  Huawei.parse self = (Return tt, self') →
  Huawei.unpack self' = (r, self'') →
  ∃ calls,
    Huawei.extracted self'' = Huawei.extracted self' ++ calls
    ∧ ∀ call, call ∈ calls →
        0 < extract_length call
        ∧ extract_start call + extract_length call ≤ Huawei.st_size self.
Proof.
  intros (d & Hio & Hsz & _ & ->)%unpack_after_parse [= <- <-].
  eexists. split; [reflexivity|].
  intros call
    (entry & -> & [[Hpos Hname] Hin]%list_elem_of_filter)%list_elem_of_fmap.
  cbn [extraction extract_start extract_length]. split; [done|].
  pose proof (max_entry_end_upper _ _ Hin). lia.
Qed.

Lemma extractions_lie_within_the_file_witness :
  ∃ calls,
    Huawei.extracted (Huawei.unpack huawei_parsed).2
    = Huawei.extracted huawei_parsed ++ calls
    ∧ ∀ call, call ∈ calls →
        0 < extract_length call
        ∧ extract_start call + extract_length call
          ≤ Huawei.st_size (huawei_self 20000 (Return huawei_image)).
Proof.
  apply (extractions_lie_within_the_file
           (huawei_self 20000 (Return huawei_image)) huawei_parsed
           (Huawei.unpack huawei_parsed).1).
  - vm_compute. reflexivity.
  - vm_compute. reflexivity.
Defined.

(** X2: after a successful [parse], [unpack] and then
    [set_metadata_and_labels] both return, and the files that [unpack] has
    returned are those of the partitions listed in the metadata that have a
    name, in the order of the metadata: a partition without a name is
    listed and not unpacked, and nothing is unpacked that is not listed. *)
Theorem unpacked_files_are_the_named_partitions self self' :
  Huawei.parse self = (Return tt, self') →
  ∃ listed files self2 self3,
    Huawei.unpack self' = (Return files, self2)
    ∧ Huawei.set_metadata_and_labels self2 = (Return tt, self3)
    ∧ get_metadata (Huawei.unpack_results self3)
      = Some {[ "partitions" := PyList (partition_record <$> listed) ]}
    ∧ files
      = unpacked_file self' <$> filter (λ entry, name entry ≠ "") listed
    ∧ Huawei.extracted self3
      = Huawei.extracted self'
        ++ (extraction self' <$> filter (λ entry, name entry ≠ "") listed).
Proof.
  intros (d & Hio & _ & _ & ->)%parse_success.
  exists (filter (λ entry, size entry ≠ 0) (img_header_entries d)).
  do 3 eexists. rewrite <- !filter_is_unpacked.
  split.
  { unfold Huawei.unpack. unfold mbind, M_bind, getattr.
    cbn [Huawei.data Huawei.set_unpacked_size Huawei.set_data].
    rewrite unpack_loop_spec. reflexivity. }
  unfold Huawei.set_metadata_and_labels. cbv zeta.
  unfold mbind, M_bind, getattr, modify.
  cbn [Huawei.data Huawei.set_unpacked_size Huawei.set_data
       Huawei.set_extracted].
  split; [reflexivity|].
  cbn [Huawei.unpack_results Huawei.set_unpack_results get_metadata
       set_metadata Huawei.extracted Huawei.set_extracted].
  rewrite partitions_loop_spec, insert_insert_eq, insert_empty.
  done.
Qed.

Lemma unpacked_files_are_the_named_partitions_witness :
  ∃ listed files self2 self3,
    Huawei.unpack huawei_parsed = (Return files, self2)
    ∧ Huawei.set_metadata_and_labels self2 = (Return tt, self3)
    ∧ get_metadata (Huawei.unpack_results self3)
      = Some {[ "partitions" := PyList (partition_record <$> listed) ]}
    ∧ files
      = unpacked_file huawei_parsed
          <$> filter (λ entry, name entry ≠ "") listed
    ∧ Huawei.extracted self3
      = Huawei.extracted huawei_parsed
        ++ (extraction huawei_parsed
              <$> filter (λ entry, name entry ≠ "") listed).
Proof.
  apply (unpacked_files_are_the_named_partitions
           (huawei_self 20000 (Return huawei_image))).
  vm_compute. reflexivity.
Defined.

(** X3: the name of an entry decides where its file goes.  A name that
    does not begin with a slash is put under the unpack directory, part by
    part as it is written, [..] included; a name that begins with a slash
    is an absolute path and replaces the unpack directory: the path handed
    to [extract_to_file] and put in the [FileResult] is then the name's
    own, and begins at the root, which is [//] for a name with exactly two
    leading slashes and [/] for any other. *)
Theorem entry_names_decide_the_paths self self' r self'' :
  Huawei.parse self = (Return tt, self') →
  Huawei.unpack self' = (r, self'') →
  ∃ d entries,
    Huawei.from_io_infile self = Return d
    ∧ entries = filter is_unpacked (img_header_entries d)
    ∧ r = Return ((λ entry,
              mkFileResult (Some (Huawei.fileresult self))
                (if str.startswith (name entry) "/"
                 then pathlib.Path_of (name entry)
                 else Huawei.rel_unpack_dir self
                        ++ pathlib.Path_of (name entry)) []) <$> entries)
    ∧ Huawei.extracted self''
      = Huawei.extracted self
        ++ ((λ entry,
              mk_extract_call
                (if str.startswith (name entry) "/"
                 then pathlib.Path_of (name entry)
                 else Huawei.rel_unpack_dir self
                        ++ pathlib.Path_of (name entry))
                (offset entry) (size entry)) <$> entries)
    ∧ ∀ entry, entry ∈ entries → str.startswith (name entry) "/" = true →
        ∃ parts,
          pathlib.Path_of (name entry)
          = (if str.startswith (name entry) "//"
                && negb (str.startswith (name entry) "///")
             then "//" else "/") :: parts.
Proof.
  intros Hparse. pose proof Hparse as Hparse'.
  apply unpack_after_parse in Hparse as (d & Hio & _ & Hdir & ->).
  apply parse_success in Hparse' as (d' & Hio' & _ & _ & ->).
  intros [= <- <-]. exists d, (filter is_unpacked (img_header_entries d)).
  split; [done|]. split; [done|].
  assert (∀ entry,
    pathlib.truediv (Huawei.rel_unpack_dir self)
      (pathlib.Path_of (name entry))
    = if str.startswith (name entry) "/" then pathlib.Path_of (name entry)
      else Huawei.rel_unpack_dir self ++ pathlib.Path_of (name entry))
    as Hpath.
  { intros entry. unfold pathlib.Path_of.
    destruct (str.startswith (name entry) "/") eqn:Habs.
    - by apply truediv_absolute.
    - by apply truediv_relative. }
  split; [|split].
  - f_equal. apply list_fmap_ext. intros _ entry _.
    unfold unpacked_file. cbn. by rewrite Hpath.
  - cbn. f_equal. apply list_fmap_ext. intros _ entry _.
    unfold extraction. cbn. by rewrite Hpath.
  - intros entry _ Habs. unfold pathlib.Path_of, pathlib.parse_parts.
    unfold pathlib.is_absolute, pathlib.root. rewrite Habs.
    eexists. reflexivity.
Qed.

Lemma entry_names_decide_the_paths_witness :
  let self := huawei_self 20000 (Return huawei_image_rooted) in
  Huawei.extracted (Huawei.unpack (Huawei.parse self).2).2
  = [mk_extract_call
       ["bootloader.img-0x00000000-androidboothuawei-1"; "fastboot"]
       1024 4096;
     mk_extract_call ["/"; "recovery"; "ramdisk"] 5120 512;
     mk_extract_call
       ["bootloader.img-0x00000000-androidboothuawei-1"; ".."; "xloader"]
       8192 2048;
     mk_extract_call ["//"; "boot"] 10240 1024].
Proof.
  intros self.
  destruct (entry_names_decide_the_paths self (Huawei.parse self).2
              (Huawei.unpack (Huawei.parse self).2).1
              (Huawei.unpack (Huawei.parse self).2).2)
    as (d & entries & Hd & -> & _ & -> & _).
  - vm_compute. reflexivity.
  - vm_compute. reflexivity.
  - injection Hd as <-. vm_compute. reflexivity.
Defined.

Lemma bmp_lifecycle_unfold self :
  bmp_lifecycle self =
  let self1 := Bitmap.set_infile_reads (S (Bitmap.infile_reads self))
                 (Bitmap.set_chunknames [] self) in
  match Bitmap.from_io_infile self with
  | Return d =>
      (Return tt,
       Bitmap.set_unpack_results
         (mkUnpackResults (Some ["bmp"; "graphics"]) (Some ∅))
         (Bitmap.set_unpacked_size (bmp.len_file (bmp.file_hdr d))
            (Bitmap.set_data d self1)))
  | Raise e => (Raise (reraised e), self1)
  end.
Proof.
  unfold bmp_lifecycle. unfold mbind at 1, M_bind at 1.
  rewrite bmp_parse_unfold. cbv zeta.
  destruct (Bitmap.from_io_infile self) as [d|e]; reflexivity.
Qed.

(** X4: the bitmap parser through [parse], [calculate_unpacked_size] and
    [set_metadata_and_labels], called one after the other.  When the reader
    accepts the input the three calls return, whatever the header says: the
    size is the header's [len_file], the labels are [bmp] and [graphics],
    the metadata are empty.  When the reader raises an [Exception] or a
    [ValidationNotEqualError], the first call raises
    [UnpackParserException] with the reader's arguments; when it raises
    another exception, the first call raises that exception; in both cases
    neither a size nor a label nor metadata has been set.  Either way the
    input has been read once. *)
Theorem bmp_is_described_iff_the_reader_accepts self r self' :
  bmp_lifecycle self = (r, self') →
  Bitmap.infile_reads self' = S (Bitmap.infile_reads self)
  ∧ Bitmap.chunknames self' = Some []
  ∧ match Bitmap.from_io_infile self with
    | Return d =>
        r = Return tt
        ∧ Bitmap.data self' = Some d
        ∧ Bitmap.unpacked_size self' = Some (bmp.len_file (bmp.file_hdr d))
        ∧ Bitmap.unpack_results self'
          = mkUnpackResults (Some ["bmp"; "graphics"]) (Some ∅)
    | Raise e =>
        r = Raise (if caught e
                   then mk_exception UnpackParserException
                          [PyTuple (args e)]
                   else e)
        ∧ Bitmap.data self' = Bitmap.data self
        ∧ Bitmap.unpacked_size self' = Bitmap.unpacked_size self
        ∧ Bitmap.unpack_results self' = Bitmap.unpack_results self
    end.
Proof.
  rewrite bmp_lifecycle_unfold. cbv zeta.
  destruct (Bitmap.from_io_infile self) as [d|e]; intros [= <- <-]; done.
Qed.

Lemma bmp_is_described_iff_the_reader_accepts_witness :
  let self := bmp_self 100 (Return (bmp.mkBmp (bmp.mkFileHeader 1000))) in
  Bitmap.unpacked_size (bmp_lifecycle self).2 = Some 1000
  ∧ Bitmap.unpack_results
      (bmp_lifecycle (bmp_self 100 (Raise short_read))).2
    = mkUnpackResults None None
  ∧ (bmp_lifecycle (bmp_self 100 (Raise not_matching))).1
    = Raise not_matching.
Proof.
  intros self. split; [|split].
  - destruct (bmp_is_described_iff_the_reader_accepts self
                (bmp_lifecycle self).1 (bmp_lifecycle self).2)
      as (_ & _ & _ & _ & Hsize & _); [vm_compute; reflexivity|].
    exact Hsize.
  - destruct (bmp_is_described_iff_the_reader_accepts
                (bmp_self 100 (Raise short_read))
                (bmp_lifecycle (bmp_self 100 (Raise short_read))).1
                (bmp_lifecycle (bmp_self 100 (Raise short_read))).2)
      as (_ & _ & _ & _ & _ & Hres); [vm_compute; reflexivity|].
    exact Hres.
  - destruct (bmp_is_described_iff_the_reader_accepts
                (bmp_self 100 (Raise not_matching))
                (bmp_lifecycle (bmp_self 100 (Raise not_matching))).1
                (bmp_lifecycle (bmp_self 100 (Raise not_matching))).2)
      as (_ & _ & Hr & _); [vm_compute; reflexivity|].
    exact Hr.
Defined.

(** ** The crawler: a file line of the listing *)

Lemma run_with_result {S A} (o : result A * S) r :
  o.1 = r → o = (r, o.2).
Proof. intros <-. by destruct o. Qed.

Lemma endswith_excludes filename s1 s2 :
  str.endswith s1 s2 = false → str.endswith s2 s1 = false →
  str.endswith filename s1 = true → str.endswith filename s2 = true → False.
Proof.
  unfold str.endswith. rewrite !bool_decide_eq_false, !bool_decide_eq_true.
  intros Hn1 Hn2 H1 H2.
  destruct (suffix_weak_total _ _ _ H1 H2); tauto.
Qed.

Lemma endswith_trans filename s1 s2 :
  str.endswith s1 s2 = true → str.endswith filename s1 = true →
  str.endswith filename s2 = true.
Proof.
  unfold str.endswith. rewrite !bool_decide_eq_true.
  intros H1 H2. by etrans.
Qed.

Ltac prune_tests :=
  try (exfalso;
       match goal with
       | H1 : str.endswith ?n ?s1 = true, H2 : str.endswith ?n ?s2 = true
         |- _ =>
           apply (endswith_excludes n s1 s2);
             [vm_compute; reflexivity|vm_compute; reflexivity|exact H1
             |exact H2]
       | H1 : str.endswith ?n ?s1 = true, H2 : str.endswith ?n ?s2 = false
         |- _ =>
           rewrite (endswith_trans n s1 s2) in H2;
             [discriminate|vm_compute; reflexivity|exact H1]
       end).

Ltac case_test n s := destruct (str.endswith n s) eqn:?; prune_tests.

Lemma int_run {S} (field : string) (s : S) :
  (str.int field s).2 = s.
Proof.
  unfold str.int. cbv zeta.
  by destruct (match str.int_strip field with String _ _ => _ | _ => _ end).
Qed.

Lemma walk_file_spec store line st w :
  walk_file (layout store) line st w =
  match listed_file line w with
  | (Raise e, _) => (Raise e, w)
  | (Return (filename, filesize), _) =>
      match classify filename with
      | Some c =>
          (Return (count_file c st),
           enqueue (curdir st, filename, filesize, store ++ [category_name c])
             w)
      | None => (Return st, w)
      end
  end.
Proof.
  unfold walk_file, listed_file, str.getitem.
  destruct (_ !! 1%nat) as [filename|]; [|reflexivity].
  destruct (_ !! 4%nat) as [field|]; [|reflexivity].
  unfold mbind, M_bind, mret, M_ret, raise.
  pose proof (int_run field w) as Hw.
  destruct (str.int field w) as [[filesize|e] w0]; cbn in Hw; subst w0;
    [|reflexivity].
  unfold classify, suffix_table, debianarchitectures.
  cbn [deb_loop List.find fst snd].
  cbv [String.append].
  case_test filename ".dsc"; case_test filename ".deb";
    case_test filename "_all.deb"; case_test filename "_i386.deb";
    case_test filename "_amd64.deb"; case_test filename "_arm64.deb";
    case_test filename "_armhf.deb"; case_test filename ".diff.gz";
    case_test filename ".orig.tar.bz2"; case_test filename ".orig.tar.gz";
    case_test filename ".orig.tar.xz"; reflexivity.
Qed.

Lemma classify_Some filename c :
  classify filename = Some c → category_of filename c.
Proof.
  unfold classify. destruct (List.find _ _) as [[suffix c']|] eqn:Hfind;
    [|done].
  intros [= <-]. apply find_some in Hfind as [Hin He].
  apply list_elem_of_In in Hin. by eapply elem_of_suffix_table_category.
Qed.

Lemma classify_None filename c :
  classify filename = None → ¬ category_of filename c.
Proof.
  unfold classify. destruct (List.find _ _) as [[suffix c']|] eqn:Hfind;
    [done|].
  intros _ (suffix & Hin & He). apply endswith_ends_in in He.
  apply list_elem_of_In in Hin.
  pose proof (find_none _ _ Hfind _ Hin) as Hno. cbn in Hno. congruence.
Qed.

Lemma classify_category_of filename c :
  classify filename = Some c ↔ category_of filename c.
Proof.
  split; [apply classify_Some|]. intros Hc.
  destruct (classify filename) as [c'|] eqn:Hcl.
  - f_equal. eapply category_of_functional; [|done]. by apply classify_Some.
  - by apply classify_None with (c := c) in Hcl.
Qed.

Lemma listed_file_world line w : (listed_file line w).2 = w.
Proof.
  unfold listed_file, str.getitem.
  destruct (_ !! 1%nat) as [filename|]; [|reflexivity].
  destruct (_ !! 4%nat) as [field|]; [|reflexivity].
  unfold mbind, M_bind, mret, M_ret.
  pose proof (int_run field w) as Hw.
  by destruct (str.int field w) as [[filesize|e] w0].
Qed.

Lemma listed_file_raises line w e :
  (listed_file line w).1 = Raise e →
  exc_type e = IndexError ∨ exc_type e = ValueError.
Proof.
  unfold listed_file, str.getitem.
  destruct (_ !! 1%nat) as [filename|]; [|intros [= <-]; by left].
  destruct (_ !! 4%nat) as [field|]; [|intros [= <-]; by left].
  unfold mbind, M_bind, mret, M_ret, str.int. cbv zeta.
  destruct (match str.int_strip field with String _ _ => _ | _ => _ end);
    [done|]. intros [= <-]. by right.
Qed.

(** X5: a line of the listing that names a file puts the file on the
    download queue once when its name has a category, with the directory of
    the section it stands in, its size and the directory of the category,
    and counts it; a file without a category is neither queued nor
    counted. *)
Theorem a_listed_file_is_queued_once store line st w filename filesize :
  (listed_file line w).1 = Return (filename, filesize) →
  (∀ c, category_of filename c →
     walk_file (layout store) line st w
     = (Return (count_file c st),
        enqueue (curdir st, filename, filesize, category_directory store c)
          w))
  ∧ ((∀ c, ¬ category_of filename c) →
     walk_file (layout store) line st w = (Return st, w)).
Proof.
  intros Hline. rewrite walk_file_spec.
  destruct (listed_file line w) as [[[filename' filesize']|e] w0];
    cbn in Hline; [|done]. injection Hline as -> ->.
  split.
  - intros c Hc%classify_category_of. by rewrite Hc.
  - intros Hnone. destruct (classify filename) as [c|] eqn:Hc; [|done].
    apply classify_Some in Hc. by apply Hnone in Hc.
Qed.

Lemma a_listed_file_is_queued_once_witness :
  let st := mkWalk true ["pool"; "main"; "h"; "hello"] 0 0 0 0 in
  (∀ c, category_of "hello_2.10-3.dsc" c →
     walk_file (layout sample_store) sample_line st sample_world
     = (Return (count_file c st),
        enqueue (curdir st, "hello_2.10-3.dsc", 1234%Z,
                 category_directory sample_store c) sample_world))
  ∧ ((∀ c, ¬ category_of "hello_2.10-3.dsc" c) →
     walk_file (layout sample_store) sample_line st sample_world
     = (Return st, sample_world)).
Proof.
  intros st.
  apply (a_listed_file_is_queued_once sample_store sample_line st
           sample_world "hello_2.10-3.dsc" 1234%Z).
  vm_compute. reflexivity.
Defined.

(** X6: a line that does not give a file name and a size ends the walk
    with the exception of the missing field ([IndexError]) or of the size
    that is no number ([ValueError]), and has queued and counted nothing. *)
Theorem a_malformed_line_queues_nothing store line st w e w' :
  walk_file (layout store) line st w = (Raise e, w') →
  w' = w
  ∧ (listed_file line w).1 = Raise e
  ∧ (exc_type e = IndexError ∨ exc_type e = ValueError).
Proof.
  rewrite walk_file_spec. intros Hrun.
  destruct (listed_file line w) as [[[filename filesize]|e'] w0] eqn:Hline.
  - destruct (classify filename); discriminate.
  - injection Hrun as -> <-. split; [done|]. split; [done|].
    apply (listed_file_raises line w). by rewrite Hline.
Qed.

Lemma a_malformed_line_queues_nothing_witness :
  let st := mkWalk true ["pool"; "main"; "h"; "hello"] 3 2 1 0 in
  let e := mk_exception ValueError
             [PyStr "invalid literal for int() with base 10: 'hello_2.10-3.dsc'"] in
  let line := "-rw-r--r-- 1 debian debian hello_2.10-3.dsc" in
  (walk_file (layout sample_store) line st sample_world).2 = sample_world
  ∧ (listed_file line sample_world).1 = Raise e
  ∧ (exc_type e = IndexError ∨ exc_type e = ValueError).
Proof.
  intros st e line.
  apply (a_malformed_line_queues_nothing sample_store line st sample_world e).
  apply (run_with_result (walk_file (layout sample_store) line st
                            sample_world)).
  vm_compute. reflexivity.
Defined.

(** ** The crawler: the walk over the listing *)

Lemma startswith_inv s prefix :
  str.startswith s prefix = true → ∃ rest, s = prefix +:+ rest.
Proof.
  unfold str.startswith. revert s.
  induction prefix as [|a prefix IH]; intros s.
  - intros _. by exists s.
  - destruct s as [|b s]; [done|].
    change (String.prefix (String a prefix) (String b s))
      with (match ascii_dec a b with
            | left _ => String.prefix prefix s
            | right _ => false
            end).
    destruct (ascii_dec a b) as [->|]; [|done].
    intros [rest ->]%IH. by exists rest.
Qed.

Lemma walk_line_unfold decode dirs i st w :
  walk_line decode dirs i st w =
  match decode i with
  | Raise e => (Raise e, w)
  | Return line =>
      if str.startswith line "./pool" then
        match str.rsplit1 ":" line !! 0%nat with
        | None =>
            (Raise (mk_exception IndexError [PyStr "index out of range"]), w)
        | Some head =>
            (Return (mkWalk true (pathlib.Path_of (str.slice_from 2 head))
                       (debcounter st) (srccounter st) (diffcounter st)
                       (dsccounter st), false), w)
        end
      else if negb (inpool st) then (Return (st, false), w)
      else if str.startswith line "./project" then (Return (st, true), w)
      else if str.startswith line "-" then
        match walk_file dirs line st w with
        | (Return st', w') => (Return (st', false), w')
        | (Raise e, w') => (Raise e, w')
        end
      else (Return (st, false), w)
  end.
Proof.
  unfold walk_line. unfold mbind at 1, M_bind at 1.
  destruct (decode i) as [line|e]; [|reflexivity].
  destruct (str.startswith line "./pool") eqn:Hpool.
  - assert (str.startswith line "./project" = false) as ->.
    { by apply startswith_inv in Hpool as [rest ->]. }
    assert (str.startswith line "-" = false) as ->.
    { by apply startswith_inv in Hpool as [rest ->]. }
    unfold mbind at 1, M_bind at 1. unfold mbind at 1, M_bind at 1.
    unfold str.getitem. by destruct (_ !! 0%nat).
  - unfold mbind at 1, M_bind at 1, mret at 1, M_ret at 1.
    destruct (negb (inpool st)); [reflexivity|].
    destruct (str.startswith line "./project"); [reflexivity|].
    destruct (str.startswith line "-"); [|reflexivity].
    unfold mbind, M_bind. by destruct (walk_file dirs line st w) as [[?|?] ?].
Qed.

Lemma walk_lines_app decode dirs lines1 lines2 : ∀ st w,
  walk_lines decode dirs (lines1 ++ lines2) st w =
  match walk_lines decode dirs lines1 st w with
  | (Return (st1, false), w1) => walk_lines decode dirs lines2 st1 w1
  | o => o
  end.
Proof.
  induction lines1 as [|i lines1 IH]; intros st w; [done|].
  cbn [app walk_lines]. unfold mbind, M_bind.
  destruct (walk_line decode dirs i st w) as [[[st1 []]|e] w1]; cbn; [done| |done].
  apply IH.
Qed.

(** X7: the lines of the listing that come before the first [./pool]
    line are passed over: nothing is queued, nothing is counted. *)
Theorem lines_before_the_pool_are_skipped decode dirs lines st w :
  inpool st = false →
  Forall (λ i, ∃ line, decode i = Return line
                     ∧ str.startswith line "./pool" = false) lines →
  walk_lines decode dirs lines st w = (Return (st, false), w).
Proof.
  intros Hout Hlines. induction Hlines as [|i lines (line & Hi & Hno) _ IH];
    [done|].
  cbn [walk_lines]. unfold mbind, M_bind.
  rewrite walk_line_unfold, Hi, Hno, Hout. cbn. exact IH.
Qed.

Lemma lines_before_the_pool_are_skipped_witness :
  let lines := ["./dists:" +:+ newline; sample_line] in
  let st := mkWalk false [] 0 0 0 0 in
  walk_lines sample_decode (layout sample_store) lines st sample_world
  = (Return (st, false), sample_world).
Proof.
  intros lines st.
  apply (lines_before_the_pool_are_skipped sample_decode
           (layout sample_store) lines st sample_world); [reflexivity|].
  repeat constructor; eexists; (split; [reflexivity|]); reflexivity.
Defined.

(** X8: the walk ends at the first [./project] line that comes after a
    [./pool] line: what the listing holds after it is not read, be it lines
    that could not be decoded or the end of a damaged archive. *)
Theorem the_walk_ends_at_project
    gzip_lines decode dirs meta_outname lslr before i line after error
    w st1 w1 :
  fs w !! meta_outname = Some (File lslr) →
  gzip_lines lslr = (before ++ i :: after, error) →
  walk_lines decode dirs before (mkWalk false [] 0 0 0 0) w
    = (Return (st1, false), w1) →
  inpool st1 = true →
  decode i = Return line →
  str.startswith line "./project" = true →
  walk_listing gzip_lines decode dirs meta_outname w = (Return st1, w1).
Proof.
  intros Hmeta Hlines Hbefore Hin Hi Hproject.
  unfold walk_listing, read_file. unfold mbind at 1, M_bind at 1.
  unfold mbind at 1, M_bind at 1, get at 1. rewrite Hmeta.
  unfold mret at 1, M_ret at 1. rewrite Hlines. cbn [fst snd].
  unfold mbind at 1, M_bind at 1.
  rewrite walk_lines_app, Hbefore. cbn [walk_lines].
  unfold mbind at 1, M_bind at 1.
  rewrite walk_line_unfold, Hi, Hin, Hproject.
  assert (str.startswith line "./pool" = false) as ->.
  { by apply startswith_inv in Hproject as [rest ->]. }
  reflexivity.
Qed.

Lemma the_walk_ends_at_project_witness :
  let meta_outname := sample_store ++ ["meta"; "ls-lR.gz-20230808-120000"] in
  let before := take 12 sample_listing in
  let walked :=
    walk_lines sample_decode (layout sample_store) before
      (mkWalk false [] 0 0 0 0) sample_world_listed in
  let st1 := mkWalk true ["pool"; "non-free-firmware"; "a"; "amd64-microcode"]
               1 1 1 2 in
  walk_listing sample_gzip_lines sample_decode (layout sample_store)
    meta_outname sample_world_listed
  = (Return st1, walked.2).
Proof.
  intros meta_outname before walked st1.
  apply (the_walk_ends_at_project sample_gzip_lines sample_decode
           (layout sample_store) meta_outname "data" before
           ("./project:" +:+ newline) ("./project:" +:+ newline)
           (drop 13 sample_listing) None sample_world_listed st1 walked.2).
  - vm_compute. reflexivity.
  - reflexivity.
  - apply (run_with_result walked). vm_compute. reflexivity.
  - reflexivity.
  - reflexivity.
  - reflexivity.
Defined.

Lemma category_directory_inj store c1 c2 :
  category_directory store c1 = category_directory store c2 → c1 = c2.
Proof.
  unfold category_directory. intros Heq%app_inv_head.
  by destruct c1, c2.
Qed.

Lemma counters_match_enqueue store c st w debiandir filename filesize :
  counters_match store st w →
  counters_match store (count_file c st)
    (enqueue (debiandir, filename, filesize, store ++ [category_name c]) w).
Proof.
  intros (Hn & Hsum & Hc). unfold counters_match, enqueue, queued_for.
  cbn [downloadqueue log set_downloadqueue items unfinished_tasks].
  rewrite length_app. cbn [length].
  split; [lia|]. split; [destruct c; cbn; lia|].
  intros c'. rewrite filter_app, length_app.
  destruct (decide (c' = c)) as [->|Hne].
  - rewrite (filter_cons_True _ _ []) by done.
    specialize (Hc c). unfold queued_for in Hc.
    destruct c; cbn in *; lia.
  - rewrite (filter_cons_False _ _ []).
    2:{ cbn. intros Heq. apply Hne. symmetry. by eapply category_directory_inj. }
    specialize (Hc c'). unfold queued_for in Hc.
    destruct c, c'; cbn in *; try done; lia.
Qed.

Lemma counters_match_walk_file store line st w st' w' :
  counters_match store st w →
  walk_file (layout store) line st w = (Return st', w') →
  counters_match store st' w' ∧ inpool st' = inpool st.
Proof.
  intros Hm. rewrite walk_file_spec.
  destruct (listed_file line w) as [[[filename filesize]|e] w0]; [|done].
  destruct (classify filename) as [c|]; intros [= <- <-]; [|done].
  split; [by apply counters_match_enqueue|by destruct c].
Qed.

Lemma counters_match_walk_line decode store i st w st' b w' :
  counters_match store st w →
  walk_line decode (layout store) i st w = (Return (st', b), w') →
  counters_match store st' w'.
Proof.
  intros Hm. rewrite walk_line_unfold.
  destruct (decode i) as [line|e]; [|done].
  destruct (str.startswith line "./pool").
  { destruct (_ !! 0%nat); intros [= <- <- <-]. exact Hm. }
  destruct (negb (inpool st)); [by intros [= <- <- <-]|].
  destruct (str.startswith line "./project"); [by intros [= <- <- <-]|].
  destruct (str.startswith line "-"); [|by intros [= <- <- <-]].
  destruct (walk_file (layout store) line st w) as [[st1|e] w1] eqn:Hfile;
    [|done].
  intros [= <- <- <-]. by eapply counters_match_walk_file.
Qed.

Lemma counters_match_walk_lines decode store lines : ∀ st w st' b w',
  counters_match store st w →
  walk_lines decode (layout store) lines st w = (Return (st', b), w') →
  counters_match store st' w'.
Proof.
  induction lines as [|i lines IH]; intros st w st' b w' Hm.
  - by intros [= <- <- <-].
  - cbn [walk_lines].
    intros [([st1 b1] & w1 & Hline & Hrest)|(e & _ & [=])]%bind_inv.
    apply counters_match_walk_line in Hline; [|done].
    destruct b1; cbn in Hrest; [by injection Hrest as <- <- <-|].
    by eapply IH.
Qed.

Global Instance failqueue_kept_preorder : PreOrder failqueue_kept.
Proof.
  split; [done|]. unfold failqueue_kept. intros w1 w2 w3 H1 H2. congruence.
Qed.

Lemma failqueue_kept_deb_loop archs p z dirs : ∀ st,
  respects failqueue_kept (deb_loop archs p z dirs st).
Proof.
  induction archs as [|arch archs IH]; intros st; simpl.
  - respects_step.
  - repeat first [apply IH | apply respects_modify; done | respects_step].
Qed.

Lemma failqueue_kept_walk_lines decode dirs lines : ∀ st,
  respects failqueue_kept (walk_lines decode dirs lines st).
Proof.
  induction lines as [|i lines IH]; intros st; cbn [walk_lines].
  - respects_step.
  - respects_step.
    + unfold walk_line, walk_file, downloadqueue_put.
      respects_step; [apply (respects_pure _)|].
      repeat first [apply failqueue_kept_deb_loop
                   | apply respects_modify; done | respects_step].
    + respects_step; [respects_step|apply IH].
Qed.

Lemma main_counters
    hexdigest gzip_lines decode store debianmirror stamp w st w' :
  main hexdigest gzip_lines decode store debianmirror stamp w
    = (Return (go_on st), w') →
  counters_match store st w' ∧ failqueue w' = empty_queue.
Proof.
  unfold main.
  intros [([[]|status] & w1 & _ & Hrest)|(e & _ & [=])]%bind_inv;
    [|by injection Hrest].
  apply bind_inv in Hrest
    as [(dirs & w2 & Hdirs & Hrest)|(e & _ & [=])].
  apply create_directories_returns in Hdirs as ->.
  apply bind_inv in Hrest
    as [([[meta content]|status] & w3 & _ & Hrest)|(e & _ & [=])];
    [|by injection Hrest].
  apply bind_inv in Hrest
    as [([[]|status] & w4 & _ & Hrest)|(e & _ & [=])];
    [|by injection Hrest].
  unfold mbind at 1 2, M_bind at 1 2, modify in Hrest.
  apply bind_inv in Hrest as [(st' & w5 & Hwalk & [= <- <-])|(e & _ & [=])].
  unfold walk_listing in Hwalk.
  apply bind_inv in Hwalk as [(lslr & w6 & Hread & Hwalk)|(e & _ & [=])].
  assert (w6 = set_failqueue empty_queue (set_downloadqueue empty_queue w4))
    as ->.
  { revert Hread. unfold read_file, os_error, mbind, M_bind, get.
    destruct (fs _ !! meta) as [[z|c]|]; by intros [=]. }
  apply bind_inv in Hwalk as [([st1 b] & w7 & Hlines & Hend)|(e & _ & [=])].
  assert (w7 = w5 ∧ st1 = st') as [-> ->].
  { cbn in Hend. destruct b; [by injection Hend|].
    destruct (gzip_lines lslr).2; [done|]. by injection Hend. }
  pose proof (failqueue_kept_walk_lines _ _ _ _ _ _ _ Hlines) as Hfail.
  apply counters_match_walk_lines in Hlines; [done|].
  split; [done|]. split; [done|]. by intros [].
Qed.

(** X9: when [main] has walked the listing, the four counters tell how
    many tasks it has put on the download queue for each category, their
    sum is the length of the queue, which is also the number of tasks that
    [join] waits for, and the fail queue is empty. *)
Theorem the_counters_count_the_queue
    hexdigest gzip_lines decode store debianmirror stamp w st w' :
  main hexdigest gzip_lines decode store debianmirror stamp w
    = (Return (go_on st), w') →
  unfinished_tasks (downloadqueue w') = length (items (downloadqueue w'))
  ∧ length (items (downloadqueue w'))
    = (debcounter st + srccounter st + diffcounter st + dsccounter st)%nat
  ∧ (∀ c, counter c st = length (queued_for store c w'))
  ∧ failqueue w' = empty_queue.
Proof. intros [(Hn & Hsum & Hc) Hfail]%main_counters. done. Qed.

Lemma the_counters_count_the_queue_witness :
  let w' := (sample_main sample_world).2 in
  let st := mkWalk true ["pool"; "non-free-firmware"; "a"; "amd64-microcode"]
              1 1 1 2 in
  unfinished_tasks (downloadqueue w') = length (items (downloadqueue w'))
  ∧ length (items (downloadqueue w'))
    = (debcounter st + srccounter st + diffcounter st + dsccounter st)%nat
  ∧ (∀ c, counter c st = length (queued_for sample_store c w'))
  ∧ failqueue w' = empty_queue.
Proof.
  intros w' st.
  apply (the_counters_count_the_queue sample_hexdigest sample_gzip_lines
           sample_decode sample_store "http://deb.example.org/debian"
           "20230808-120000" sample_world st w').
  apply (run_with_result (sample_main sample_world)).
  vm_compute. reflexivity.
Defined.

(** ** The crawler: what a turn of the worker leaves behind *)

Lemma task_done_run w :
  unfinished_tasks (downloadqueue w) ≠ 0%nat →
  downloadqueue_task_done w = (Return tt, task_done w).
Proof.
  unfold downloadqueue_task_done, mbind, M_bind, get, modify, task_done.
  by destruct (unfinished_tasks (downloadqueue w)).
Qed.

Lemma download_fails_run debianmirror t p w :
  unfinished_tasks (downloadqueue w) ≠ 0%nat →
  get_fails debianmirror t w →
  download debianmirror t p w =
  (Return tt,
   task_done (reported_failed (debianfile_of t)
                (requested (downloadurl debianmirror t) w))).
Proof.
  intros Hn Hfail. rewrite download_unfold. cbv zeta.
  assert ((failqueue_put (debianfile_of t) ;; downloadqueue_task_done)
            (log (ev_requests_get (downloadurl debianmirror t)) w)
          = (Return tt,
             task_done (reported_failed (debianfile_of t)
                          (requested (downloadurl debianmirror t) w))))
    as Hrun.
  { unfold failqueue_put, mbind, M_bind, modify.
    by rewrite task_done_run. }
  unfold get_fails in Hfail.
  destruct (mirror w _) as [[status c]|e].
  - cbn in Hfail. apply Z.eqb_neq in Hfail. cbn [status_code].
    by rewrite Hfail.
  - by rewrite Hfail.
Qed.

Lemma download_succeeds_run debianmirror t p w c :
  fs w !! p = None →
  is_directory w (pathlib.parent p) →
  unfinished_tasks (downloadqueue w) ≠ 0%nat →
  mirror w (downloadurl debianmirror t) = Return (mkResponse 200 c) →
  download debianmirror t p w =
  (Return tt,
   task_done (written p c (requested (downloadurl debianmirror t) w))).
Proof.
  intros Hp [z Hparent] Hn Hget. rewrite download_unfold. cbv zeta.
  rewrite Hget. cbn [status_code content Z.eqb Pos.eqb negb].
  unfold write_file, os_error, mbind at 1, M_bind at 1.
  unfold mbind at 1, M_bind at 1, get at 1. cbn [fs log].
  rewrite Hp, Hparent. unfold modify. by rewrite task_done_run.
Qed.

(** A turn of the worker on a task it can carry out, case by case. *)
Lemma downloadfile_task_run debianmirror t p w :
  resultfilename t = Some p →
  fs w !! p = None ∨ (∃ c, fs w !! p = Some (File c)) →
  is_directory w (pathlib.parent p) →
  unfinished_tasks (downloadqueue w) ≠ 0%nat →
  get_fails debianmirror t w ∨ get_succeeds debianmirror t w →
  let url := downloadurl debianmirror t in
  let w1 := match fs w !! p with Some _ => unlinked p w | None => w end in
  (already_downloaded t p w
   ∧ downloadfile_task debianmirror t w = (Return tt, task_done w))
  ∨ (¬ already_downloaded t p w ∧ get_fails debianmirror t w
     ∧ downloadfile_task debianmirror t w
       = (Return tt,
          task_done (reported_failed (debianfile_of t) (requested url w1))))
  ∨ (¬ already_downloaded t p w
     ∧ ∃ c, mirror w url = Return (mkResponse 200 c)
          ∧ downloadfile_task debianmirror t w
            = (Return tt, task_done (written p c (requested url w1)))).
Proof.
  intros Hres Hp Hparent Hn Hget url w1.
  rewrite (downloadfile_task_unfold _ _ _ _ Hres).
  assert (∀ w0, fs w0 !! p = None → is_directory w0 (pathlib.parent p) →
            unfinished_tasks (downloadqueue w0) ≠ 0%nat →
            mirror w0 = mirror w →
            (get_fails debianmirror t w
             ∧ download debianmirror t p w0
               = (Return tt,
                  task_done (reported_failed (debianfile_of t)
                               (requested url w0))))
            ∨ (∃ c, mirror w url = Return (mkResponse 200 c)
                  ∧ download debianmirror t p w0
                    = (Return tt,
                       task_done (written p c (requested url w0)))))
    as Hdownload.
  { intros w0 Hp0 Hparent0 Hn0 Hmirror.
    destruct Hget as [Hfail|[c Hc]].
    - left. split; [done|]. apply download_fails_run; [done|].
      unfold get_fails in *. by rewrite Hmirror.
    - right. exists c. split; [done|].
      apply download_succeeds_run; [done..|]. by rewrite Hmirror. }
  subst w1.
  destruct Hp as [Hp|[c Hp]]; rewrite Hp.
  - assert (¬ already_downloaded t p w) as Hnot.
    { intros (c & Hc & _). congruence. }
    right. destruct (Hdownload w) as [[? ?]|(c & ? & ?)]; eauto.
  - cbn [st_size].
    destruct (Z.of_nat (String.length c) =? debiansize_of t)%Z eqn:Hsize.
    + apply Z.eqb_eq in Hsize. left. split; [by exists c|].
      by apply task_done_run.
    + apply Z.eqb_neq in Hsize.
      assert (¬ already_downloaded t p w) as Hnot.
      { intros (c' & Hc' & ?). congruence. }
      right. destruct (Hdownload (unlinked p w)) as [[? ?]|(c' & ? & ?)];
        eauto.
      * apply lookup_delete_eq.
      * destruct Hparent as [z Hz]. exists z. cbn.
        rewrite lookup_delete_ne; [done|]. intros Heq. congruence.
Qed.

(** X10: what a turn of the worker leaves at the destination of a task it
    can carry out.  A file of the listed size stays as it is.  Otherwise
    what the mirror has sent is there, whatever its size; and when the
    request has failed, nothing is there: a file of another size that was
    there before has been removed and is not put back. *)
Theorem the_destination_after_a_turn debianmirror t p w :
  resultfilename t = Some p →
  fs w !! p = None ∨ (∃ c, fs w !! p = Some (File c)) →
  is_directory w (pathlib.parent p) →
  unfinished_tasks (downloadqueue w) ≠ 0%nat →
  get_fails debianmirror t w ∨ get_succeeds debianmirror t w →
  ∃ w',
    downloadfile_task debianmirror t w = (Return tt, w')
    ∧ (already_downloaded t p w → fs w' !! p = fs w !! p)
    ∧ (¬ already_downloaded t p w →
       (∀ c, mirror w (downloadurl debianmirror t)
               = Return (mkResponse 200 c) →
             fs w' !! p = Some (File c))
       ∧ (get_fails debianmirror t w → fs w' !! p = None)).
Proof.
  intros Hres Hp Hparent Hn Hget.
  assert (fs (match fs w !! p with Some _ => unlinked p w | None => w end)
            !! p = None) as Hgone.
  { destruct (fs w !! p) eqn:Hfs; [|done]. cbn. apply lookup_delete_eq. }
  destruct (downloadfile_task_run _ _ _ _ Hres Hp Hparent Hn Hget)
    as [[Hyes ->]|[(Hnot & Hfail & ->)|(Hnot & c & Hc & ->)]];
    eexists; (split; [reflexivity|]); cbn [fs task_done reported_failed
      requested written log set_downloadqueue set_failqueue set_fs].
  - done.
  - split; [done|]. intros _. split; [|done].
    intros c Hc. unfold get_fails in Hfail. by rewrite Hc in Hfail.
  - split; [done|]. intros _. split.
    + intros c' Hc'. rewrite Hc in Hc'. injection Hc' as <-.
      apply lookup_insert_eq.
    + unfold get_fails. by rewrite Hc.
Qed.

Lemma the_destination_after_a_turn_witness :
  let t := sample_task in
  let p := sample_store ++ ["dsc"; "main"; "hello_2.10-3.dsc"] in
  let w := sample_world_downloaded in
  ∃ w',
    downloadfile_task "http://deb.example.org/debian" t w = (Return tt, w')
    ∧ (already_downloaded t p w → fs w' !! p = fs w !! p)
    ∧ (¬ already_downloaded t p w →
       (∀ c, mirror w (downloadurl "http://deb.example.org/debian" t)
               = Return (mkResponse 200 c) →
             fs w' !! p = Some (File c))
       ∧ (get_fails "http://deb.example.org/debian" t w →
          fs w' !! p = None)).
Proof.
  intros t p w.
  apply (the_destination_after_a_turn "http://deb.example.org/debian" t p w).
  - reflexivity.
  - right. exists "data". vm_compute. reflexivity.
  - exists 4096%Z. vm_compute. reflexivity.
  - vm_compute. discriminate.
  - right. exists "data". reflexivity.
Defined.

(** X11: the size of what the mirror sends is not looked at when it is
    written, but the next time the task comes up.  After a turn that has
    written the file, a later turn for the same task ends with
    [task_done] alone when the file has the listed size, and removes the
    file and asks the mirror again when it has not. *)
Theorem the_size_is_checked_at_the_next_turn debianmirror t p w c w' :
  resultfilename t = Some p →
  fs w !! p = None ∨ (∃ c, fs w !! p = Some (File c)) →
  is_directory w (pathlib.parent p) →
  unfinished_tasks (downloadqueue w) ≠ 0%nat →
  ¬ already_downloaded t p w →
  mirror w (downloadurl debianmirror t) = Return (mkResponse 200 c) →
  downloadfile_task debianmirror t w = (Return tt, w') →
  fs w' !! p = Some (File c)
  ∧ ∀ w2, fs w2 !! p = fs w' !! p →
          unfinished_tasks (downloadqueue w2) ≠ 0%nat →
      (Z.of_nat (String.length c) = debiansize_of t →
       downloadfile_task debianmirror t w2 = (Return tt, task_done w2))
      ∧ (Z.of_nat (String.length c) ≠ debiansize_of t →
         downloadfile_task debianmirror t w2
         = download debianmirror t p (unlinked p w2)).
Proof.
  intros Hres Hp Hparent Hn Hnot Hget Hrun.
  assert (fs w' !! p = Some (File c)) as Hfile.
  { destruct (downloadfile_task_run debianmirror _ _ _ Hres Hp Hparent Hn)
      as [[Hyes _]|[(_ & Hfail & _)|(_ & c' & Hc' & Hrun')]].
    - right. by exists c.
    - done.
    - unfold get_fails in Hfail. by rewrite Hget in Hfail.
    - rewrite Hget in Hc'. injection Hc' as <-.
      rewrite Hrun in Hrun'. injection Hrun' as ->. cbn.
      apply lookup_insert_eq. }
  split; [done|]. intros w2 Hsame Hn2.
  rewrite (downloadfile_task_unfold _ _ _ _ Hres), Hsame, Hfile.
  cbn [st_size]. split.
  - intros ->%Z.eqb_eq. by apply task_done_run.
  - by intros ->%Z.eqb_neq.
Qed.

Lemma the_size_is_checked_at_the_next_turn_witness :
  let t : task :=
    (["pool"; "main"; "h"; "hello"], "hello_2.10-3.dsc", 1234%Z,
     sample_store ++ ["dsc"]) in
  let p := sample_store ++ ["dsc"; "main"; "hello_2.10-3.dsc"] in
  let w := sample_world_downloaded in
  let w' := (downloadfile_task "http://deb.example.org/debian" t w).2 in
  fs w' !! p = Some (File "data")
  ∧ ∀ w2, fs w2 !! p = fs w' !! p →
          unfinished_tasks (downloadqueue w2) ≠ 0%nat →
      (Z.of_nat (String.length "data") = debiansize_of t →
       downloadfile_task "http://deb.example.org/debian" t w2
       = (Return tt, task_done w2))
      ∧ (Z.of_nat (String.length "data") ≠ debiansize_of t →
         downloadfile_task "http://deb.example.org/debian" t w2
         = download "http://deb.example.org/debian" t p (unlinked p w2)).
Proof.
  intros t p w w'.
  apply (the_size_is_checked_at_the_next_turn
           "http://deb.example.org/debian" t p w "data" w').
  - reflexivity.
  - right. exists "data". vm_compute. reflexivity.
  - exists 4096%Z. vm_compute. reflexivity.
  - vm_compute. discriminate.
  - intros (c & Hc & Hsize). vm_compute in Hc. injection Hc as <-.
    vm_compute in Hsize. discriminate.
  - reflexivity.
  - apply (run_with_result
             (downloadfile_task "http://deb.example.org/debian" t w)).
    vm_compute. reflexivity.
Defined.

Lemma turn_summary debianmirror t p w :
  resultfilename t = Some p →
  fs w !! p = None ∨ (∃ c, fs w !! p = Some (File c)) →
  is_directory w (pathlib.parent p) →
  unfinished_tasks (downloadqueue w) ≠ 0%nat →
  get_fails debianmirror t w ∨ get_succeeds debianmirror t w →
  ∃ w' failed,
    downloadfile_task debianmirror t w = (Return tt, w')
    ∧ mirror w' = mirror w
    ∧ items (downloadqueue w') = items (downloadqueue w)
    ∧ unfinished_tasks (downloadqueue w')
      = Nat.pred (unfinished_tasks (downloadqueue w))
    ∧ items (failqueue w') = items (failqueue w) ++ failed
    ∧ unfinished_tasks (failqueue w')
      = (unfinished_tasks (failqueue w) + length failed)%nat
    ∧ failed `sublist_of` [debianfile_of t]
    ∧ (∀ q, q ≠ p → fs w' !! q = fs w !! q)
    ∧ (fs w' !! p = None ∨ ∃ c, fs w' !! p = Some (File c)).
Proof.
  intros Hres Hp Hparent Hn Hget.
  assert (∀ q, q ≠ p →
    fs (match fs w !! p with Some _ => unlinked p w | None => w end) !! q
    = fs w !! q) as Hother.
  { intros q Hq. destruct (fs w !! p); [|done]. cbn.
    by rewrite lookup_delete_ne. }
  assert (fs (match fs w !! p with Some _ => unlinked p w | None => w end)
            !! p = None) as Hgone.
  { destruct (fs w !! p) eqn:Hfs; [|done]. cbn. apply lookup_delete_eq. }
  assert (∀ w0 : world,
    match fs w !! p with Some _ => unlinked p w | None => w end = w0 →
    mirror w0 = mirror w ∧ downloadqueue w0 = downloadqueue w
    ∧ failqueue w0 = failqueue w) as Hrest.
  { intros w0 <-. by destruct (fs w !! p). }
  destruct (downloadfile_task_run _ _ _ _ Hres Hp Hparent Hn Hget)
    as [[Hyes ->]|[(Hnot & Hfail & ->)|(Hnot & c & Hc & ->)]].
  - exists (task_done w), []. cbn. rewrite app_nil_r, Nat.add_0_r.
    repeat (split; [done|]). split; [apply sublist_nil_l|]. split; [done|].
    destruct Hp as [->|[c ->]]; eauto.
  - eexists _, [debianfile_of t]. split; [reflexivity|].
    destruct (Hrest _ eq_refl) as (Hm & Hdq & Hfq).
    cbn [fs task_done reported_failed requested written log
         set_downloadqueue set_failqueue set_fs mirror downloadqueue
         failqueue items unfinished_tasks length].
    rewrite Hm, Hdq, Hfq. repeat (split; [done|]).
    split; [lia|]. split; [done|]. split; [done|]. by left.
  - eexists _, []. split; [reflexivity|].
    destruct (Hrest _ eq_refl) as (Hm & Hdq & Hfq).
    cbn [fs task_done reported_failed requested written log
         set_downloadqueue set_failqueue set_fs mirror downloadqueue
         failqueue items unfinished_tasks length].
    rewrite Hm, Hdq, Hfq, app_nil_r, Nat.add_0_r. repeat (split; [done|]).
    split; [apply sublist_nil_l|].
    split; [intros q Hq; rewrite lookup_insert_ne by done; auto|].
    right. exists c. apply lookup_insert_eq.
Qed.

Lemma downloadable_after_turn debianmirror w w' p t :
  mirror w' = mirror w →
  (∀ q, q ≠ p → fs w' !! q = fs w !! q) →
  fs w !! p = None ∨ (∃ c, fs w !! p = Some (File c)) →
  fs w' !! p = None ∨ (∃ c, fs w' !! p = Some (File c)) →
  downloadable debianmirror w t → downloadable debianmirror w' t.
Proof.
  intros Hm Hother Hp Hp' (p2 & Hres & Hp2 & [z Hparent] & Hget).
  exists p2. split; [done|]. split; [|split].
  - destruct (decide (p2 = p)) as [->|Hne]; [done|]. by rewrite Hother.
  - exists z. rewrite Hother; [done|]. intros Heq. rewrite Heq in Hparent.
    destruct Hp as [Hp|[c Hp]]; congruence.
  - unfold get_fails, get_succeeds in *. by rewrite Hm.
Qed.

Lemma downloadfile_drains debianmirror tasks : ∀ turns w,
  items (downloadqueue w) = tasks →
  Forall (downloadable debianmirror w) tasks →
  (length tasks ≤ unfinished_tasks (downloadqueue w))%nat →
  (length tasks < turns)%nat →
  ∃ w' failed,
    downloadfile turns debianmirror w = (Return waiting_in_get, w')
    ∧ items (downloadqueue w') = []
    ∧ (unfinished_tasks (downloadqueue w') + length tasks)%nat
      = unfinished_tasks (downloadqueue w)
    ∧ items (failqueue w') = items (failqueue w) ++ failed
    ∧ unfinished_tasks (failqueue w')
      = (unfinished_tasks (failqueue w) + length failed)%nat
    ∧ failed `sublist_of` (debianfile_of <$> tasks).
Proof.
  induction tasks as [|t rest IH]; intros turns w Hitems Hgood Hn Hturns.
  - destruct turns as [|turns]; [cbn in Hturns; lia|].
    exists w, []. cbn [downloadfile].
    unfold mbind, M_bind, get. rewrite Hitems.
    rewrite app_nil_r, !Nat.add_0_r. by repeat split.
  - destruct turns as [|turns]; [cbn in Hturns; lia|].
    cbn [length] in Hn, Hturns.
    apply Forall_cons in Hgood as [Ht Hrest].
    set (w0 := set_downloadqueue
                 (mkQueue rest (unfinished_tasks (downloadqueue w))) w).
    destruct Ht as (p & Hres & Hp & Hparent & Hget).
    destruct (turn_summary debianmirror t p w0 Hres Hp Hparent)
      as (w1 & failed1 & Hrun & Hm & Hi & Hu & Hfi & Hfu & Hsub & Hother
          & Hp1); [cbn; lia|done|].
    rewrite (downloadfile_next_turn turns debianmirror w t rest w1 Hitems
               Hrun).
    destruct (IH turns w1) as (w' & failed & Hdrain & Hi' & Hu' & Hfi' & Hfu'
                               & Hsub'); [done| |cbn in *; lia|lia|].
    { eapply Forall_impl; [exact Hrest|]. intros t2.
      by apply (downloadable_after_turn debianmirror w0 w1 p). }
    exists w', (failed1 ++ failed). split; [done|]. split; [done|].
    cbn in Hu, Hfi, Hfu.
    split; [cbn [length]; lia|]. split; [by rewrite Hfi', Hfi, app_assoc|].
    split; [rewrite Hfu', Hfu, length_app; lia|].
    rewrite fmap_cons. change (debianfile_of t :: (debianfile_of <$> rest))
      with ([debianfile_of t] ++ (debianfile_of <$> rest)).
    by apply sublist_app.
Qed.

(** X12: a worker that finds only tasks it can carry out takes them all:
    with more turns than there are tasks it ends up waiting in [get] on an
    empty queue, it has called [task_done] once for each task, so that a
    queue that counted only these tasks lets [join] return, and the names
    it has put on the fail queue are names of these tasks, in their
    order. *)
Theorem a_worker_empties_the_queue debianmirror turns w :
  Forall (downloadable debianmirror w) (items (downloadqueue w)) →
  (length (items (downloadqueue w)) ≤ unfinished_tasks (downloadqueue w))%nat →
  (length (items (downloadqueue w)) < turns)%nat →
  ∃ w' failed,
    downloadfile turns debianmirror w = (Return waiting_in_get, w')
    ∧ items (downloadqueue w') = []
    ∧ (unfinished_tasks (downloadqueue w')
       + length (items (downloadqueue w)))%nat
      = unfinished_tasks (downloadqueue w)
    ∧ items (failqueue w') = items (failqueue w) ++ failed
    ∧ unfinished_tasks (failqueue w')
      = (unfinished_tasks (failqueue w) + length failed)%nat
    ∧ failed `sublist_of` (debianfile_of <$> items (downloadqueue w)).
Proof. intros Hgood Hn Hturns. by apply downloadfile_drains. Qed.

Lemma sample_queue_downloadable :
  let w1 := (sample_main_main sample_world).2 in
  Forall (downloadable "http://deb.example.org/debian" w1)
    (items (downloadqueue w1))
  ∧ length (items (downloadqueue w1)) = 4%nat
  ∧ unfinished_tasks (downloadqueue w1) = 4%nat.
Proof.
  intros w1.
  assert (items (downloadqueue w1)
          = [(["pool"; "main"; "h"; "hello"], "hello_2.10-3.dsc", 1234%Z,
              sample_store ++ ["dsc"]);
             (["pool"; "main"; "h"; "hello"], "hello_2.10-3_amd64.deb",
              56789%Z, sample_store ++ ["binary"]);
             (["pool"; "main"; "h"; "hello"], "hello_2.10-3.diff.gz", 4321%Z,
              sample_store ++ ["patches"]);
             (["pool"; "main"; "h"; "hello"], "hello_2.10.orig.tar.gz",
              725946%Z, sample_store ++ ["source"])]) as Hitems.
  { vm_compute. reflexivity. }
  split; [|split; vm_compute; reflexivity].
  rewrite Hitems.
  repeat (apply Forall_cons; split;
    [eexists; split; [reflexivity|]; split; [left; vm_compute; reflexivity|];
     split; [exists 4096%Z; vm_compute; reflexivity|];
     right; exists "data"; vm_compute; reflexivity|]).
  constructor.
Qed.

Lemma a_worker_empties_the_queue_witness :
  let w := (sample_main_main sample_world).2 in
  ∃ w' failed,
    downloadfile 5 "http://deb.example.org/debian" w
    = (Return waiting_in_get, w')
    ∧ items (downloadqueue w') = []
    ∧ (unfinished_tasks (downloadqueue w')
       + length (items (downloadqueue w)))%nat
      = unfinished_tasks (downloadqueue w)
    ∧ items (failqueue w') = items (failqueue w) ++ failed
    ∧ unfinished_tasks (failqueue w')
      = (unfinished_tasks (failqueue w) + length failed)%nat
    ∧ failed `sublist_of` (debianfile_of <$> items (downloadqueue w)).
Proof.
  intros w. destruct sample_queue_downloadable as (Hgood & Hlen & Hn).
  apply (a_worker_empties_the_queue "http://deb.example.org/debian" 5 w).
  - exact Hgood.
  - fold w in Hlen, Hn. rewrite Hlen, Hn. lia.
  - fold w in Hlen. rewrite Hlen. lia.
Defined.

(** X13: the calls that a turn of the worker makes, in their order.  A
    file of the listed size: [task_done] alone.  Otherwise the [unlink] of
    what is at the destination, if something is, then the request, then
    either the writing of the file or the [put] on the fail queue, and
    [task_done] last: a failure is on the fail queue before the task is
    reported done, so that it is there when [downloadqueue.join()]
    returns. *)
Theorem the_calls_of_a_turn debianmirror t p w :
  resultfilename t = Some p →
  fs w !! p = None ∨ (∃ c, fs w !! p = Some (File c)) →
  is_directory w (pathlib.parent p) →
  unfinished_tasks (downloadqueue w) ≠ 0%nat →
  get_fails debianmirror t w ∨ get_succeeds debianmirror t w →
  let url := downloadurl debianmirror t in
  let removed :=
    match fs w !! p with Some _ => [ev_unlink p] | None => [] end in
  ∃ w',
    downloadfile_task debianmirror t w = (Return tt, w')
    ∧ (already_downloaded t p w →
       trace w' = trace w ++ [ev_downloadqueue_task_done])
    ∧ (¬ already_downloaded t p w → get_fails debianmirror t w →
       trace w' = trace w ++ removed
                  ++ [ev_requests_get url;
                      ev_failqueue_put (debianfile_of t);
                      ev_downloadqueue_task_done])
    ∧ (¬ already_downloaded t p w →
       ∀ c, mirror w url = Return (mkResponse 200 c) →
       trace w' = trace w ++ removed
                  ++ [ev_requests_get url; ev_write p c;
                      ev_downloadqueue_task_done]).
Proof.
  intros Hres Hp Hparent Hn Hget url removed. subst url.
  assert (trace (match fs w !! p with Some _ => unlinked p w | None => w end)
          = trace w ++ removed) as Htrace.
  { subst removed. destruct (fs w !! p); [done|]. by rewrite app_nil_r. }
  assert (mirror (match fs w !! p with Some _ => unlinked p w | None => w end)
          = mirror w) as Hmirror by by destruct (fs w !! p).
  destruct (downloadfile_task_run _ _ _ _ Hres Hp Hparent Hn Hget)
    as [[Hyes ->]|[(Hnot & Hfail & ->)|(Hnot & c & Hc & ->)]];
    eexists; (split; [reflexivity|]);
    cbn [trace task_done reported_failed requested written log
         set_downloadqueue set_failqueue set_fs].
  - done.
  - split; [done|]. split.
    + intros _ _. rewrite Htrace, <- !app_assoc. done.
    + intros _ c Hc. unfold get_fails in Hfail. by rewrite Hc in Hfail.
  - split; [done|]. split.
    + intros _ Hfail. unfold get_fails in Hfail. by rewrite Hc in Hfail.
    + intros _ c' Hc'. rewrite Hc in Hc'.
      injection Hc' as <-. rewrite Htrace, <- !app_assoc. done.
Qed.

Lemma the_calls_of_a_turn_witness :
  let t : task :=
    (["pool"; "main"; "h"; "hello"], "hello_2.10-3.dsc", 1234%Z,
     sample_store ++ ["dsc"]) in
  let p := sample_store ++ ["dsc"; "main"; "hello_2.10-3.dsc"] in
  let w := sample_world_downloaded in
  trace (downloadfile_task "http://deb.example.org/debian" t w).2
  = [ev_unlink p;
     ev_requests_get
       "http://deb.example.org/debian/pool/main/h/hello/hello_2.10-3.dsc";
     ev_write p "data"; ev_downloadqueue_task_done].
Proof.
  intros t p w.
  destruct (the_calls_of_a_turn "http://deb.example.org/debian" t p w)
    as (w' & -> & _ & _ & Hwritten).
  - reflexivity.
  - right. exists "data". vm_compute. reflexivity.
  - exists 4096%Z. vm_compute. reflexivity.
  - vm_compute. discriminate.
  - right. exists "data". reflexivity.
  - cbn [snd]. rewrite (Hwritten ltac:(intros (c & Hc & Hsize);
        vm_compute in Hc; injection Hc as <-; vm_compute in Hsize;
        discriminate) "data" eq_refl).
    vm_compute. reflexivity.
Defined.

(** ** The crawler: how [main] ends early, its settings, the failed files,
    the state file *)

Lemma check_storedirectory_exit store w :
  ¬ is_directory w store →
  check_storedirectory store w = (Return (sys_exit 1%Z), w).
Proof.
  intros Hno. unfold check_storedirectory, path_exists, is_dir, mbind, M_bind,
    get, mret, M_ret.
  destruct (fs w !! store) as [[z|c]|] eqn:Hs.
  - destruct Hno. by exists z.
  - rewrite bool_decide_eq_true_2 by eauto. cbn. by rewrite Hs.
  - by rewrite bool_decide_eq_false_2 by (intros [? [=]]).
Qed.

(** X14: without a store directory, or with a store that is no directory,
    [main] ends with [sys.exit(1)] and has changed nothing: no directory is
    made, no request is sent. *)
Theorem main_leaves_an_unusable_store_alone
    hexdigest gzip_lines decode store debianmirror stamp w :
  ¬ is_directory w store →
  main hexdigest gzip_lines decode store debianmirror stamp w
  = (Return (sys_exit 1%Z), w).
Proof.
  intros Hno. unfold main.
  by rewrite (bind_Return _ _ _ _ _ (check_storedirectory_exit _ _ Hno)).
Qed.

Lemma main_leaves_an_unusable_store_alone_witness :
  main sample_hexdigest sample_gzip_lines sample_decode
    ["/"; "srv"; "debian"; "HASH"] "http://deb.example.org/debian"
    "20230808-120000" sample_world_seen
  = (Return (sys_exit 1%Z), sample_world_seen).
Proof.
  apply main_leaves_an_unusable_store_alone.
  intros [z Hz]. vm_compute in Hz. discriminate.
Defined.

Lemma download_listing_unfold dirs debianmirror stamp w :
  download_listing dirs debianmirror stamp w =
  let meta_outname :=
    pathlib.Path_join (meta_data_dir dirs) ["ls-lR.gz-" +:+ stamp] in
  let w1 := requested (debianmirror +:+ "/ls-lR.gz") w in
  match fs w !! meta_outname with
  | Some _ => (Return (sys_exit 1%Z), w)
  | None =>
      match mirror w (debianmirror +:+ "/ls-lR.gz") with
      | Raise e =>
          if isinstance e [RequestException] then (Return (sys_exit 1%Z), w1)
          else (Raise e, w1)
      | Return req =>
          if negb (status_code req =? 200)%Z then (Return (sys_exit 1%Z), w1)
          else
            (write_file meta_outname (content req) ;;
             mret (go_on (meta_outname, content req))) w1
      end
  end.
Proof.
  unfold download_listing. cbv zeta.
  unfold path_exists, try_except, requests_get, requested.
  unfold mbind at 1, M_bind at 1. unfold mbind at 1, M_bind at 1, get at 1.
  unfold mret at 1, M_ret at 1.
  destruct (fs w !! _) as [n|] eqn:Hm.
  { by rewrite bool_decide_eq_true_2 by eauto. }
  rewrite bool_decide_eq_false_2 by (intros [? [=]]).
  unfold mbind at 1, M_bind at 1. unfold mbind at 1, M_bind at 1.
  destruct (mirror w _) as [req|e].
  - unfold mret at 1, M_ret at 1. by destruct (negb _).
  - by destruct (isinstance e [RequestException]).
Qed.

(** X15: when [main] cannot get the listing it ends before it has written
    anything.  If a file with the name of this second's copy of the listing
    is there already, it exits with 1 without a request; if the request
    fails with a [RequestException] or a status other than 200, it exits
    with 1 after the request; another exception of the request ends [main].
    The store is as the making of the directories has left it: no copy of
    the listing, no HASH, and nothing is queued. *)
Theorem main_gives_up_without_the_listing
    hexdigest gzip_lines decode store debianmirror stamp w dirs w2 :
  is_directory w store →
  create_directories store w = (Return dirs, w2) →
  let meta_outname :=
    pathlib.Path_join (store ++ ["meta"]) ["ls-lR.gz-" +:+ stamp] in
  let url := debianmirror +:+ "/ls-lR.gz" in
  let run := main hexdigest gzip_lines decode store debianmirror stamp w in
  (is_Some (fs w2 !! meta_outname) → run = (Return (sys_exit 1%Z), w2))
  ∧ (fs w2 !! meta_outname = None → listing_fails debianmirror w2 →
     run = (Return (sys_exit 1%Z), requested url w2))
  ∧ (∀ e, fs w2 !! meta_outname = None → mirror w2 url = Raise e →
          isinstance e [RequestException] = false →
          run = (Raise e, requested url w2)).
Proof.
  intros Hstore Hcreate meta_outname url run. subst meta_outname url run.
  unfold main.
  rewrite (bind_Return _ _ _ _ _ (check_storedirectory_run _ _ Hstore)).
  rewrite (bind_Return _ _ _ _ _ Hcreate).
  pose proof (create_directories_returns _ _ _ _ Hcreate) as ->.
  split; [|split]; [intros [n Hn]|intros Hn Hfail|intros e Hn He Hi];
    unfold mbind at 1, M_bind at 1;
    rewrite download_listing_unfold; cbv zeta; cbn [meta_data_dir layout];
    rewrite Hn.
  - done.
  - unfold listing_fails in Hfail.
    destruct (mirror w2 _) as [req|e].
    + apply Z.eqb_neq in Hfail. by rewrite Hfail.
    + by rewrite Hfail.
  - by rewrite He, Hi.
Qed.

Lemma main_gives_up_without_the_listing_witness :
  let w := sample_world_offline in
  let w2 := (create_directories sample_store w).2 in
  let meta_outname :=
    pathlib.Path_join (sample_store ++ ["meta"])
      ["ls-lR.gz-" +:+ "20230808-120000"] in
  let url := "http://deb.example.org/debian" +:+ "/ls-lR.gz" in
  let run := main sample_hexdigest sample_gzip_lines sample_decode
               sample_store "http://deb.example.org/debian"
               "20230808-120000" w in
  (is_Some (fs w2 !! meta_outname) → run = (Return (sys_exit 1%Z), w2))
  ∧ (fs w2 !! meta_outname = None →
     listing_fails "http://deb.example.org/debian" w2 →
     run = (Return (sys_exit 1%Z), requested url w2))
  ∧ (∀ e, fs w2 !! meta_outname = None → mirror w2 url = Raise e →
          isinstance e [RequestException] = false →
          run = (Raise e, requested url w2)).
Proof.
  intros w w2.
  assert (is_directory w sample_store) as Hstore.
  { exists 4096%Z. vm_compute. reflexivity. }
  apply (main_gives_up_without_the_listing sample_hexdigest
           sample_gzip_lines sample_decode sample_store
           "http://deb.example.org/debian" "20230808-120000" w
           (layout sample_store) w2 Hstore).
  apply create_directories_result; [exact Hstore|].
  intros q Hq. unfold skeleton in Hq. cbn in Hq.
  repeat (apply elem_of_cons in Hq as [->|Hq];
          [left; vm_compute; reflexivity|]).
  by apply elem_of_nil in Hq.
Defined.

Lemma read_section_run {S} config cpu_count section s (st : S) :
  (1 ≤ cpu_count)%Z →
  let debian := String.eqb section "debian" in
  let general := String.eqb section "general" in
  match settings.read_section config cpu_count section s st with
  | (Return (s', broke), st') =>
      st' = st
      ∧ (if debian then
           match settings.config_get config "debian" "storedirectory",
                 settings.config_get config "debian" "debianmirror" with
           | None, _ => s' = s ∧ broke = true
           | Some v, None =>
               s' = settings.mkSettings (Some (pathlib.Path_of v))
                      (settings.debianmirror s) (settings.threads s)
               ∧ broke = true
           | Some v, Some m =>
               s' = settings.mkSettings (Some (pathlib.Path_of v)) m
                      (settings.threads s)
               ∧ broke = false
           end
         else
           broke = false
           ∧ settings.storedirectory s' = settings.storedirectory s
           ∧ settings.debianmirror s' = settings.debianmirror s
           ∧ if general then
               ∃ n, settings.threads s' = Some n ∧ (1 ≤ n ≤ cpu_count)%Z
             else settings.threads s' = settings.threads s)
  | (Raise e, st') =>
      st' = st ∧ exc_type e = ValueError ∧ section = "general"
      ∧ ∃ v, settings.config_get config "general" "threads" = Some v
           ∧ (str.int v st).1 = Raise e
  end.
Proof.
  intros Hcpu. cbv zeta. unfold settings.read_section.
  destruct (String.eqb_spec section "debian") as [->|Hd].
  { destruct (settings.config_get config "debian" "storedirectory");
      [|done].
    by destruct (settings.config_get config "debian" "debianmirror"). }
  destruct (String.eqb_spec section "general") as [->|Hg]; [|done].
  destruct (settings.config_get config "general" "threads") as [v|] eqn:Hv.
  2:{ cbn. repeat (split; [done|]). exists cpu_count. split; [done|lia]. }
  unfold mbind, M_bind. pose proof (int_run v st) as Hst.
  destruct (str.int v st) as [[n|e] st1] eqn:Hint; cbn in Hst; subst st1.
  - cbn. repeat (split; [done|]). eexists. split; [reflexivity|].
    destruct (Z.ltb_spec (Z.min n cpu_count) 1); lia.
  - split; [done|]. split.
    + revert Hint. unfold str.int. cbv zeta.
      destruct (match str.int_strip v with String _ _ => _ | _ => _ end);
        [done|]. by intros [= <-].
    + split; [done|]. exists v. by rewrite Hint.
Qed.

Lemma read_sections_run {S} config cpu_count : (1 ≤ cpu_count)%Z →
  ∀ sections s (st : S) r st',
  settings.read_sections config cpu_count sections s st = (r, st') →
  st' = st
  ∧ match r with
    | Return s' =>
        (settings.storedirectory s' = settings.storedirectory s
         ∨ "debian" ∈ sections
           ∧ ∃ v, settings.config_get config "debian" "storedirectory"
                  = Some v
                ∧ settings.storedirectory s' = Some (pathlib.Path_of v))
        ∧ (settings.debianmirror s' = settings.debianmirror s
           ∨ "debian" ∈ sections
             ∧ settings.config_get config "debian" "debianmirror"
               = Some (settings.debianmirror s'))
        ∧ (∀ n, settings.threads s' = Some n →
                settings.threads s = Some n ∨ (1 ≤ n ≤ cpu_count)%Z)
    | Raise e =>
        exc_type e = ValueError ∧ "general" ∈ sections
        ∧ ∃ v, settings.config_get config "general" "threads" = Some v
             ∧ (str.int v st).1 = Raise e
    end.
Proof.
  intros Hcpu. induction sections as [|section sections IH];
    intros s st r st'.
  - intros [= <- <-]. split; [done|]. split; [by left|].
    split; [by left|]. intros n. by left.
  - cbn [settings.read_sections]. unfold mbind, M_bind.
    pose proof (read_section_run config cpu_count section s st Hcpu) as Hsec.
    cbv zeta in Hsec.
    destruct (settings.read_section config cpu_count section s st)
      as [[[s1 broke]|e] st1].
    2:{ destruct Hsec as (-> & He & -> & Hv). intros [= <- <-].
        split; [done|]. split; [done|]. split; [left|done]. }
    destruct Hsec as [-> Hsec]. cbn [fst snd].
    destruct (String.eqb_spec section "debian") as [->|Hd].
    + destruct (settings.config_get config "debian" "storedirectory")
        as [v|] eqn:Hv.
      2:{ destruct Hsec as [-> ->]. intros [= <- <-]. split; [done|].
          split; [by left|]. split; [by left|]. intros n. by left. }
      destruct (settings.config_get config "debian" "debianmirror")
        as [m|] eqn:Hm.
      2:{ destruct Hsec as [-> ->]. intros [= <- <-]. split; [done|]. cbn.
          split; [right; split; [left|by exists v]|].
          split; [by left|]. intros n. by left. }
      destruct Hsec as [-> ->].
      intros [-> Hrest]%IH. split; [done|].
      destruct r as [s'|e].
      * destruct Hrest as (Hsd & Hdm & Hth). cbn in Hsd, Hdm, Hth.
        split; [right; split; [left|]|].
        { destruct Hsd as [Hsd|(_ & v' & Hv' & Hsd)]; [by exists v|].
          by exists v'. }
        split; [right; split; [left|]|done].
        destruct Hdm as [->|(_ & Hdm)]; done.
      * destruct Hrest as (He & Hin & Hv'). split; [done|].
        split; [by right|done].
    + destruct Hsec as (-> & Hsd1 & Hdm1 & Hth1).
      intros [-> Hrest]%IH. split; [done|].
      destruct r as [s'|e].
      * destruct Hrest as (Hsd & Hdm & Hth). rewrite <- Hsd1, <- Hdm1.
        split.
        { destruct Hsd as [Hsd|(Hin & Hsd)]; [by left|right].
          split; [by right|done]. }
        split.
        { destruct Hdm as [Hdm|(Hin & Hdm)]; [by left|right].
          split; [by right|done]. }
        intros n [Hn|Hn]%Hth; [|by right].
        destruct (String.eqb section "general").
        -- destruct Hth1 as (n' & Hn' & Hbound). right. congruence.
        -- left. congruence.
      * destruct Hrest as (He & Hin & Hv'). split; [done|].
        split; [by right|done].
Qed.

Lemma read_sections_all {S} config cpu_count v m :
  (1 ≤ cpu_count)%Z →
  settings.config_get config "debian" "storedirectory" = Some v →
  settings.config_get config "debian" "debianmirror" = Some m →
  ∀ sections s (st : S) s' st',
  settings.read_sections config cpu_count sections s st = (Return s', st') →
  (settings.threads s' = None
   ↔ settings.threads s = None ∧ "general" ∉ sections).
Proof.
  intros Hcpu Hv Hm. induction sections as [|section sections IH];
    intros s st s' st'.
  - intros [= <- <-]. split; [intros ?; split; [done|]|by intros [? _]].
    by intros ?%elem_of_nil.
  - cbn [settings.read_sections]. unfold mbind, M_bind.
    pose proof (read_section_run config cpu_count section s st Hcpu) as Hsec.
    cbv zeta in Hsec.
    destruct (settings.read_section config cpu_count section s st)
      as [[[s1 broke]|e] st1]; [|done].
    destruct Hsec as [-> Hsec]. cbn [fst snd].
    destruct (String.eqb_spec section "debian") as [->|Hd].
    + rewrite Hv, Hm in Hsec. destruct Hsec as [-> ->].
      intros ->%IH. cbn. rewrite not_elem_of_cons.
      split; [intros [? ?]|intros [? [_ ?]]]; done.
    + destruct Hsec as (-> & _ & _ & Hth). intros ->%IH.
      rewrite not_elem_of_cons.
      destruct (String.eqb_spec section "general") as [->|Hg].
      * destruct Hth as (n & -> & _).
        split; [by intros [[=] _]|by intros [_ [? _]]].
      * rewrite Hth. split; [intros [? ?]|intros [? [_ ?]]]; done.
Qed.

(** X16: the settings that [main] goes on with.  When the reading of the
    settings lets [main] go on, the file has a section [debian] that gives
    the store directory and a mirror that is not the empty string; the
    number of worker processes is at least 1 and at most the number of
    processors; and that number has no value at all exactly when the file
    has no section [general].  Otherwise [main] ends with [sys.exit(1)],
    or with the [ValueError] of a [threads] option that is no number. *)
Theorem the_settings_that_main_reads {S} config cpu_count (st : S) r st' :
  (1 ≤ cpu_count)%Z →
  settings.read_settings config cpu_count st = (r, st') →
  match r with
  | Return (go_on s) =>
      "debian" ∈ settings.sections config
      ∧ (∃ v, settings.config_get config "debian" "storedirectory" = Some v
            ∧ settings.storedirectory s = Some (pathlib.Path_of v))
      ∧ settings.config_get config "debian" "debianmirror"
        = Some (settings.debianmirror s)
      ∧ settings.debianmirror s ≠ ""
      ∧ (∀ n, settings.threads s = Some n → (1 ≤ n ≤ cpu_count)%Z)
      ∧ (settings.threads s = None
         ↔ "general" ∉ settings.sections config)
  | Return (sys_exit status) => status = 1%Z
  | Raise e =>
      exc_type e = ValueError ∧ "general" ∈ settings.sections config
      ∧ ∃ v, settings.config_get config "general" "threads" = Some v
           ∧ (str.int v st).1 = Raise e
  end.
Proof.
  intros Hcpu. unfold settings.read_settings. unfold mbind, M_bind.
  destruct (settings.read_sections config cpu_count
              (settings.sections config)
              (settings.mkSettings None "" None) st) as [[s|e] st1] eqn:Hrun.
  2:{ intros [= <- <-].
      by destruct (read_sections_run _ _ Hcpu _ _ _ _ _ Hrun) as [_ ?]. }
  destruct (read_sections_run _ _ Hcpu _ _ _ _ _ Hrun)
    as (-> & Hsd & Hdm & Hth). cbn in Hsd, Hdm, Hth.
  destruct (String.eqb_spec (settings.debianmirror s) "") as [He|Hne];
    [by intros [= <- <-]|].
  destruct (settings.storedirectory s) as [p|] eqn:Hp;
    [|by intros [= <- <-]].
  intros [= <- <-].
  destruct Hsd as [[=]|(Hin & v & Hv & Hsd)].
  destruct Hdm as [Hdm|(_ & Hdm)]; [done|].
  split; [done|]. split; [exists v; by rewrite Hp|]. split; [done|].
  split; [done|]. split.
  - intros n [[=]|?]%Hth. done.
  - rewrite (read_sections_all config cpu_count v _ Hcpu Hv Hdm _ _ _ _ _
               Hrun). cbn. split; [by intros [_ ?]|done].
Qed.

Lemma the_settings_that_main_reads_witness :
  ∃ s, (settings.read_settings sample_config 8 tt).1 = Return (go_on s)
     ∧ settings.storedirectory s = Some ["/"; "srv"; "debian"]
     ∧ settings.threads s = Some 8%Z
     ∧ (∀ n, settings.threads s = Some n → (1 ≤ n ≤ 8)%Z).
Proof.
  eexists. split; [vm_compute; reflexivity|].
  split; [reflexivity|]. split; [reflexivity|].
  pose proof (the_settings_that_main_reads sample_config 8 tt
                (settings.read_settings sample_config 8 tt).1
                (settings.read_settings sample_config 8 tt).2) as Hread.
  cbv beta iota zeta in Hread.
  destruct Hread as (_ & _ & _ & _ & Hth & _); [lia| |exact Hth].
  apply (run_with_result (settings.read_settings sample_config 8 tt)).
  reflexivity.
Defined.

Lemma collect_failedfiles_run files : ∀ turns failedfiles w,
  items (failqueue w) = files →
  (length files ≤ unfinished_tasks (failqueue w))%nat →
  (length files < turns)%nat →
  failed.collect_failedfiles turns failedfiles w
  = (Return (Some (failedfiles ++ files)),
     set_failqueue
       (mkQueue [] (unfinished_tasks (failqueue w) - length files)) w).
Proof.
  induction files as [|f files IH]; intros turns acc w Hitems Hn Hturns;
    (destruct turns as [|turns]; [cbn in Hturns; lia|]);
    cbn [failed.collect_failedfiles];
    unfold failed.failqueue_get_nowait, mbind at 1, M_bind at 1;
    unfold mbind at 1, M_bind at 1, get at 1; rewrite Hitems.
  - unfold mret, M_ret. rewrite app_nil_r. cbn [length].
    rewrite Nat.sub_0_r. destruct w as [? ? ? [? ?] ?]. cbn in *.
    by subst.
  - cbn [length] in Hn, Hturns.
    unfold mbind at 1, M_bind at 1, modify at 1, mret at 1, M_ret at 1.
    unfold failed.failqueue_task_done, mbind at 1, M_bind at 1.
    unfold mbind at 1, M_bind at 1, get at 1.
    cbn [failqueue set_failqueue unfinished_tasks items].
    destruct (unfinished_tasks (failqueue w)) as [|n] eqn:Hunf; [lia|].
    unfold modify. rewrite IH by (cbn; first [done|lia]).
    rewrite <- app_assoc. cbn. do 3 f_equal.
Qed.

(** X17: the loop at the end of [main] takes from the fail queue all the
    names that wait in it, in their order, and has called [task_done] for
    each: with more turns than there are names it is left with the list of
    these names and an empty queue, and a queue that counted only these
    names lets [join] return. *)
Theorem the_failed_files_are_collected turns w :
  (length (items (failqueue w)) ≤ unfinished_tasks (failqueue w))%nat →
  (length (items (failqueue w)) < turns)%nat →
  failed.collect_failedfiles turns [] w
  = (Return (Some (items (failqueue w))),
     set_failqueue
       (mkQueue []
          (unfinished_tasks (failqueue w) - length (items (failqueue w))))
       w).
Proof.
  intros Hn Hturns.
  by apply (collect_failedfiles_run (items (failqueue w)) turns [] w).
Qed.

Lemma the_failed_files_are_collected_witness :
  let w := set_failqueue (mkQueue ["hello_2.10-3.dsc"; "hello_2.10-3.diff.gz"]
                            2) sample_world in
  failed.collect_failedfiles 3 [] w
  = (Return (Some (items (failqueue w))),
     set_failqueue
       (mkQueue []
          (unfinished_tasks (failqueue w) - length (items (failqueue w))))
       w).
Proof.
  intros w. apply (the_failed_files_are_collected 3 w); cbn; lia.
Defined.

Global Instance fs_kept_preorder : PreOrder fs_kept.
Proof.
  split; [done|]. unfold fs_kept. intros w1 w2 w3 H1 H2. congruence.
Qed.

Lemma fs_kept_deb_loop archs p z dirs : ∀ st,
  respects fs_kept (deb_loop archs p z dirs st).
Proof.
  induction archs as [|arch archs IH]; intros st; simpl.
  - respects_step.
  - repeat first [apply IH | apply respects_modify; done | respects_step].
Qed.

Lemma fs_kept_walk_lines decode dirs lines : ∀ st,
  respects fs_kept (walk_lines decode dirs lines st).
Proof.
  induction lines as [|i lines IH]; intros st; cbn [walk_lines].
  - respects_step.
  - respects_step.
    + unfold walk_line, walk_file, downloadqueue_put.
      respects_step; [apply (respects_pure _)|].
      repeat first [apply fs_kept_deb_loop
                   | apply respects_modify; done | respects_step].
    + respects_step; [respects_step|apply IH].
Qed.

Lemma fs_kept_walk gzip_lines decode dirs meta_outname :
  respects fs_kept
    (modify (set_downloadqueue empty_queue) ;;
     modify (set_failqueue empty_queue) ;;
     st ← walk_listing gzip_lines decode dirs meta_outname;
     mret (go_on st)).
Proof.
  unfold walk_listing, read_file, os_error.
  repeat first [apply fs_kept_walk_lines | apply respects_modify; done
               | respects_step].
Qed.

Lemma check_hash_writes hexdigest store meta_outname req_content w z :
  fs w !! store = Some (Dir z) →
  fs w !! (store ++ ["HASH"]) = None
  ∨ (∃ old, fs w !! (store ++ ["HASH"]) = Some (File old)
          ∧ old ≠ hexdigest req_content) →
  check_hash hexdigest store meta_outname req_content w
  = (Return (go_on tt),
     written (store ++ ["HASH"]) (hexdigest req_content) w).
Proof.
  intros Hstore Hhash. unfold check_hash. cbv zeta.
  change (pathlib.Path_join store ["HASH"]) with (store ++ ["HASH"]).
  assert (pathlib.parent (store ++ ["HASH"]) = store) as Hparent
    by apply parent_snoc.
  unfold path_exists, read_file, unlink, write_file, os_error, raise,
    mbind, M_bind, get, mret, M_ret, modify.
  destruct Hhash as [Hhash|(old & Hhash & Hold)].
  - rewrite Hhash, bool_decide_eq_false_2 by (intros [? [=]]).
    cbv beta iota. by rewrite Hhash, Hparent, Hstore.
  - rewrite Hhash, bool_decide_eq_true_2 by eauto.
    cbv beta iota. rewrite Hhash. cbv beta iota.
    apply String.eqb_neq in Hold. rewrite Hold.
    by rewrite Hhash, Hparent, Hstore.
Qed.

(** X18: the state file is written before the listing is walked.  When
    [main] has downloaded a listing that HASH does not know, then however
    the walk goes, also when it ends with an exception, HASH holds the
    digest of the new listing at the end of the walk, and [main] has not
    left through [sys.exit]. *)
Theorem the_state_file_is_written_before_the_walk
    hexdigest gzip_lines decode store debianmirror stamp
    w dirs w2 meta_outname req_content w3 r w' :
  is_directory w store →
  create_directories store w = (Return dirs, w2) →
  download_listing dirs debianmirror stamp w2
    = (Return (go_on (meta_outname, req_content)), w3) →
  fs w3 !! (store ++ ["HASH"]) = None
  ∨ (∃ old, fs w3 !! (store ++ ["HASH"]) = Some (File old)
          ∧ old ≠ hexdigest req_content) →
  main hexdigest gzip_lines decode store debianmirror stamp w = (r, w') →
  fs w' !! (store ++ ["HASH"]) = Some (File (hexdigest req_content))
  ∧ ∀ status, r ≠ Return (sys_exit status).
Proof.
  intros Hstore Hcreate Hdownload Hhash.
  rewrite (main_after_download _ _ _ _ _ _ _ _ _ _ _ _
             Hstore Hcreate Hdownload).
  assert (∃ z, fs w3 !! store = Some (Dir z)) as [z Hstore3].
  { assert (∃ z, fs w2 !! store = Some (Dir z)) as [z Hstore2].
    { by eapply dirs_kept_create_directories. }
    apply download_listing_go_on in Hdownload as (_ & Hfree & _ & ->).
    exists z. cbn. rewrite lookup_insert_ne; [done|]. intros <-. congruence. }
  rewrite (bind_Return _ _ _ _ _
             (check_hash_writes hexdigest store meta_outname req_content w3 z
                Hstore3 Hhash)).
  intros Hwalk. split.
  - apply fs_kept_walk in Hwalk. rewrite Hwalk. apply lookup_insert_eq.
  - intros status ->.
    apply bind_inv in Hwalk as [(? & ? & _ & Hwalk)|(? & _ & [=])].
    apply bind_inv in Hwalk as [(? & ? & _ & Hwalk)|(? & _ & [=])].
    apply bind_inv in Hwalk as [(? & ? & _ & [=])|(? & _ & [=])].
Qed.

Lemma the_state_file_is_written_before_the_walk_witness :
  let run := main sample_hexdigest sample_gzip_lines_damaged sample_decode
               sample_store "http://deb.example.org/debian"
               "20230808-120000" sample_world in
  run.1
  = Raise (mk_exception ValueError
             [PyStr "invalid literal for int() with base 10: 'hello_2.10-3.dsc'"])
  ∧ fs run.2 !! (sample_store ++ ["HASH"])
    = Some (File (sample_hexdigest "data")).
Proof.
  intros run. split; [vm_compute; reflexivity|].
  assert (is_directory sample_world sample_store) as Hstore.
  { exists 4096%Z. vm_compute. reflexivity. }
  destruct (the_state_file_is_written_before_the_walk sample_hexdigest
              sample_gzip_lines_damaged sample_decode sample_store
              "http://deb.example.org/debian" "20230808-120000" sample_world
              (layout sample_store)
              (create_directories sample_store sample_world).2
              (pathlib.Path_join (meta_data_dir (layout sample_store))
                 ["ls-lR.gz-" +:+ "20230808-120000"])
              "data"
              (download_listing (layout sample_store)
                 "http://deb.example.org/debian" "20230808-120000"
                 (create_directories sample_store sample_world).2).2
              run.1 run.2 Hstore) as [Hfs _].
  - apply create_directories_result; [exact Hstore|].
    intros q Hq. unfold skeleton in Hq. cbn in Hq.
    repeat (apply elem_of_cons in Hq as [->|Hq];
            [left; vm_compute; reflexivity|]).
    by apply elem_of_nil in Hq.
  - apply (download_listing_run _ _ _ _ _ 4096%Z); vm_compute; reflexivity.
  - left. vm_compute. reflexivity.
  - apply surjective_pairing.
  - exact Hfs.
Defined.

(** ** The crawler: from a line of the listing to the destination *)

Lemma split_nonempty sep s : str.split sep s ≠ [].
Proof.
  destruct s as [|c s]; [done|]. cbn [str.split].
  destruct (Ascii.eqb c sep); [done|]. by destruct (str.split sep s).
Qed.

Lemma append_cons c (a b : string) :
  String c a +:+ b = String c (a +:+ b).
Proof. reflexivity. Qed.

Lemma split_app sep a b :
  str.split sep (a +:+ String sep b) = str.split sep a ++ str.split sep b.
Proof.
  induction a as [|c a IH].
  - change (str.split sep (String sep b) = "" :: str.split sep b).
    cbn [str.split]. by rewrite Ascii.eqb_refl.
  - rewrite append_cons. cbn [str.split].
    destruct (Ascii.eqb c sep); [by rewrite IH|].
    rewrite IH. pose proof (split_nonempty sep a).
    by destruct (str.split sep a).
Qed.

Lemma split_without sep s : without sep s → str.split sep s = [s].
Proof.
  unfold without. induction s as [|c s IH]; [done|].
  cbn [str.split list_ascii_of_string]. rewrite not_elem_of_cons. intros [Hne Hs].
  destruct (Ascii.eqb_spec c sep) as [->|_]; [done|].
  by rewrite IH.
Qed.

Lemma concat_split sep s :
  String.concat (String sep "") (str.split sep s) = s.
Proof.
  induction s as [|c s IH]; [done|]. cbn [str.split].
  destruct (Ascii.eqb_spec c sep) as [->|Hne].
  - pose proof (split_nonempty sep s).
    destruct (str.split sep s) as [|piece pieces] eqn:Hs; [done|].
    cbn [String.concat] in *. cbn. by rewrite IH.
  - pose proof (split_nonempty sep s).
    destruct (str.split sep s) as [|piece pieces] eqn:Hs; [done|].
    rewrite <- IH. by destruct pieces.
Qed.

Lemma rsplit1_last sep a b :
  without sep b → str.rsplit1 sep (a +:+ String sep b) = [a; b].
Proof.
  intros Hb. unfold str.rsplit1.
  rewrite split_app, (split_without sep b Hb).
  pose proof (split_nonempty sep a) as Hne.
  pose proof (concat_split sep a) as Hjoin.
  destruct (str.split sep a) as [|piece pieces]; [done|].
  assert (removelast ((piece :: pieces) ++ [b]) = piece :: pieces) as Hr
    by apply removelast_last.
  assert (List.last ((piece :: pieces) ++ [b]) "" = b) as Hl
    by apply last_last.
  destruct pieces as [|piece' pieces]; cbn [app] in *.
  - cbn in Hjoin. by subst.
  - by rewrite Hr, Hl, Hjoin.
Qed.

Lemma append_assoc (a b c : string) : (a +:+ b) +:+ c = a +:+ (b +:+ c).
Proof.
  induction a as [|x a IH]; [done|]. rewrite !append_cons. by rewrite IH.
Qed.

Lemma startswith_append prefix s :
  str.startswith (prefix +:+ s) prefix = true.
Proof.
  unfold str.startswith. induction prefix as [|c prefix IH].
  - by destruct s.
  - rewrite append_cons.
    change (String.prefix (String c prefix) (String c (prefix +:+ s)))
      with (match ascii_dec c c with
            | left _ => String.prefix prefix (prefix +:+ s)
            | right _ => false
            end).
    by destruct (ascii_dec c c).
Qed.

(** X19: a line [./pool...:] of the listing opens the pool and names the
    directory of the files that follow: the text between the leading [./]
    and the last colon of the line, as a path.  The line itself queues and
    counts nothing. *)
Theorem a_pool_line_names_the_directory
    decode dirs i st w directory tail :
  decode i = Return ("./" +:+ directory +:+ String ":" tail) →
  str.startswith directory "pool" = true →
  without ":" tail →
  walk_line decode dirs i st w
  = (Return (mkWalk true (pathlib.Path_of directory) (debcounter st)
               (srccounter st) (diffcounter st) (dsccounter st), false), w).
Proof.
  intros Hi [rest ->]%startswith_inv Htail.
  rewrite walk_line_unfold, Hi.
  change ("./" +:+ ("pool" +:+ rest) +:+ String ":" tail)
    with ("./pool" +:+ rest +:+ String ":" tail) at 1.
  rewrite startswith_append.
  rewrite <- (append_assoc "./" ("pool" +:+ rest) (String ":" tail)).
  by rewrite rsplit1_last.
Qed.

Lemma a_pool_line_names_the_directory_witness :
  walk_line sample_decode (layout sample_store)
    ("./pool/main/h/hello:" +:+ newline) (mkWalk false [] 0 0 0 0)
    sample_world
  = (Return (mkWalk true (pathlib.Path_of "pool/main/h/hello") 0 0 0 0,
             false), sample_world).
Proof.
  apply (a_pool_line_names_the_directory sample_decode (layout sample_store)
           ("./pool/main/h/hello:" +:+ newline) (mkWalk false [] 0 0 0 0)
           sample_world "pool/main/h/hello" newline).
  - reflexivity.
  - reflexivity.
  - unfold without. apply (bool_decide_unpack _). vm_compute. reflexivity.
Defined.

Lemma single_part_relative s :
  single_part s → pathlib.is_absolute s = false.
Proof.
  intros (Hne & _ & Hslash). unfold pathlib.is_absolute, str.startswith.
  destruct s as [|c s]; [done|].
  change (String.prefix "/" (String c s))
    with (match ascii_dec "/" c with
          | left _ => String.prefix "" s
          | right _ => false
          end).
  destruct (ascii_dec "/" c) as [<-|]; [|done].
  destruct Hslash. unfold without. cbn. left.
Qed.

Lemma parse_parts_single s : single_part s → pathlib.parse_parts s = [s].
Proof.
  intros Hs. unfold pathlib.parse_parts.
  rewrite (single_part_relative s Hs).
  destruct Hs as (Hne & Hdot & Hslash).
  rewrite (split_without "/" s Hslash).
  by rewrite filter_cons_True.
Qed.

Lemma Path_join_single base part filename :
  single_part part → single_part filename →
  pathlib.Path_join base [part; filename] = base ++ [part; filename].
Proof.
  intros Hpart Hfile. unfold pathlib.Path_join. cbn [foldl].
  rewrite !truediv_relative by by apply single_part_relative.
  rewrite !parse_parts_single by done. by rewrite <- app_assoc.
Qed.

Lemma Path_of_pool part rest :
  single_part part →
  pathlib.Path_of ("pool/" +:+ part) = ["pool"; part]
  ∧ pathlib.Path_of ("pool/" +:+ part +:+ String "/" rest) !! 1%nat
    = Some part.
Proof.
  intros (Hne & Hdot & Hslash). unfold pathlib.Path_of, pathlib.parse_parts.
  assert (str.split "/" "pool" = ["pool"]) as Hpool by reflexivity.
  split.
  - change ("pool/" +:+ part) with ("pool" +:+ String "/" part).
    rewrite split_app, (split_without "/" part Hslash), Hpool.
    change (pathlib.is_absolute ("pool" +:+ String "/" part)) with false.
    cbn [app]. rewrite filter_cons_True by done.
    by rewrite filter_cons_True.
  - change ("pool/" +:+ part +:+ String "/" rest)
      with ("pool" +:+ String "/" (part +:+ String "/" rest)).
    rewrite !split_app, (split_without "/" part Hslash), Hpool.
    change (pathlib.is_absolute
              ("pool" +:+ String "/" (part +:+ String "/" rest)))
      with false.
    cbn [app]. rewrite filter_cons_True by done.
    by rewrite filter_cons_True.
Qed.

Lemma resultfilename_listed
    directory part rest filename filesize basestoredirectory :
  single_part part → single_part filename →
  directory = "pool/" +:+ part
  ∨ directory = "pool/" +:+ part +:+ String "/" rest →
  resultfilename (pathlib.Path_of directory, filename, filesize,
                  basestoredirectory)
  = Some (basestoredirectory ++ [part; filename]).
Proof.
  intros Hpart Hfile Hdir. unfold resultfilename.
  destruct (Path_of_pool part rest Hpart) as [Hplain Hbelow].
  destruct Hdir as [-> | ->].
  - rewrite Hplain. change (["pool"; part] !! 1%nat) with (Some part).
    cbn [mbind option_bind]. by rewrite Path_join_single.
  - rewrite Hbelow. cbn [mbind option_bind]. by rewrite Path_join_single.
Qed.

(** X20: where the worker puts a file of the listing.  For a file with a
    plain name, listed in a directory [pool/<part>] or below it, a turn of
    the worker that gets the file from the mirror writes it to
    [<part>/<name>] in the directory of the task: the second part of the
    listed directory decides, whatever comes after it; the directory of the
    task and [<part>] in it have to be there. *)
Theorem a_listed_file_goes_to_part_and_name
    debianmirror directory part rest filename filesize basestoredirectory
    w c :
  single_part part → single_part filename →
  directory = "pool/" +:+ part
  ∨ directory = "pool/" +:+ part +:+ String "/" rest →
  let t : task := (pathlib.Path_of directory, filename, filesize,
                   basestoredirectory) in
  let p := basestoredirectory ++ [part; filename] in
  fs w !! p = None →
  is_directory w (basestoredirectory ++ [part]) →
  unfinished_tasks (downloadqueue w) ≠ 0%nat →
  mirror w (downloadurl debianmirror t) = Return (mkResponse 200 c) →
  downloadfile_task debianmirror t w
  = (Return tt,
     task_done (written p c (requested (downloadurl debianmirror t) w))).
Proof.
  intros Hpart Hfile Hdir t p Hfree Hparent Hn Hget.
  rewrite (downloadfile_task_unfold debianmirror t p w)
    by by eapply resultfilename_listed.
  rewrite Hfree. apply download_succeeds_run; [done| |done|done].
  unfold p.
  change (basestoredirectory ++ [part; filename])
    with (basestoredirectory ++ [part] ++ [filename]).
  by rewrite app_assoc, parent_snoc.
Qed.

Lemma a_listed_file_goes_to_part_and_name_witness :
  let t : task := (pathlib.Path_of "pool/main/h/hello", "hello_2.10-3.dsc",
                   1234%Z, sample_store ++ ["dsc"]) in
  let p := (sample_store ++ ["dsc"]) ++ ["main"; "hello_2.10-3.dsc"] in
  let w := set_fs (delete p (fs sample_world_downloaded))
             sample_world_downloaded in
  downloadfile_task "http://deb.example.org/debian" t w
  = (Return tt,
     task_done
       (written p "data"
          (requested (downloadurl "http://deb.example.org/debian" t) w))).
Proof.
  intros t p w.
  apply (a_listed_file_goes_to_part_and_name "http://deb.example.org/debian"
           "pool/main/h/hello" "main" "h/hello" "hello_2.10-3.dsc" 1234%Z
           (sample_store ++ ["dsc"]) w "data").
  - split; [done|]. split; [done|]. unfold without.
    apply (bool_decide_unpack _). vm_compute. reflexivity.
  - split; [done|]. split; [done|]. unfold without.
    apply (bool_decide_unpack _). vm_compute. reflexivity.
  - by right.
  - vm_compute. reflexivity.
  - exists 4096%Z. vm_compute. reflexivity.
  - vm_compute. discriminate.
  - reflexivity.
Defined.

Lemma resultfilename_absolute
    debiandir part debianfile debiansize basestoredirectory :
  debiandir !! 1%nat = Some part →
  str.startswith debianfile "/" = true →
  resultfilename (debiandir, debianfile, debiansize, basestoredirectory)
  = Some (pathlib.Path_of debianfile)
  ∧ ∃ parts, pathlib.Path_of debianfile = pathlib.root debianfile :: parts.
Proof.
  intros Hpart Habs. unfold resultfilename. rewrite Hpart.
  cbn [mbind option_bind]. unfold pathlib.Path_join. cbn [foldl].
  rewrite (truediv_absolute _ debianfile Habs). split; [done|].
  unfold pathlib.Path_of, pathlib.parse_parts, pathlib.is_absolute.
  rewrite Habs. by eexists.
Qed.

(** X21: a file name that begins with a slash is an absolute path, and it
    is the destination: a turn of the worker that gets such a file from the
    mirror writes it to the path that the name gives, from the root, which
    is [//] for a name with exactly two leading slashes and [/] for any
    other, whatever the directory of the task and the listed directory
    are. *)
Theorem an_absolute_name_is_its_own_destination
    debianmirror debiandir part debianfile debiansize basestoredirectory
    w c :
  debiandir !! 1%nat = Some part →
  str.startswith debianfile "/" = true →
  let t : task := (debiandir, debianfile, debiansize, basestoredirectory) in
  let p := pathlib.Path_of debianfile in
  fs w !! p = None →
  is_directory w (pathlib.parent p) →
  unfinished_tasks (downloadqueue w) ≠ 0%nat →
  mirror w (downloadurl debianmirror t) = Return (mkResponse 200 c) →
  (∃ parts,
     p = (if str.startswith debianfile "//"
             && negb (str.startswith debianfile "///")
          then "//" else "/") :: parts)
  ∧ downloadfile_task debianmirror t w
    = (Return tt,
       task_done (written p c (requested (downloadurl debianmirror t) w))).
Proof.
  intros Hpart Habs t p Hfree Hparent Hn Hget.
  destruct (resultfilename_absolute debiandir part debianfile debiansize
              basestoredirectory Hpart Habs) as [Hres Hroot].
  split; [done|].
  rewrite (downloadfile_task_unfold debianmirror t p w Hres), Hfree.
  by apply download_succeeds_run.
Qed.

Lemma an_absolute_name_is_its_own_destination_witness :
  let st := mkWalk true ["pool"; "main"; "h"; "hello"] 0 0 0 0 in
  let w := (walk_file (layout sample_store) rooted_line st
              sample_world_downloaded).2 in
  let t : task := (["pool"; "main"; "h"; "hello"], "/srv/hello_2.10-3.dsc",
                   1234%Z, sample_store ++ ["dsc"]) in
  last (items (downloadqueue w)) = Some t
  ∧ downloadfile_task "http://deb.example.org/debian" t w
    = (Return tt,
       task_done
         (written ["/"; "srv"; "hello_2.10-3.dsc"] "data"
            (requested (downloadurl "http://deb.example.org/debian" t) w))).
Proof.
  intros st w t. split; [vm_compute; reflexivity|].
  apply (an_absolute_name_is_its_own_destination
           "http://deb.example.org/debian" ["pool"; "main"; "h"; "hello"]
           "main" "/srv/hello_2.10-3.dsc" 1234%Z (sample_store ++ ["dsc"])
           w "data").
  - reflexivity.
  - reflexivity.
  - vm_compute. reflexivity.
  - exists 4096%Z. vm_compute. reflexivity.
  - vm_compute. discriminate.
  - reflexivity.
Defined.

Lemma plain_directory_relative s :
  plain_directory s → pathlib.is_absolute s = false.
Proof.
  intros Hs. destruct (pathlib.is_absolute s) eqn:Habs; [|done].
  apply startswith_inv in Habs as [rest ->].
  unfold plain_directory in Hs.
  change ("/" +:+ rest) with ("" +:+ String "/" rest) in Hs.
  rewrite split_app in Hs. cbn in Hs.
  apply Forall_cons in Hs as [[? _] _]. done.
Qed.

Lemma to_str_Path_of s : plain_directory s → pathlib.to_str (pathlib.Path_of s) = s.
Proof.
  intros Hs. unfold pathlib.Path_of, pathlib.parse_parts.
  rewrite (plain_directory_relative s Hs). cbn [app].
  assert (filter (λ c, c ≠ "" ∧ c ≠ ".") (str.split "/" s) = str.split "/" s)
    as ->.
  { unfold plain_directory in Hs. induction Hs as [|c l Hc _ IH]; [done|].
    rewrite filter_cons_True by done. by rewrite IH. }
  pose proof (split_no_leading_separator "/" s) as Hsep.
  pose proof (split_nonempty "/" s) as Hne.
  pose proof (concat_split "/" s) as Hjoin.
  unfold pathlib.to_str.
  destruct (str.split "/" s) as [|piece pieces]; [done|].
  apply Forall_cons in Hsep as [Hpiece _].
  destruct piece as [|c piece]; [done|].
  destruct (Ascii.eqb_spec c "/") as [->|Hc]; [by destruct (Hpiece piece)|].
  destruct c as [[] [] [] [] [] [] [] []]; try done;
    destruct piece as [|c' piece]; try done;
    destruct c' as [[] [] [] [] [] [] [] []]; try done;
    destruct piece; done.
Qed.

(** X22: the address a worker asks the mirror for.  The directory of a
    section goes through [pathlib.Path] and back to a string; for a
    directory as the listing writes it this gives the directory again, so
    the request for a file that is not there yet is for
    [<mirror>/<directory>/<name>], and it is the first call of the
    turn. *)
Theorem the_request_of_a_turn
    debianmirror directory filename filesize basestoredirectory p w r w' :
  plain_directory directory →
  let t : task := (pathlib.Path_of directory, filename, filesize,
                   basestoredirectory) in
  resultfilename t = Some p →
  fs w !! p = None →
  downloadfile_task debianmirror t w = (r, w') →
  ∃ evs, trace w' = trace w
                    ++ ev_requests_get
                         (debianmirror +:+ "/" +:+ directory +:+ "/"
                            +:+ filename) :: evs.
Proof.
  intros Hdir t Hres Hfree.
  rewrite (downloadfile_task_unfold debianmirror t p w Hres), Hfree.
  intros [evs Hevs]%download_trace. exists evs. rewrite Hevs.
  unfold downloadurl, t. by rewrite to_str_Path_of.
Qed.

Lemma the_request_of_a_turn_witness :
  let t : task := (pathlib.Path_of "pool/main/h/hello", "hello_2.10-3.dsc",
                   1234%Z, sample_store ++ ["dsc"]) in
  let w := (sample_main_main sample_world).2 in
  let w' := (downloadfile_task "http://deb.example.org/debian" t w).2 in
  ∃ evs, trace w' = trace w
                    ++ ev_requests_get
                         ("http://deb.example.org/debian" +:+ "/"
                            +:+ "pool/main/h/hello" +:+ "/"
                            +:+ "hello_2.10-3.dsc") :: evs.
Proof.
  intros t w w'.
  apply (the_request_of_a_turn "http://deb.example.org/debian"
           "pool/main/h/hello" "hello_2.10-3.dsc" 1234%Z
           (sample_store ++ ["dsc"])
           (sample_store ++ ["dsc"; "main"; "hello_2.10-3.dsc"]) w
           (downloadfile_task "http://deb.example.org/debian" t w).1 w').
  - unfold plain_directory.
    change (str.split "/" "pool/main/h/hello")
      with ["pool"; "main"; "h"; "hello"].
    repeat constructor; done.
  - reflexivity.
  - vm_compute. reflexivity.
  - apply surjective_pairing.
Defined.

(** ** The crawler: [main] keeps to the store *)

Global Instance calls_in_store_preorder store : PreOrder (calls_in_store store).
Proof.
  split.
  - intros w. exists []. by rewrite app_nil_r.
  - intros w1 w2 w3 (evs1 & H1 & Hok1) (evs2 & H2 & Hok2).
    exists (evs1 ++ evs2). rewrite H2, H1, app_assoc. split; [done|].
    by apply Forall_app.
Qed.



Section calls_in_store_primitives.
Context (store : pathlib.Path).












End calls_in_store_primitives.







Global Instance only_new_directories_preorder : PreOrder only_new_directories.
Proof.
  split; [intros w p; by left|]. intros w1 w2 w3 H1 H2 p.
  destruct (H1 p) as [E1|(E1 & z1 & F1)], (H2 p) as [E2|(E2 & z2 & F2)].
  - left. congruence.
  - right. split; [congruence|eauto].
  - right. split; [done|]. exists z1. congruence.
  - congruence.
Qed.

Lemma only_new_directories_mkdir_if_missing p :
  respects only_new_directories (mkdir_if_missing p).
Proof.
  intros w r w'.
  unfold mkdir_if_missing, path_exists, mkdir, os_error, raise, modify, mbind,
    M_bind, get, mret, M_ret.
  destruct (fs w !! p) as [n|] eqn:Hp.
  { rewrite bool_decide_eq_true_2 by eauto. intros [= <- <-] q. by left. }
  rewrite bool_decide_eq_false_2 by (intros [? [=]]). rewrite Hp.
  destruct (fs w !! pathlib.parent p) as [[z|c]|];
    intros [= <- <-] q; try by left.
  cbn. destruct (decide (p = q)) as [<-|Hne].
  - right. split; [done|]. exists 4096%Z. apply lookup_insert_eq.
  - left. by rewrite lookup_insert_ne.
Qed.

(** X24: the making of the directories only adds directories: a path
    names afterwards what it named before, or it named nothing and names a
    directory now.  No file is replaced and nothing is removed, also when a
    name that [main] wants for a directory is taken by a file and the
    making ends with an exception. *)
Theorem create_directories_only_adds store w r w' :
  create_directories store w = (r, w') →
  ∀ p, fs w' !! p = fs w !! p
       ∨ (fs w !! p = None ∧ ∃ z, fs w' !! p = Some (Dir z)).
Proof.
  revert w r w'.
  change (respects only_new_directories (create_directories store)).
  unfold create_directories. cbv zeta.
  repeat first [apply only_new_directories_mkdir_if_missing | respects_step].
Qed.

Lemma create_directories_only_adds_witness :
  let w := sample_world_seen in
  let w' := (create_directories sample_store w).2 in
  let p := sample_store ++ ["HASH"] in
  fs w' !! p = fs w !! p
  ∨ (fs w !! p = None ∧ ∃ z, fs w' !! p = Some (Dir z)).
Proof.
  intros w w' p.
  apply (create_directories_only_adds sample_store w
           (create_directories sample_store w).1 w').
  apply surjective_pairing.
Defined.

(** ** The crawler: a whole run *)

(** X25: a run with one worker, from [main] to the list of failed files.
    When [main] has walked the listing and every task it has queued can be
    carried out, a worker that is given more turns than there are tasks
    ends up waiting on the empty queue with no task left unfinished, so
    that [downloadqueue.join()] returns; the loop over the fail queue then
    collects the names that the worker has put there and leaves the fail
    queue empty with nothing unfinished, so that [failqueue.join()]
    returns; and these names are names of queued files, no more than
    [main] has counted. *)
Theorem a_run_with_one_worker_ends
    hexdigest gzip_lines decode store debianmirror stamp w st w1 turns :
  main hexdigest gzip_lines decode store debianmirror stamp w
    = (Return (go_on st), w1) →
  Forall (downloadable debianmirror w1) (items (downloadqueue w1)) →
  (length (items (downloadqueue w1)) < turns)%nat →
  ∃ w2 w3 failedfiles,
    downloadfile turns debianmirror w1 = (Return waiting_in_get, w2)
    ∧ unfinished_tasks (downloadqueue w2) = 0%nat
    ∧ items (downloadqueue w2) = []
    ∧ failed.collect_failedfiles (S (length failedfiles)) [] w2
      = (Return (Some failedfiles), w3)
    ∧ failqueue w3 = empty_queue
    ∧ failedfiles `sublist_of` (debianfile_of <$> items (downloadqueue w1))
    ∧ (length failedfiles
       ≤ debcounter st + srccounter st + diffcounter st + dsccounter st)%nat.
Proof.
  intros [(Hn & Hsum & _) Hfail]%main_counters Hgood Hturns.
  destruct (downloadfile_drains debianmirror (items (downloadqueue w1))
              turns w1 eq_refl Hgood) as
    (w2 & failedfiles & Hrun & Hitems & Hunf & Hfi & Hfu & Hsub);
    [lia|done|].
  rewrite Hfail in Hfi, Hfu. cbn in Hfi, Hfu.
  exists w2. eexists. exists failedfiles.
  split; [done|]. split; [lia|]. split; [done|].
  split.
  { apply (collect_failedfiles_run failedfiles (S (length failedfiles)) []
             w2); [done|lia|lia]. }
  split; [cbn; by rewrite Hfu, Nat.sub_diag|]. split; [done|].
  apply sublist_length in Hsub. rewrite length_fmap in Hsub. lia.
Qed.

Lemma a_run_with_one_worker_ends_witness :
  let st := mkWalk true ["pool"; "main"; "h"; "hello"] 1 1 1 1 in
  let w1 := (sample_main_main sample_world).2 in
  ∃ w2 w3 failedfiles,
    downloadfile 5 "http://deb.example.org/debian" w1
    = (Return waiting_in_get, w2)
    ∧ unfinished_tasks (downloadqueue w2) = 0%nat
    ∧ items (downloadqueue w2) = []
    ∧ failed.collect_failedfiles (S (length failedfiles)) [] w2
      = (Return (Some failedfiles), w3)
    ∧ failqueue w3 = empty_queue
    ∧ failedfiles `sublist_of` (debianfile_of <$> items (downloadqueue w1))
    ∧ (length failedfiles
       ≤ debcounter st + srccounter st + diffcounter st + dsccounter st)%nat.
Proof.
  intros st w1. destruct sample_queue_downloadable as (Hgood & Hlen & Hn).
  apply (a_run_with_one_worker_ends sample_hexdigest sample_gzip_lines_main
           sample_decode sample_store "http://deb.example.org/debian"
           "20230808-120000" sample_world st w1 5).
  - apply (run_with_result (sample_main_main sample_world)).
    vm_compute. reflexivity.
  - exact Hgood.
  - fold w1 in Hlen. rewrite Hlen. lia.
Defined.
